(** * Block-to-action normalizer of the TON indexer

    A shallow embedding of
    [indexer/indexer/events/blocks/utils/block_tree_serializer.py]
    and the properties of its action records.

    Conventions of the embedding.
    - A Python [str] is a [string] holding the UTF-8 encoding of the text, so
      [str.encode()] is the list of its bytes and [bytes.decode("utf-8")]
      validates the bytes.  [bytes] is [list byte], [int] is [Z].
    - A value the serializer tests against [None] (or for truth) is an
      [option]; a dict key it tests with [in], or reads only under a guard,
      is an [option] as well ([None]: the key is absent).  A value it
      dereferences without any test has the type of the object that is
      dereferenced.  Values that are only copied are [pyval]s.
    - The serializer raises, prints and logs: functions that do so live in
      the monad [M] (an outcome and the diagnostics emitted so far).
    - [list(set(...))] enumerates a hash set.  The order of that enumeration
      belongs to the running interpreter (string hashes are salted per
      process), so it is a parameter, [SetOrder]. *)

From Stdlib Require Import ZArith List String Ascii Lia Bool Permutation.
From Stdlib.Strings Require Import Byte.
Import ListNotations.
Open Scope string_scope.
Open Scope list_scope.
Open Scope Z_scope.

(** ** Bytes, hexadecimal and base64 *)

Module Bytes.

Definition to_Z (b : byte) : Z := Z.of_N (Byte.to_N b).

Definition of_Z (z : Z) : byte :=
  match Byte.of_N (Z.to_N (z mod 256)) with
  | Some b => b
  | None => x00
  end.

(** The [n] low bytes of [z], most significant first. *)
Fixpoint big_endian (n : nat) (z : Z) : list byte :=
  match n with
  | O => []
  | S k => of_Z (Z.shiftr z (8 * Z.of_nat k)) :: big_endian k z
  end.

Definition hex_digit (z : Z) : ascii :=
  match String.get (Z.to_nat z) "0123456789abcdef" with
  | Some c => c
  | None => "0"%char
  end.

(** [bytes.hex()]: two lower-case digits per byte. *)
Fixpoint hex (bs : list byte) : string :=
  match bs with
  | [] => ""
  | b :: rest =>
      String (hex_digit (Z.shiftr (to_Z b) 4))
        (String (hex_digit (Z.land (to_Z b) 15)) (hex rest))
  end.

End Bytes.

Module Base64.

Definition alphabet : string :=
  "ABCDEFGHIJKLMNOPQRSTUVWXYZabcdefghijklmnopqrstuvwxyz0123456789+/".

Definition digit (z : Z) : ascii :=
  match String.get (Z.to_nat (Z.land z 63)) alphabet with
  | Some c => c
  | None => "="%char
  end.

Definition fill : ascii := "="%char.

(** [base64.b64encode]: three input bytes give four digits; a last group of
    one or two bytes is completed with [=]. *)
Fixpoint b64encode (bs : list byte) : string :=
  match bs with
  | [] => ""
  | [a] =>
      let n := Z.shiftl (Bytes.to_Z a) 16 in
      String (digit (Z.shiftr n 18)) (String (digit (Z.shiftr n 12))
        (String fill (String fill "")))
  | [a; b] =>
      let n := Z.lor (Z.shiftl (Bytes.to_Z a) 16) (Z.shiftl (Bytes.to_Z b) 8) in
      String (digit (Z.shiftr n 18)) (String (digit (Z.shiftr n 12))
        (String (digit (Z.shiftr n 6)) (String fill "")))
  | a :: b :: c :: rest =>
      let n := Z.lor (Z.lor (Z.shiftl (Bytes.to_Z a) 16) (Z.shiftl (Bytes.to_Z b) 8))
                     (Bytes.to_Z c) in
      String (digit (Z.shiftr n 18)) (String (digit (Z.shiftr n 12))
        (String (digit (Z.shiftr n 6)) (String (digit n) (b64encode rest))))
  end.

End Base64.

(** ** SHA-256 (FIPS 180-4), on 32-bit words held in [Z] *)

Module Sha256.

Definition mask32 (z : Z) : Z := Z.land z 4294967295.
Definition add32 (x y : Z) : Z := mask32 (x + y).
Definition rotr (n x : Z) : Z :=
  Z.lor (Z.shiftr x n) (mask32 (Z.shiftl x (32 - n))).
Definition not32 (x : Z) : Z := Z.lxor x 4294967295.

Definition ch (x y z : Z) := Z.lxor (Z.land x y) (Z.land (not32 x) z).
Definition maj (x y z : Z) :=
  Z.lxor (Z.lxor (Z.land x y) (Z.land x z)) (Z.land y z).
Definition bsig0 x := Z.lxor (Z.lxor (rotr 2 x) (rotr 13 x)) (rotr 22 x).
Definition bsig1 x := Z.lxor (Z.lxor (rotr 6 x) (rotr 11 x)) (rotr 25 x).
Definition ssig0 x := Z.lxor (Z.lxor (rotr 7 x) (rotr 18 x)) (Z.shiftr x 3).
Definition ssig1 x := Z.lxor (Z.lxor (rotr 17 x) (rotr 19 x)) (Z.shiftr x 10).

(** Round constants: the first 32 bits of the fractional parts of the cube
    roots of the first 64 primes. *)
Definition round_constants : list Z :=
  [ 1116352408; 1899447441; 3049323471; 3921009573;
    961987163; 1508970993; 2453635748; 2870763221;
    3624381080; 310598401; 607225278; 1426881987;
    1925078388; 2162078206; 2614888103; 3248222580;
    3835390401; 4022224774; 264347078; 604807628;
    770255983; 1249150122; 1555081692; 1996064986;
    2554220882; 2821834349; 2952996808; 3210313671;
    3336571891; 3584528711; 113926993; 338241895;
    666307205; 773529912; 1294757372; 1396182291;
    1695183700; 1986661051; 2177026350; 2456956037;
    2730485921; 2820302411; 3259730800; 3345764771;
    3516065817; 3600352804; 4094571909; 275423344;
    430227734; 506948616; 659060556; 883997877;
    958139571; 1322822218; 1537002063; 1747873779;
    1955562222; 2024104815; 2227730452; 2361852424;
    2428436474; 2756734187; 3204031479; 3329325298 ].

Record state :=
  mkState { sa : Z; sb : Z; sc : Z; sd : Z; se : Z; sf : Z; sg : Z; sh : Z }.

Definition initial : state :=
  mkState 1779033703 3144134277 1013904242 2773480762
          1359893119 2600822924 528734635 1541459225.

(** Padding: a 1 bit, zeros up to 56 modulo 64 bytes, the bit length on 8 bytes. *)
Definition pad (msg : list byte) : list byte :=
  let len := Z.of_nat (List.length msg) in
  let zeros := Z.to_nat ((55 - len) mod 64) in
  msg ++ x80 :: repeat x00 zeros ++ Bytes.big_endian 8 (8 * len).

Fixpoint words (n : nat) (bs : list byte) : list Z :=
  match n, bs with
  | S k, a :: b :: c :: d :: rest =>
      (Bytes.to_Z a * 16777216 + Bytes.to_Z b * 65536
       + Bytes.to_Z c * 256 + Bytes.to_Z d) :: words k rest
  | _, _ => []
  end.

(** The message schedule, newest word first: [w] is W(t-1), W(t-2), ... *)
Fixpoint schedule (n : nat) (w : list Z) : list Z :=
  match n with
  | O => w
  | S k =>
      let x := add32 (add32 (ssig1 (nth 1 w 0)) (nth 6 w 0))
                     (add32 (ssig0 (nth 14 w 0)) (nth 15 w 0)) in
      schedule k (x :: w)
  end.

Definition round (s : state) (kw : Z * Z) : state :=
  let '(k, w) := kw in
  let t1 := add32 (add32 (add32 (sh s) (bsig1 (se s)))
                         (add32 (ch (se s) (sf s) (sg s)) k)) w in
  let t2 := add32 (bsig0 (sa s)) (maj (sa s) (sb s) (sc s)) in
  mkState (add32 t1 t2) (sa s) (sb s) (sc s) (add32 (sd s) t1) (se s) (sf s) (sg s).

Definition compress (s : state) (block : list Z) : state :=
  let w := rev (schedule 48 (rev block)) in
  let r := fold_left round (combine round_constants w) s in
  mkState (add32 (sa s) (sa r)) (add32 (sb s) (sb r)) (add32 (sc s) (sc r))
          (add32 (sd s) (sd r)) (add32 (se s) (se r)) (add32 (sf s) (sf r))
          (add32 (sg s) (sg r)) (add32 (sh s) (sh r)).

Fixpoint blocks (n : nat) (s : state) (bs : list byte) : state :=
  match n with
  | O => s
  | S k => blocks k (compress s (words 16 bs)) (skipn 64 bs)
  end.

(** [hashlib.sha256(msg).digest()] *)
Definition digest (msg : list byte) : list byte :=
  let p := pad msg in
  let s := blocks (List.length p / 64) initial p in
  flat_map (Bytes.big_endian 4) [sa s; sb s; sc s; sd s; se s; sf s; sg s; sh s].

End Sha256.

(** ** Python values, exceptions and diagnostics *)

#[warnings="-register-all"] Inductive pyval : Type :=
| PyNone
| PyBool (b : bool)
| PyInt (z : Z)
| PyStr (s : string)
| PyBytes (bs : list byte)
| PyList (l : list pyval)
| PyDict (d : list (string * pyval)).

(** A dict literal, in the order its keys are written. *)
Definition pydict : Type := list (string * pyval).

Definition of_opt_str (o : option string) : pyval :=
  match o with Some s => PyStr s | None => PyNone end.

Fixpoint dict_get (k : string) (d : pydict) : option pyval :=
  match d with
  | [] => None
  | (k', v) :: rest => if String.eqb k k' then Some v else dict_get k rest
  end.

Inductive exn : Type :=
| ValueError | AttributeError | KeyError | IndexError | UnicodeDecodeError.

Inductive outcome (A : Type) : Type :=
| Ok (a : A)
| Raise (e : exn).
Arguments Ok {A} a.
Arguments Raise {A} e.

(** Where a diagnostic goes: [print], [logging.info], [logger.warning]. *)
Inductive channel : Type := Stdout | LogInfo | LogWarning.

Record diagnostic := mkDiag { chan : channel; text : string }.

Definition M (A : Type) : Type := outcome A * list diagnostic.

Definition ret {A} (a : A) : M A := (Ok a, []).
Definition raise {A} (e : exn) : M A := (Raise e, []).
Definition emit (c : channel) (s : string) : M unit := (Ok tt, [mkDiag c s]).

Definition bind {A B} (m : M A) (f : A -> M B) : M B :=
  match m with
  | (Ok a, out) => let '(r, out') := f a in (r, out ++ out')
  | (Raise e, out) => (Raise e, out)
  end.

Notation "x <- m ;; k" := (bind m (fun x => k))
  (at level 61, m at next level, right associativity).
Notation "' pat <- m ;; k" := (bind m (fun x => match x with pat => k end))
  (at level 61, pat pattern, m at next level, right associativity).
Notation "m ;;; k" := (bind m (fun _ => k))
  (at level 61, right associativity).

(** Attribute access or method call on a value that may be [None]. *)
Definition deref {A} (o : option A) : M A :=
  match o with Some a => ret a | None => raise AttributeError end.

(** [d[k]] for a key that may be absent. *)
Definition item {A} (o : option A) : M A :=
  match o with Some a => ret a | None => raise KeyError end.

(** [str.replace("\u0000", "")]: U+0000 is the only code point whose UTF-8
    encoding contains the byte 0. *)
Fixpoint replace_nul (s : string) : string :=
  match s with
  | EmptyString => EmptyString
  | String c rest =>
      if Ascii.eqb c Ascii.zero then replace_nul rest else String c (replace_nul rest)
  end.

Module Utf8.

Definition between (lo hi x : Z) : bool := (lo <=? x) && (x <=? hi).
Definition cont (b : byte) : bool := between 128 191 (Bytes.to_Z b).

(** Second byte of a three-byte sequence: no overlong form, no surrogate. *)
Definition second3 (lead : Z) (b : byte) : bool :=
  if lead =? 224 then between 160 191 (Bytes.to_Z b)
  else if lead =? 237 then between 128 159 (Bytes.to_Z b)
  else cont b.

(** Second byte of a four-byte sequence: no overlong form, at most U+10FFFF. *)
Definition second4 (lead : Z) (b : byte) : bool :=
  if lead =? 240 then between 144 191 (Bytes.to_Z b)
  else if lead =? 244 then between 128 143 (Bytes.to_Z b)
  else cont b.

Fixpoint valid (bs : list byte) : bool :=
  match bs with
  | [] => true
  | a :: r1 =>
      let x := Bytes.to_Z a in
      if x <? 128 then valid r1
      else
        match r1 with
        | [] => false
        | b :: r2 =>
            if between 194 223 x then cont b && valid r2
            else
              match r2 with
              | [] => false
              | c :: r3 =>
                  if between 224 239 x then second3 x b && cont c && valid r3
                  else
                    match r3 with
                    | [] => false
                    | d :: r4 =>
                        between 240 244 x && second4 x b && cont c && cont d
                        && valid r4
                    end
              end
        end
  end.

(** [bytes.decode("utf-8")], strict. *)
Definition decode (bs : list byte) : M string :=
  if valid bs then ret (string_of_list_byte bs) else raise UnicodeDecodeError.

(** [str.encode()] *)
Definition encode (s : string) : list byte := list_byte_of_string s.

End Utf8.

(** The enumeration order of a hash set of (optional) strings, as
    [list(set(xs))] produces it: each element once, in an order the
    interpreter chooses.  A set is given by the sequence of insertions that
    built it. *)
Record SetOrder := mkSetOrder {
  list_of_set : list (option string) -> list (option string);
  list_of_set_NoDup : forall xs, NoDup (list_of_set xs);
  list_of_set_In : forall xs x, In x (list_of_set xs) <-> In x xs
}.

(** ** The input: accounts, assets, event nodes, blocks

    The classes of [indexer.events.blocks] are not part of the serializer;
    each is given by the attributes the serializer reads. *)

Module AccountId.
Record t := mk { as_str : string }.
End AccountId.

Module Asset.
Record t := mk { is_ton : bool; jetton_address : option AccountId.t }.
End Asset.

Module Amount.
Record t := mk { value : Z }.
End Amount.

(** What [_addr] accepts besides [None]. *)
Inductive addr_like : Type :=
| OfAccount (a : AccountId.t)
| OfAsset (a : Asset.t).

Definition account_ref (o : option AccountId.t) : option addr_like :=
  option_map OfAccount o.

Module Transaction.
Record t := mk { account : option string }.
End Transaction.

Module Message.
Record t := mk {
  msg_hash : string;
  trace_id : string;
  transaction : Transaction.t
}.
End Message.

(** An event node.  [get_lt] and [get_tx_hash] are the results of the
    methods of these names, which the serializer calls and does not define. *)
Record EventNode := mkEventNode {
  message : option Message.t;
  is_tick_tock : bool;
  tick_tock_tx : option Transaction.t;
  get_lt : Z;
  get_tx_hash : option string
}.

(** *** Payloads, one per block class *)

(** [CallContractBlock] and [ContractDeployBlock]; [opcode] is an attribute
    of the block itself. *)
Module CallContract.
Record data := mk {
  opcode : pyval;
  value : Amount.t;
  source : option AccountId.t;
  destination : option AccountId.t
}.
End CallContract.

(** [TonTransferBlock]; [value] is an attribute of the block itself. *)
Module TonTransfer.
Record data := mk {
  value : pyval;
  source : AccountId.t;
  destination : option AccountId.t;
  comment : option string;
  encrypted : pyval
}.
End TonTransfer.

Module NominatorPoolDeposit.
Record data := mk {
  source : AccountId.t;
  pool : AccountId.t;
  value : Amount.t
}.
End NominatorPoolDeposit.

Module NominatorPoolWithdrawRequest.
Record data := mk {
  payout_amount : option Amount.t;
  source : AccountId.t;
  pool : AccountId.t
}.
End NominatorPoolWithdrawRequest.

Module DedustDepositLiquidity.
Record data := mk {
  sender : option addr_like;
  pool_address : option addr_like;
  deposit_contract : option addr_like;
  dex : pyval;
  asset_1 : Asset.t;
  amount_1 : Amount.t;
  asset_2 : Asset.t;
  amount_2 : Amount.t;
  user_jetton_wallet_1 : option addr_like;
  user_jetton_wallet_2 : option addr_like;
  lp_tokens_minted : Amount.t
}.
End DedustDepositLiquidity.

Module DedustDepositLiquidityPartial.
Record data := mk {
  sender : option addr_like;
  deposit_contract : option addr_like;
  dex : pyval;
  asset_1 : Asset.t;
  amount_1 : Amount.t;
  asset_2 : Asset.t;
  amount_2 : Amount.t;
  user_jetton_wallet_1 : option addr_like;
  user_jetton_wallet_2 : option addr_like
}.
End DedustDepositLiquidityPartial.

(** [receiver_wallet] is [None] when the key is absent. *)
Module JettonTransfer.
Record data := mk {
  sender : AccountId.t;
  sender_wallet : AccountId.t;
  receiver : AccountId.t;
  receiver_wallet : option AccountId.t;
  amount : Amount.t;
  asset : option Asset.t;
  comment : option (list byte);
  encrypted_comment : bool;
  query_id : pyval;
  response_address : option AccountId.t;
  forward_amount : Amount.t;
  custom_payload : pyval;
  forward_payload : pyval
}.
End JettonTransfer.

(** [prev_owner]: absent key, null, or an account.  [price] is [None] when
    the key is absent. *)
Module NftTransfer.
Record collection := mkCollection { address_of_collection : AccountId.t }.
Record nft := mkNft {
  address : AccountId.t;
  collection_of : option collection;
  index : pyval
}.
Record data := mk {
  prev_owner : option (option AccountId.t);
  new_owner : AccountId.t;
  nft_of : nft;
  query_id : pyval;
  is_purchase : bool;
  price : option Amount.t;
  forward_amount : option Amount.t;
  custom_payload : pyval;
  forward_payload : pyval;
  response_destination : option AccountId.t
}.
End NftTransfer.

Module NftDiscovery.
Record data := mk {
  sender : AccountId.t;
  nft : AccountId.t;
  query_id : pyval;
  result_collection : AccountId.t;
  result_index : pyval
}.
End NftDiscovery.

Module NftMint.
Record data := mk {
  source : option AccountId.t;
  address : AccountId.t;
  opcode : pyval;
  collection : option AccountId.t;
  index : pyval
}.
End NftMint.

Module JettonBurn.
Record data := mk {
  owner : AccountId.t;
  jetton_wallet : AccountId.t;
  asset : Asset.t;
  amount : Amount.t
}.
End JettonBurn.

Module JettonMint.
Record data := mk {
  to : option addr_like;
  to_jetton_wallet : option addr_like;
  asset : Asset.t;
  amount : option Amount.t;
  ton_amount : option Amount.t
}.
End JettonMint.

(** [source_asset], [destination_asset], [destination_wallet]: absent key,
    null, or a reference. *)
Module JettonSwap.
Record transfer := mkTransfer {
  amount : Amount.t;
  source : option addr_like;
  source_jetton_wallet : option addr_like;
  destination : option addr_like;
  destination_jetton_wallet : option addr_like;
  asset : option addr_like
}.
Record data := mk {
  dex : string;
  sender : option addr_like;
  dex_incoming_transfer : transfer;
  dex_outgoing_transfer : transfer;
  source_asset : option (option addr_like);
  destination_asset : option (option addr_like);
  destination_wallet : option (option addr_like)
}.
End JettonSwap.

(** The record value of a DNS change: [address] is an account for the
    resolver and contract schemas and raw bytes for the ADNL schema; the keys
    [address], [flags] and [dns_text] depend on the schema. *)
Module DnsChangeRecord.
Inductive dns_address : Type :=
| Account (a : AccountId.t)
| Raw (bs : list byte).
Record record_value := mkValue {
  schema : string;
  address : option dns_address;
  flags : option pyval;
  dns_text : option pyval
}.
Record data := mk {
  source : option AccountId.t;
  destination : AccountId.t;
  value : record_value;
  key : list byte
}.
End DnsChangeRecord.

Module DnsDeleteRecord.
Record data := mk {
  source : option AccountId.t;
  destination : AccountId.t;
  key : list byte
}.
End DnsDeleteRecord.

Module DnsRenew.
Record data := mk {
  source : option addr_like;
  destination : option addr_like
}.
End DnsRenew.

Module TONStakersDeposit.
Record data := mk {
  source : option addr_like;
  pool : option addr_like;
  value : Amount.t
}.
End TONStakersDeposit.

Module TONStakersWithdrawRequest.
Record data := mk {
  source : option addr_like;
  tsTON_wallet : option addr_like;
  pool : option addr_like;
  tokens_burnt : Amount.t;
  minted_nft : option addr_like
}.
End TONStakersWithdrawRequest.

Module TONStakersWithdraw.
Record data := mk {
  stake_holder : option addr_like;
  pool : option addr_like;
  amount : Amount.t;
  burnt_nft : option addr_like
}.
End TONStakersWithdraw.

Module Subscribe.
Record data := mk {
  subscriber : AccountId.t;
  beneficiary : option AccountId.t;
  subscription : AccountId.t;
  amount : Amount.t
}.
End Subscribe.

Module Unsubscribe.
Record data := mk {
  subscriber : AccountId.t;
  beneficiary : option AccountId.t;
  subscription : AccountId.t
}.
End Unsubscribe.

Module DexDepositLiquidity.
Record data := mk {
  sender : option addr_like;
  pool : option addr_like;
  dex : pyval;
  amount_1 : option Amount.t;
  amount_2 : option Amount.t;
  asset_1 : option addr_like;
  asset_2 : option addr_like;
  sender_wallet_1 : option addr_like;
  sender_wallet_2 : option addr_like;
  lp_tokens_minted : option Amount.t
}.
End DexDepositLiquidity.

Module DexWithdrawLiquidity.
Record data := mk {
  sender : option addr_like;
  sender_wallet : option addr_like;
  pool : option addr_like;
  asset : option addr_like;
  dex : pyval;
  amount1_out : option Amount.t;
  amount2_out : option Amount.t;
  asset1_out : option addr_like;
  asset2_out : option addr_like;
  wallet1 : option addr_like;
  wallet2 : option addr_like;
  dex_jetton_wallet_1 : option addr_like;
  dex_wallet_1 : option addr_like;
  dex_wallet_2 : option addr_like;
  dex_jetton_wallet_2 : option addr_like;
  is_refund : pyval;
  lp_tokens_burnt : option Amount.t
}.
End DexWithdrawLiquidity.

Module JVaultStake.
Record data := mk {
  sender : option addr_like;
  stake_wallet : option addr_like;
  staking_pool : option addr_like;
  staked_amount : pyval;
  period : pyval;
  minted_stake_jettons : pyval
}.
End JVaultStake.

Module JVaultUnstake.
Record data := mk {
  sender : option addr_like;
  stake_wallet : option addr_like;
  staking_pool : option addr_like;
  unstaked_amount : pyval
}.
End JVaultUnstake.

Module JVaultClaim.
Record data := mk {
  sender : option addr_like;
  stake_wallet : option addr_like;
  staking_pool : option addr_like;
  claimed_jettons : list (option addr_like);
  claimed_amounts : pyval
}.
End JVaultClaim.

Module MultisigCreateOrder.
Record data := mk {
  created_by : option addr_like;
  multisig : option addr_like;
  order_contract_address : option addr_like;
  query_id : pyval;
  order_seqno : pyval;
  is_created_by_signer : pyval;
  creator_approved : pyval;
  creator_index : pyval;
  expiration_date : pyval;
  order_boc_str : pyval
}.
End MultisigCreateOrder.

Module MultisigApprove.
Record data := mk {
  signer : option addr_like;
  order : option addr_like;
  success : pyval;
  signer_index : pyval;
  exit_code : pyval
}.
End MultisigApprove.

Module VestingSendMessage.
Record data := mk {
  sender : option addr_like;
  vesting : option addr_like;
  message_destination : option addr_like;
  message_value : Amount.t;
  query_id : pyval;
  message_boc_str : pyval
}.
End VestingSendMessage.

Module VestingAddWhiteList.
Record data := mk {
  adder : option addr_like;
  vesting : option addr_like;
  query_id : pyval;
  accounts_added : list (option addr_like)
}.
End VestingAddWhiteList.

(** [ElectionDepositStakeBlock] and [ElectionRecoverStakeBlock]; [amount] is
    [None] when the key is absent. *)
Module Election.
Record data := mk {
  stake_holder : AccountId.t;
  amount : option Amount.t
}.
End Election.

Module AuctionBid.
Record data := mk {
  bidder : AccountId.t;
  auction : AccountId.t;
  nft_address : AccountId.t;
  nft_collection : option addr_like;
  nft_item_index : pyval;
  amount : Amount.t
}.
End AuctionBid.

(** The class of a block with its payload, in the order of the [match] of
    [block_to_action]; [OtherBlock] is any class that statement does not
    name. *)
Inductive block_class : Type :=
| CallContractBlock (d : CallContract.data)
| ContractDeployBlock (d : CallContract.data)
| TonTransferBlock (d : TonTransfer.data)
| NominatorPoolDepositBlock (d : NominatorPoolDeposit.data)
| NominatorPoolWithdrawRequestBlock (d : NominatorPoolWithdrawRequest.data)
| DedustDepositLiquidityBlock (d : DedustDepositLiquidity.data)
| DedustDepositLiquidityPartialBlock (d : DedustDepositLiquidityPartial.data)
| JettonTransferBlock (d : JettonTransfer.data)
| NftTransferBlock (d : NftTransfer.data)
| NftDiscoveryBlock (d : NftDiscovery.data)
| NftMintBlock (d : NftMint.data)
| JettonBurnBlock (d : JettonBurn.data)
| JettonMintBlock (d : JettonMint.data)
| JettonSwapBlock (d : JettonSwap.data)
| DnsChangeRecordBlock (d : DnsChangeRecord.data)
| DnsDeleteRecordBlock (d : DnsDeleteRecord.data)
| DnsRenewBlock (d : DnsRenew.data)
| TONStakersDepositBlock (d : TONStakersDeposit.data)
| TONStakersWithdrawRequestBlock (d : TONStakersWithdrawRequest.data)
| TONStakersWithdrawBlock (d : TONStakersWithdraw.data)
| SubscribeBlock (d : Subscribe.data)
| DexDepositLiquidityBlock (d : DexDepositLiquidity.data)
| DexWithdrawLiquidityBlock (d : DexWithdrawLiquidity.data)
| JVaultStakeBlock (d : JVaultStake.data)
| JVaultUnstakeBlock (d : JVaultUnstake.data)
| JVaultClaimBlock (d : JVaultClaim.data)
| MultisigCreateOrderBlock (d : MultisigCreateOrder.data)
| MultisigApproveBlock (d : MultisigApprove.data)
| VestingSendMessageBlock (d : VestingSendMessage.data)
| VestingAddWhiteListBlock (d : VestingAddWhiteList.data)
| UnsubscribeBlock (d : Unsubscribe.data)
| ElectionDepositStakeBlock (d : Election.data)
| ElectionRecoverStakeBlock (d : Election.data)
| AuctionBidBlock (d : AuctionBid.data)
| OtherBlock.

Record Block := mkBlock {
  btype : string;
  event_nodes : list EventNode;
  data : block_class;
  min_lt : Z;
  max_lt : Z;
  min_utime : Z;
  max_utime : Z;
  failed : bool;
  initiating_event_node : option EventNode
}.

(** ** The output: the action record

    The attributes of [indexer.core.database.Action] that the serializer
    assigns; an attribute not yet assigned is [None]. *)

Record Action := mkAction {
  trace_id : string;
  type : string;
  action_id : string;
  tx_hashes : list (option string);
  start_lt : Z;
  end_lt : Z;
  start_utime : Z;
  end_utime : Z;
  success : pyval;
  accounts : list (option string);
  extended_tx_hashes : option (list (option string));
  source : option string;
  source_secondary : option string;
  destination : option string;
  destination_secondary : option string;
  asset : option string;
  asset2 : option string;
  asset_secondary : option string;
  amount : pyval;
  value : pyval;
  opcode : pyval;
  ton_transfer_data : option pydict;
  jetton_transfer_data : option pydict;
  nft_transfer_data : option pydict;
  nft_discovery_data : option pydict;
  nft_mint_data : option pydict;
  jetton_swap_data : option pydict;
  dex_deposit_liquidity_data : option pydict;
  dex_withdraw_liquidity_data : option pydict;
  jvault_stake_data : option pydict;
  jvault_claim_data : option pydict;
  multisig_create_order_data : option pydict;
  multisig_approve_data : option pydict;
  vesting_send_message_data : option pydict;
  vesting_add_whitelist_data : option pydict;
  change_dns_record_data : option pydict;
  staking_data : option pydict
}.

(** The record rebuilt from its own fields: the template of every
    assignment. *)
Definition rebuild (a : Action) : Action :=
  mkAction (trace_id a) (type a) (action_id a) (tx_hashes a)
    (start_lt a) (end_lt a) (start_utime a) (end_utime a) (success a)
    (accounts a) (extended_tx_hashes a)
    (source a) (source_secondary a) (destination a) (destination_secondary a)
    (asset a) (asset2 a) (asset_secondary a) (amount a) (value a) (opcode a)
    (ton_transfer_data a) (jetton_transfer_data a) (nft_transfer_data a)
    (nft_discovery_data a) (nft_mint_data a) (jetton_swap_data a)
    (dex_deposit_liquidity_data a) (dex_withdraw_liquidity_data a)
    (jvault_stake_data a) (jvault_claim_data a)
    (multisig_create_order_data a) (multisig_approve_data a)
    (vesting_send_message_data a) (vesting_add_whitelist_data a)
    (change_dns_record_data a) (staking_data a).

(** [action.f = v]: [rebuild] with the field [f] replaced by [v]. *)
Ltac assignment f :=
  let v := fresh "v" in
  let a := fresh "a" in
  intros v a;
  let body := eval cbv beta delta [rebuild] in (rebuild a) in
  match eval pattern (f a) in body with
  | ?g _ => let r := eval cbv beta in (g v) in exact r
  end.

Definition set_type : string -> Action -> Action := ltac:(assignment type).
Definition set_success : pyval -> Action -> Action := ltac:(assignment success).
Definition set_accounts : list (option string) -> Action -> Action :=
  ltac:(assignment accounts).
Definition set_extended_tx_hashes :
  option (list (option string)) -> Action -> Action :=
  ltac:(assignment extended_tx_hashes).
Definition set_source : option string -> Action -> Action :=
  ltac:(assignment source).
Definition set_source_secondary : option string -> Action -> Action :=
  ltac:(assignment source_secondary).
Definition set_destination : option string -> Action -> Action :=
  ltac:(assignment destination).
Definition set_destination_secondary : option string -> Action -> Action :=
  ltac:(assignment destination_secondary).
Definition set_asset : option string -> Action -> Action := ltac:(assignment asset).
Definition set_asset2 : option string -> Action -> Action := ltac:(assignment asset2).
Definition set_asset_secondary : option string -> Action -> Action :=
  ltac:(assignment asset_secondary).
Definition set_amount : pyval -> Action -> Action := ltac:(assignment amount).
Definition set_value : pyval -> Action -> Action := ltac:(assignment value).
Definition set_opcode : pyval -> Action -> Action := ltac:(assignment opcode).
Definition set_ton_transfer_data : option pydict -> Action -> Action :=
  ltac:(assignment ton_transfer_data).
Definition set_jetton_transfer_data : option pydict -> Action -> Action :=
  ltac:(assignment jetton_transfer_data).
Definition set_nft_transfer_data : option pydict -> Action -> Action :=
  ltac:(assignment nft_transfer_data).
Definition set_nft_discovery_data : option pydict -> Action -> Action :=
  ltac:(assignment nft_discovery_data).
Definition set_nft_mint_data : option pydict -> Action -> Action :=
  ltac:(assignment nft_mint_data).
Definition set_jetton_swap_data : option pydict -> Action -> Action :=
  ltac:(assignment jetton_swap_data).
Definition set_dex_deposit_liquidity_data : option pydict -> Action -> Action :=
  ltac:(assignment dex_deposit_liquidity_data).
Definition set_dex_withdraw_liquidity_data : option pydict -> Action -> Action :=
  ltac:(assignment dex_withdraw_liquidity_data).
Definition set_jvault_stake_data : option pydict -> Action -> Action :=
  ltac:(assignment jvault_stake_data).
Definition set_jvault_claim_data : option pydict -> Action -> Action :=
  ltac:(assignment jvault_claim_data).
Definition set_multisig_create_order_data : option pydict -> Action -> Action :=
  ltac:(assignment multisig_create_order_data).
Definition set_multisig_approve_data : option pydict -> Action -> Action :=
  ltac:(assignment multisig_approve_data).
Definition set_vesting_send_message_data : option pydict -> Action -> Action :=
  ltac:(assignment vesting_send_message_data).
Definition set_vesting_add_whitelist_data : option pydict -> Action -> Action :=
  ltac:(assignment vesting_add_whitelist_data).
Definition set_change_dns_record_data : option pydict -> Action -> Action :=
  ltac:(assignment change_dns_record_data).
Definition set_staking_data : option pydict -> Action -> Action :=
  ltac:(assignment staking_data).

(** ** The serializer *)

Definition _addr (addr : option addr_like) : option string :=
  match addr with
  | None => None
  | Some (OfAsset a) =>
      match Asset.jetton_address a with
      | Some j => Some (AccountId.as_str j)
      | None => None
      end
  | Some (OfAccount a) => Some (AccountId.as_str a)
  end.

(** [x.as_str() if x is not None else None] *)
Definition as_str_or_none (x : option AccountId.t) : option string :=
  match x with
  | Some a => Some (AccountId.as_str a)
  | None => None
  end.

(** [x.value if x is not None else None] *)
Definition value_or_none (x : option Amount.t) : pyval :=
  match x with
  | Some a => PyInt (Amount.value a)
  | None => PyNone
  end.

(** [h or ""] *)
Definition or_empty (h : option string) : string :=
  match h with
  | Some s => s
  | None => ""
  end.

(** [str(h)], as an f-string formats it *)
Definition str_of (h : option string) : string :=
  match h with
  | Some s => s
  | None => "None"
  end.

(** [min(xs, key=key)]: the running minimum is replaced only by a strictly
    smaller key; an empty sequence raises [ValueError]. *)
Fixpoint min_from {A} (key : A -> Z) (best : A) (rest : list A) : A :=
  match rest with
  | [] => best
  | x :: rest' =>
      if key x <? key best then min_from key x rest' else min_from key best rest'
  end.

Definition py_min {A} (key : A -> Z) (xs : list A) : M A :=
  match xs with
  | [] => raise ValueError
  | x :: rest => ret (min_from key x rest)
  end.

(** [xs[0]] *)
Definition first {A} (xs : list A) : M A :=
  match xs with
  | [] => raise IndexError
  | x :: _ => ret x
  end.

Definition opt_eqb (x y : option string) : bool :=
  match x, y with
  | Some s, Some t => String.eqb s t
  | None, None => true
  | _, _ => false
  end.

(** [x in xs] on a list *)
Definition py_in (x : option string) (xs : list (option string)) : bool :=
  existsb (opt_eqb x) xs.

Definition is_not_none {A} (x : option A) : bool :=
  match x with Some _ => true | None => false end.

(** [d[k] = v]: an existing key keeps its place, a new one goes last. *)
Fixpoint dict_set (k : string) (v : pyval) (d : pydict) : pydict :=
  match d with
  | [] => [(k, v)]
  | (k', v') :: rest =>
      if String.eqb k k' then (k', v) :: rest else (k', v') :: dict_set k v rest
  end.

Definition _calc_action_id (block : Block) : M string :=
  root_event_node <- py_min get_lt (event_nodes block) ;;
  let key :=
    match message root_event_node with
    | Some m => Message.msg_hash m
    | None => or_empty (get_tx_hash root_event_node)
    end in
  let key := String.append key (btype block) in
  let h := Sha256.digest (Utf8.encode key) in
  ret (Base64.b64encode h).

(** The account a node contributes to [accounts]. *)
Definition node_account (n : EventNode) : M (option string) :=
  if is_tick_tock n then
    tx <- deref (tick_tock_tx n) ;;
    ret (Transaction.account tx)
  else
    m <- deref (message n) ;;
    ret (Transaction.account (Message.transaction m)).

(** The loop of [_base_block_to_action] over [block.event_nodes]. *)
Fixpoint node_accounts (nodes : list EventNode) : M (list (option string)) :=
  match nodes with
  | [] => ret []
  | n :: rest =>
      acc <- node_account n ;;
      accs <- node_accounts rest ;;
      ret (acc :: accs)
  end.

(** [Action(trace_id=..., type=..., ...)]: the other attributes are unset. *)
Definition new_Action (trace_id type action_id : string)
    (tx_hashes : list (option string))
    (start_lt end_lt start_utime end_utime : Z) (success : pyval) : Action :=
  mkAction trace_id type action_id tx_hashes
    start_lt end_lt start_utime end_utime success
    [] None
    None None None None None None None PyNone PyNone PyNone
    None None None None None None None None
    None None None None None None None None.

Section Serializer.

Variable ord : SetOrder.

Definition _base_block_to_action (block : Block) (trace_id : string) : M Action :=
  action_id <- _calc_action_id block ;;
  let tx_hashes := list_of_set ord (map get_tx_hash (event_nodes block)) in
  accounts <- node_accounts (event_nodes block) ;;
  let action :=
    new_Action trace_id (btype block) action_id tx_hashes
      (min_lt block) (max_lt block) (min_utime block) (max_utime block)
      (PyBool (negb (failed block))) in
  ret (set_accounts accounts action).

Definition _fill_call_contract_action (d : CallContract.data) (action : Action)
  : Action :=
  let action := set_opcode (CallContract.opcode d) action in
  let action := set_value (PyInt (Amount.value (CallContract.value d))) action in
  let action := set_source (as_str_or_none (CallContract.source d)) action in
  set_destination (as_str_or_none (CallContract.destination d)) action.

Definition _fill_ton_transfer_action (block : Block) (d : TonTransfer.data)
    (action : Action) : M Action :=
  let action := set_value (TonTransfer.value d) action in
  let action := set_source (Some (AccountId.as_str (TonTransfer.source d))) action in
  match TonTransfer.destination d with
  | None =>
      n <- first (event_nodes block) ;;
      m <- deref (message n) ;;
      emit Stdout (String.append "Something very wrong " (Message.trace_id m))
  | Some _ => ret tt
  end ;;;
  dest <- deref (TonTransfer.destination d) ;;
  let action := set_destination (Some (AccountId.as_str dest)) action in
  let content := option_map replace_nul (TonTransfer.comment d) in
  ret (set_ton_transfer_data
         (Some [("content", of_opt_str content);
                ("encrypted", TonTransfer.encrypted d)]) action).

Definition _fill_jetton_transfer_action (d : JettonTransfer.data)
    (action : Action) : M Action :=
  let action := set_source (Some (AccountId.as_str (JettonTransfer.sender d))) action in
  let action :=
    set_source_secondary
      (Some (AccountId.as_str (JettonTransfer.sender_wallet d))) action in
  let action :=
    set_destination (Some (AccountId.as_str (JettonTransfer.receiver d))) action in
  let action :=
    set_destination_secondary
      (as_str_or_none (JettonTransfer.receiver_wallet d)) action in
  let action := set_amount (PyInt (Amount.value (JettonTransfer.amount d))) action in
  asset_str <-
    match JettonTransfer.asset d with
    | None => ret None
    | Some asset =>
        if Asset.is_ton asset then ret None
        else
          j <- deref (Asset.jetton_address asset) ;;
          ret (Some (AccountId.as_str j))
    end ;;
  let action := set_asset asset_str action in
  comment <-
    match JettonTransfer.comment d with
    | None => ret None
    | Some c =>
        if JettonTransfer.encrypted_comment d then ret (Some (Base64.b64encode c))
        else
          s <- Utf8.decode c ;;
          ret (Some (replace_nul s))
    end ;;
  ret (set_jetton_transfer_data
         (Some [("query_id", JettonTransfer.query_id d);
                ("response_destination",
                 of_opt_str (as_str_or_none (JettonTransfer.response_address d)));
                ("forward_amount",
                 PyInt (Amount.value (JettonTransfer.forward_amount d)));
                ("custom_payload", JettonTransfer.custom_payload d);
                ("forward_payload", JettonTransfer.forward_payload d);
                ("comment", of_opt_str comment);
                ("is_encrypted_comment",
                 PyBool (JettonTransfer.encrypted_comment d))]) action).

Definition _fill_nft_transfer_action (d : NftTransfer.data) (action : Action)
  : Action :=
  let action :=
    match NftTransfer.prev_owner d with
    | Some (Some p) => set_source (Some (AccountId.as_str p)) action
    | _ => action
    end in
  let action :=
    set_destination (Some (AccountId.as_str (NftTransfer.new_owner d))) action in
  let nft := NftTransfer.nft_of d in
  let action :=
    set_asset_secondary (Some (AccountId.as_str (NftTransfer.address nft))) action in
  let action :=
    match NftTransfer.collection_of nft with
    | Some c =>
        set_asset (Some (AccountId.as_str (NftTransfer.address_of_collection c)))
          action
    | None => action
    end in
  set_nft_transfer_data
    (Some [("query_id", NftTransfer.query_id d);
           ("is_purchase", PyBool (NftTransfer.is_purchase d));
           ("price",
            match NftTransfer.price d with
            | Some p =>
                if NftTransfer.is_purchase d then PyInt (Amount.value p) else PyNone
            | None => PyNone
            end);
           ("nft_item_index", NftTransfer.index nft);
           ("forward_amount", value_or_none (NftTransfer.forward_amount d));
           ("custom_payload", NftTransfer.custom_payload d);
           ("forward_payload", NftTransfer.forward_payload d);
           ("response_destination",
            of_opt_str (as_str_or_none (NftTransfer.response_destination d)))])
    action.

Definition _fill_nft_discovery_action (d : NftDiscovery.data) (action : Action)
  : Action :=
  let action := set_source (Some (AccountId.as_str (NftDiscovery.sender d))) action in
  let action := set_destination (Some (AccountId.as_str (NftDiscovery.nft d))) action in
  set_nft_discovery_data
    (Some [("query_id", NftDiscovery.query_id d);
           ("collection_address",
            PyStr (AccountId.as_str (NftDiscovery.result_collection d)));
           ("nft_item_index", NftDiscovery.result_index d)]) action.

Definition _fill_nft_mint_action (d : NftMint.data) (action : Action) : Action :=
  let action :=
    match NftMint.source d with
    | Some s => set_source (Some (AccountId.as_str s)) action
    | None => action
    end in
  let action := set_destination (Some (AccountId.as_str (NftMint.address d))) action in
  let action := set_asset_secondary (destination action) action in
  let action := set_opcode (NftMint.opcode d) action in
  let action :=
    match NftMint.collection d with
    | Some c => set_asset (Some (AccountId.as_str c)) action
    | None => action
    end in
  set_nft_mint_data (Some [("nft_item_index", NftMint.index d)]) action.

(** One leg of a swap, as the dict [_fill_jetton_swap_action] builds. *)
Definition swap_transfer (t : JettonSwap.transfer) : pydict :=
  [("amount", PyInt (Amount.value (JettonSwap.amount t)));
   ("source", of_opt_str (_addr (JettonSwap.source t)));
   ("source_jetton_wallet", of_opt_str (_addr (JettonSwap.source_jetton_wallet t)));
   ("destination", of_opt_str (_addr (JettonSwap.destination t)));
   ("destination_jetton_wallet",
    of_opt_str (_addr (JettonSwap.destination_jetton_wallet t)));
   ("asset", of_opt_str (_addr (JettonSwap.asset t)))].

Definition _fill_jetton_swap_action (d : JettonSwap.data) (action : Action)
  : M Action :=
  let incoming := JettonSwap.dex_incoming_transfer d in
  let outgoing := JettonSwap.dex_outgoing_transfer d in
  let dex_incoming_transfer := swap_transfer incoming in
  let dex_outgoing_transfer := swap_transfer outgoing in
  let action := set_asset (_addr (JettonSwap.asset incoming)) action in
  let action := set_asset2 (_addr (JettonSwap.asset outgoing)) action in
  action <-
    (if String.eqb (JettonSwap.dex d) "stonfi_v2" then
       source_asset <- item (JettonSwap.source_asset d) ;;
       let action := set_asset (_addr source_asset) action in
       destination_asset <- item (JettonSwap.destination_asset d) ;;
       ret (set_asset2 (_addr destination_asset) action)
     else ret action) ;;
  let action := set_source (_addr (JettonSwap.source incoming)) action in
  let action :=
    set_source_secondary (_addr (JettonSwap.source_jetton_wallet incoming)) action in
  let action := set_destination (_addr (JettonSwap.destination outgoing)) action in
  let action :=
    set_destination_secondary
      (_addr (JettonSwap.destination_jetton_wallet outgoing)) action in
  let action :=
    match JettonSwap.destination_wallet d with
    | Some (Some w) => set_destination_secondary (_addr (Some w)) action
    | _ => action
    end in
  let action :=
    match JettonSwap.destination_asset d with
    | Some (Some x) => set_asset2 (_addr (Some x)) action
    | _ => action
    end in
  ret (set_jetton_swap_data
         (Some [("dex", PyStr (JettonSwap.dex d));
                ("sender", of_opt_str (_addr (JettonSwap.sender d)));
                ("dex_incoming_transfer", PyDict dex_incoming_transfer);
                ("dex_outgoing_transfer", PyDict dex_outgoing_transfer)]) action).

Definition _fill_dex_deposit_liquidity (d : DexDepositLiquidity.data)
    (action : Action) : Action :=
  let action := set_source (_addr (DexDepositLiquidity.sender d)) action in
  let action := set_destination (_addr (DexDepositLiquidity.pool d)) action in
  set_dex_deposit_liquidity_data
    (Some [("dex", DexDepositLiquidity.dex d);
           ("amount1", value_or_none (DexDepositLiquidity.amount_1 d));
           ("amount2", value_or_none (DexDepositLiquidity.amount_2 d));
           ("asset1", of_opt_str (_addr (DexDepositLiquidity.asset_1 d)));
           ("asset2", of_opt_str (_addr (DexDepositLiquidity.asset_2 d)));
           ("user_jetton_wallet_1",
            of_opt_str (_addr (DexDepositLiquidity.sender_wallet_1 d)));
           ("user_jetton_wallet_2",
            of_opt_str (_addr (DexDepositLiquidity.sender_wallet_2 d)));
           ("lp_tokens_minted",
            value_or_none (DexDepositLiquidity.lp_tokens_minted d))]) action.

Definition _fill_dex_withdraw_liquidity (d : DexWithdrawLiquidity.data)
    (action : Action) : Action :=
  let action := set_source (_addr (DexWithdrawLiquidity.sender d)) action in
  let action :=
    set_source_secondary (_addr (DexWithdrawLiquidity.sender_wallet d)) action in
  let action := set_destination (_addr (DexWithdrawLiquidity.pool d)) action in
  let action := set_asset (_addr (DexWithdrawLiquidity.asset d)) action in
  set_dex_withdraw_liquidity_data
    (Some [("dex", DexWithdrawLiquidity.dex d);
           ("amount_1", value_or_none (DexWithdrawLiquidity.amount1_out d));
           ("amount_2", value_or_none (DexWithdrawLiquidity.amount2_out d));
           ("asset_out_1", of_opt_str (_addr (DexWithdrawLiquidity.asset1_out d)));
           ("asset_out_2", of_opt_str (_addr (DexWithdrawLiquidity.asset2_out d)));
           ("user_jetton_wallet_1",
            of_opt_str (_addr (DexWithdrawLiquidity.wallet1 d)));
           ("user_jetton_wallet_2",
            of_opt_str (_addr (DexWithdrawLiquidity.wallet2 d)));
           ("dex_jetton_wallet_1",
            of_opt_str (_addr (DexWithdrawLiquidity.dex_jetton_wallet_1 d)));
           ("dex_wallet_1", of_opt_str (_addr (DexWithdrawLiquidity.dex_wallet_1 d)));
           ("dex_wallet_2", of_opt_str (_addr (DexWithdrawLiquidity.dex_wallet_2 d)));
           ("dex_jetton_wallet_2",
            of_opt_str (_addr (DexWithdrawLiquidity.dex_jetton_wallet_2 d)));
           ("is_refund", DexWithdrawLiquidity.is_refund d);
           ("lp_tokens_burnt",
            value_or_none (DexWithdrawLiquidity.lp_tokens_burnt d))]) action.

Definition _fill_jvault_stake (d : JVaultStake.data) (action : Action) : Action :=
  let action := set_source (_addr (JVaultStake.sender d)) action in
  let action := set_source_secondary (_addr (JVaultStake.stake_wallet d)) action in
  let action := set_destination (_addr (JVaultStake.staking_pool d)) action in
  let action := set_amount (JVaultStake.staked_amount d) action in
  set_jvault_stake_data
    (Some [("period", JVaultStake.period d);
           ("minted_stake_jettons", JVaultStake.minted_stake_jettons d)]) action.

Definition _fill_jvault_unstake (d : JVaultUnstake.data) (action : Action)
  : Action :=
  let action := set_source (_addr (JVaultUnstake.sender d)) action in
  let action := set_source_secondary (_addr (JVaultUnstake.stake_wallet d)) action in
  let action := set_destination (_addr (JVaultUnstake.staking_pool d)) action in
  set_amount (JVaultUnstake.unstaked_amount d) action.

Definition _fill_jvault_claim (d : JVaultClaim.data) (action : Action) : Action :=
  let action := set_source (_addr (JVaultClaim.sender d)) action in
  let action := set_source_secondary (_addr (JVaultClaim.stake_wallet d)) action in
  let action := set_destination (_addr (JVaultClaim.staking_pool d)) action in
  set_jvault_claim_data
    (Some [("claimed_jettons",
            PyList (map (fun j => of_opt_str (_addr j)) (JVaultClaim.claimed_jettons d)));
           ("claimed_amounts", JVaultClaim.claimed_amounts d)]) action.

Definition _fill_multisig_create_order (d : MultisigCreateOrder.data)
    (action : Action) : Action :=
  let action := set_source (_addr (MultisigCreateOrder.created_by d)) action in
  let action := set_destination (_addr (MultisigCreateOrder.multisig d)) action in
  let action :=
    set_destination_secondary
      (_addr (MultisigCreateOrder.order_contract_address d)) action in
  set_multisig_create_order_data
    (Some [("query_id", MultisigCreateOrder.query_id d);
           ("order_seqno", MultisigCreateOrder.order_seqno d);
           ("is_created_by_signer", MultisigCreateOrder.is_created_by_signer d);
           ("is_signed_by_creator", MultisigCreateOrder.creator_approved d);
           ("creator_index", MultisigCreateOrder.creator_index d);
           ("expiration_date", MultisigCreateOrder.expiration_date d);
           ("order_boc", MultisigCreateOrder.order_boc_str d)]) action.

Definition _fill_multisig_approve (d : MultisigApprove.data) (action : Action)
  : Action :=
  let action := set_source (_addr (MultisigApprove.signer d)) action in
  let action := set_destination (_addr (MultisigApprove.order d)) action in
  let action := set_success (MultisigApprove.success d) action in
  set_multisig_approve_data
    (Some [("signer_index", MultisigApprove.signer_index d);
           ("exit_code", MultisigApprove.exit_code d)]) action.

Definition _fill_vesting_send_message (d : VestingSendMessage.data)
    (action : Action) : Action :=
  let action := set_source (_addr (VestingSendMessage.sender d)) action in
  let action := set_destination (_addr (VestingSendMessage.vesting d)) action in
  let action :=
    set_destination_secondary
      (_addr (VestingSendMessage.message_destination d)) action in
  let action :=
    set_amount (PyInt (Amount.value (VestingSendMessage.message_value d))) action in
  set_vesting_send_message_data
    (Some [("query_id", VestingSendMessage.query_id d);
           ("message_boc", VestingSendMessage.message_boc_str d)]) action.

Definition _fill_vesting_add_whitelist (d : VestingAddWhiteList.data)
    (action : Action) : Action :=
  let action := set_source (_addr (VestingAddWhiteList.adder d)) action in
  let action := set_destination (_addr (VestingAddWhiteList.vesting d)) action in
  set_vesting_add_whitelist_data
    (Some [("query_id", VestingAddWhiteList.query_id d);
           ("accounts_added",
            PyList (map (fun x => of_opt_str (_addr x))
                      (VestingAddWhiteList.accounts_added d)))]) action.

Definition _fill_jetton_burn_action (d : JettonBurn.data) (action : Action)
  : M Action :=
  let action := set_source (Some (AccountId.as_str (JettonBurn.owner d))) action in
  let action :=
    set_source_secondary (Some (AccountId.as_str (JettonBurn.jetton_wallet d)))
      action in
  j <- deref (Asset.jetton_address (JettonBurn.asset d)) ;;
  let action := set_asset (Some (AccountId.as_str j)) action in
  ret (set_amount (PyInt (Amount.value (JettonBurn.amount d))) action).

Definition _fill_change_dns_record_action (d : DnsChangeRecord.data)
    (action : Action) : M Action :=
  let action := set_source (as_str_or_none (DnsChangeRecord.source d)) action in
  let action :=
    set_destination (Some (AccountId.as_str (DnsChangeRecord.destination d)))
      action in
  let dns_record_data := DnsChangeRecord.value d in
  let value_schema := DnsChangeRecord.schema dns_record_data in
  let data : pydict :=
    [("value_schema", PyStr value_schema);
     ("flags", PyNone);
     ("address", PyNone);
     ("key", PyStr (Bytes.hex (DnsChangeRecord.key d)))] in
  data <-
    (if String.eqb value_schema "DNSNextResolver"
        || String.eqb value_schema "DNSSmcAddress" then
       address <- item (DnsChangeRecord.address dns_record_data) ;;
       match address with
       | DnsChangeRecord.Account a =>
           ret (dict_set "address" (PyStr (AccountId.as_str a)) data)
       | DnsChangeRecord.Raw _ => raise AttributeError
       end
     else if String.eqb value_schema "DNSAdnlAddress" then
       address <- item (DnsChangeRecord.address dns_record_data) ;;
       data <-
         match address with
         | DnsChangeRecord.Raw bs => ret (dict_set "address" (PyStr (Bytes.hex bs)) data)
         | DnsChangeRecord.Account _ => raise AttributeError
         end ;;
       flags <- item (DnsChangeRecord.flags dns_record_data) ;;
       ret (dict_set "flags" flags data)
     else ret data) ;;
  data <-
    (if String.eqb value_schema "DNSSmcAddress" then
       flags <- item (DnsChangeRecord.flags dns_record_data) ;;
       ret (dict_set "flags" flags data)
     else ret data) ;;
  data <-
    (if String.eqb value_schema "DNSText" then
       dns_text <- item (DnsChangeRecord.dns_text dns_record_data) ;;
       ret (dict_set "dns_text" dns_text data)
     else ret data) ;;
  ret (set_change_dns_record_data (Some data) action).

Definition _fill_delete_dns_record_action (d : DnsDeleteRecord.data)
    (action : Action) : Action :=
  let action := set_source (as_str_or_none (DnsDeleteRecord.source d)) action in
  let action :=
    set_destination (Some (AccountId.as_str (DnsDeleteRecord.destination d)))
      action in
  set_change_dns_record_data
    (Some [("value_schema", PyNone);
           ("flags", PyNone);
           ("address", PyNone);
           ("key", PyStr (Bytes.hex (DnsDeleteRecord.key d)))]) action.

Definition _fill_tonstakers_deposit_action (d : TONStakersDeposit.data)
    (action : Action) : Action :=
  let action := set_type "stake_deposit" action in
  let action := set_source (_addr (TONStakersDeposit.source d)) action in
  let action := set_destination (_addr (TONStakersDeposit.pool d)) action in
  let action :=
    set_amount (PyInt (Amount.value (TONStakersDeposit.value d))) action in
  set_staking_data (Some [("provider", PyStr "tonstakers")]) action.

Definition _fill_dns_renew_action (d : DnsRenew.data) (action : Action) : Action :=
  let action := set_source (_addr (DnsRenew.source d)) action in
  set_destination (_addr (DnsRenew.destination d)) action.

Definition _fill_tonstakers_withdraw_request_action
    (d : TONStakersWithdrawRequest.data) (action : Action) : Action :=
  let action := set_source (_addr (TONStakersWithdrawRequest.source d)) action in
  let action :=
    set_source_secondary (_addr (TONStakersWithdrawRequest.tsTON_wallet d)) action in
  let action := set_destination (_addr (TONStakersWithdrawRequest.pool d)) action in
  let action :=
    set_amount (PyInt (Amount.value (TONStakersWithdrawRequest.tokens_burnt d)))
      action in
  let action := set_type "stake_withdrawal_request" action in
  set_staking_data
    (Some [("provider", PyStr "tonstakers");
           ("ts_nft", of_opt_str (_addr (TONStakersWithdrawRequest.minted_nft d)))])
    action.

Definition _fill_tonstakers_withdraw_action (d : TONStakersWithdraw.data)
    (action : Action) : Action :=
  let action := set_source (_addr (TONStakersWithdraw.stake_holder d)) action in
  let action := set_destination (_addr (TONStakersWithdraw.pool d)) action in
  let action :=
    set_amount (PyInt (Amount.value (TONStakersWithdraw.amount d))) action in
  let action := set_type "stake_withdrawal" action in
  set_staking_data
    (Some [("provider", PyStr "tonstakers");
           ("ts_nft", of_opt_str (_addr (TONStakersWithdraw.burnt_nft d)))]) action.

Definition _fill_subscribe_action (d : Subscribe.data) (action : Action) : Action :=
  let action := set_source (Some (AccountId.as_str (Subscribe.subscriber d))) action in
  let action := set_destination (as_str_or_none (Subscribe.beneficiary d)) action in
  let action :=
    set_destination_secondary (Some (AccountId.as_str (Subscribe.subscription d)))
      action in
  set_amount (PyInt (Amount.value (Subscribe.amount d))) action.

Definition _fill_unsubscribe_action (d : Unsubscribe.data) (action : Action)
  : Action :=
  let action :=
    set_source (Some (AccountId.as_str (Unsubscribe.subscriber d))) action in
  let action := set_destination (as_str_or_none (Unsubscribe.beneficiary d)) action in
  set_destination_secondary (Some (AccountId.as_str (Unsubscribe.subscription d)))
    action.

Definition _fill_election_action (d : Election.data) (action : Action) : Action :=
  let action := set_source (Some (AccountId.as_str (Election.stake_holder d))) action in
  set_amount (value_or_none (Election.amount d)) action.

Definition _fill_auction_bid_action (d : AuctionBid.data) (action : Action)
  : Action :=
  let action := set_source (Some (AccountId.as_str (AuctionBid.bidder d))) action in
  let action :=
    set_destination (Some (AccountId.as_str (AuctionBid.auction d))) action in
  let action :=
    set_asset_secondary (Some (AccountId.as_str (AuctionBid.nft_address d))) action in
  let action := set_asset (_addr (AuctionBid.nft_collection d)) action in
  let action :=
    set_nft_transfer_data
      (Some [("nft_item_index", AuctionBid.nft_item_index d)]) action in
  set_value (PyInt (Amount.value (AuctionBid.amount d))) action.

Definition _fill_dedust_deposit_liquidity_action
    (d : DedustDepositLiquidity.data) (action : Action) : Action :=
  let action := set_type "dex_deposit_liquidity" action in
  let action := set_source (_addr (DedustDepositLiquidity.sender d)) action in
  let action :=
    set_destination (_addr (DedustDepositLiquidity.pool_address d)) action in
  let action :=
    set_destination_secondary
      (_addr (DedustDepositLiquidity.deposit_contract d)) action in
  set_dex_deposit_liquidity_data
    (Some [("dex", DedustDepositLiquidity.dex d);
           ("asset1",
            of_opt_str
              (_addr (account_ref
                        (Asset.jetton_address (DedustDepositLiquidity.asset_1 d)))));
           ("amount1", PyInt (Amount.value (DedustDepositLiquidity.amount_1 d)));
           ("asset2",
            of_opt_str
              (_addr (account_ref
                        (Asset.jetton_address (DedustDepositLiquidity.asset_2 d)))));
           ("amount2", PyInt (Amount.value (DedustDepositLiquidity.amount_2 d)));
           ("user_jetton_wallet_1",
            of_opt_str (_addr (DedustDepositLiquidity.user_jetton_wallet_1 d)));
           ("user_jetton_wallet_2",
            of_opt_str (_addr (DedustDepositLiquidity.user_jetton_wallet_2 d)));
           ("lp_tokens_minted",
            PyInt (Amount.value (DedustDepositLiquidity.lp_tokens_minted d)))])
    action.

Definition _fill_dedust_deposit_liquidity_partial_action
    (d : DedustDepositLiquidityPartial.data) (action : Action) : Action :=
  let action := set_type "dex_deposit_liquidity" action in
  let action := set_source (_addr (DedustDepositLiquidityPartial.sender d)) action in
  let action :=
    set_destination_secondary
      (_addr (DedustDepositLiquidityPartial.deposit_contract d)) action in
  set_dex_deposit_liquidity_data
    (Some [("dex", DedustDepositLiquidityPartial.dex d);
           ("asset1",
            of_opt_str
              (_addr (account_ref
                        (Asset.jetton_address
                           (DedustDepositLiquidityPartial.asset_1 d)))));
           ("amount1",
            PyInt (Amount.value (DedustDepositLiquidityPartial.amount_1 d)));
           ("asset2",
            of_opt_str
              (_addr (account_ref
                        (Asset.jetton_address
                           (DedustDepositLiquidityPartial.asset_2 d)))));
           ("amount2",
            PyInt (Amount.value (DedustDepositLiquidityPartial.amount_2 d)));
           ("user_jetton_wallet_1",
            of_opt_str
              (_addr (DedustDepositLiquidityPartial.user_jetton_wallet_1 d)));
           ("user_jetton_wallet_2",
            of_opt_str
              (_addr (DedustDepositLiquidityPartial.user_jetton_wallet_2 d)));
           ("lp_tokens_minted", PyNone)]) action.

Definition _fill_jetton_mint_action (d : JettonMint.data) (action : Action)
  : Action :=
  let action := set_destination (_addr (JettonMint.to d)) action in
  let action :=
    set_destination_secondary (_addr (JettonMint.to_jetton_wallet d)) action in
  let action :=
    set_asset (_addr (account_ref (Asset.jetton_address (JettonMint.asset d))))
      action in
  let action := set_amount (value_or_none (JettonMint.amount d)) action in
  set_value (value_or_none (JettonMint.ton_amount d)) action.

Definition _fill_nominator_pool_deposit_action (d : NominatorPoolDeposit.data)
    (action : Action) : Action :=
  let action := set_type "stake_deposit" action in
  let action :=
    set_source (Some (AccountId.as_str (NominatorPoolDeposit.source d))) action in
  let action :=
    set_destination (Some (AccountId.as_str (NominatorPoolDeposit.pool d))) action in
  let action :=
    set_amount (PyInt (Amount.value (NominatorPoolDeposit.value d))) action in
  set_staking_data (Some [("provider", PyStr "nominator")]) action.

Definition _fill_nominator_pool_withdraw_request_action
    (d : NominatorPoolWithdrawRequest.data) (action : Action) : Action :=
  let action :=
    match NominatorPoolWithdrawRequest.payout_amount d with
    | None => set_type "stake_withdrawal_request" action
    | Some payout =>
        let action := set_type "stake_withdrawal" action in
        set_amount (PyInt (Amount.value payout)) action
    end in
  let action := set_staking_data (Some [("provider", PyStr "nominator")]) action in
  let action :=
    set_source (Some (AccountId.as_str (NominatorPoolWithdrawRequest.source d)))
      action in
  set_destination (Some (AccountId.as_str (NominatorPoolWithdrawRequest.pool d)))
    action.

(** The [match block:] statement of [block_to_action]. *)
Definition fill_by_class (block : Block) (trace_id : string) (action : Action)
  : M Action :=
  match data block with
  | CallContractBlock d => ret (_fill_call_contract_action d action)
  | ContractDeployBlock d => ret (_fill_call_contract_action d action)
  | TonTransferBlock d => _fill_ton_transfer_action block d action
  | NominatorPoolDepositBlock d => ret (_fill_nominator_pool_deposit_action d action)
  | NominatorPoolWithdrawRequestBlock d =>
      ret (_fill_nominator_pool_withdraw_request_action d action)
  | DedustDepositLiquidityBlock d =>
      ret (_fill_dedust_deposit_liquidity_action d action)
  | DedustDepositLiquidityPartialBlock d =>
      ret (_fill_dedust_deposit_liquidity_partial_action d action)
  | JettonTransferBlock d => _fill_jetton_transfer_action d action
  | NftTransferBlock d => ret (_fill_nft_transfer_action d action)
  | NftDiscoveryBlock d => ret (_fill_nft_discovery_action d action)
  | NftMintBlock d => ret (_fill_nft_mint_action d action)
  | JettonBurnBlock d => _fill_jetton_burn_action d action
  | JettonMintBlock d => ret (_fill_jetton_mint_action d action)
  | JettonSwapBlock d => _fill_jetton_swap_action d action
  | DnsChangeRecordBlock d => _fill_change_dns_record_action d action
  | DnsDeleteRecordBlock d => ret (_fill_delete_dns_record_action d action)
  | DnsRenewBlock d => ret (_fill_dns_renew_action d action)
  | TONStakersDepositBlock d => ret (_fill_tonstakers_deposit_action d action)
  | TONStakersWithdrawRequestBlock d =>
      ret (_fill_tonstakers_withdraw_request_action d action)
  | TONStakersWithdrawBlock d => ret (_fill_tonstakers_withdraw_action d action)
  | SubscribeBlock d => ret (_fill_subscribe_action d action)
  | DexDepositLiquidityBlock d => ret (_fill_dex_deposit_liquidity d action)
  | DexWithdrawLiquidityBlock d => ret (_fill_dex_withdraw_liquidity d action)
  | JVaultStakeBlock d => ret (_fill_jvault_stake d action)
  | JVaultUnstakeBlock d => ret (_fill_jvault_unstake d action)
  | JVaultClaimBlock d => ret (_fill_jvault_claim d action)
  | MultisigCreateOrderBlock d => ret (_fill_multisig_create_order d action)
  | MultisigApproveBlock d => ret (_fill_multisig_approve d action)
  | VestingSendMessageBlock d => ret (_fill_vesting_send_message d action)
  | VestingAddWhiteListBlock d => ret (_fill_vesting_add_whitelist d action)
  | UnsubscribeBlock d => ret (_fill_unsubscribe_action d action)
  | ElectionDepositStakeBlock d => ret (_fill_election_action d action)
  | ElectionRecoverStakeBlock d => ret (_fill_election_action d action)
  | AuctionBidBlock d => ret (_fill_auction_bid_action d action)
  | OtherBlock =>
      emit LogWarning
        (String.concat ""
           ["Unknown block type "; btype block; " for trace "; trace_id]) ;;;
      ret action
  end.

(** The part of [block_to_action] under [if block.initiating_event_node is
    not None:]; [extended_tx_hashes] is the set being built. *)
Definition add_initiating_node (n : EventNode) (trace_id : string)
    (action : Action) (extended_tx_hashes : list (option string))
  : M (Action * list (option string)) :=
  let extended_tx_hashes :=
    extended_tx_hashes ++ [Some (or_empty (get_tx_hash n))] in
  if negb (is_tick_tock n) then
    m <- deref (message n) ;;
    let acc := Transaction.account (Message.transaction m) in
    (if negb (py_in acc (accounts action)) then
       emit LogInfo
         (String.concat ""
            ["Initiating transaction ("; str_of (get_tx_hash n);
             ") account not in accounts. Trace id: "; trace_id;
             ". Action id: "; action_id action])
     else ret tt) ;;;
    ret (set_accounts (accounts action ++ [acc]) action, extended_tx_hashes)
  else ret (action, extended_tx_hashes).

Definition block_to_action (block : Block) (trace_id : string) : M Action :=
  action <- _base_block_to_action block trace_id ;;
  action <- fill_by_class block trace_id action ;;
  let action := set_accounts (accounts action ++ [source action]) action in
  let action := set_accounts (accounts action ++ [source_secondary action]) action in
  let action := set_accounts (accounts action ++ [destination action]) action in
  let action :=
    set_accounts (accounts action ++ [destination_secondary action]) action in
  let extended_tx_hashes := tx_hashes action in
  '(action, extended_tx_hashes) <-
    match initiating_event_node block with
    | Some n => add_initiating_node n trace_id action extended_tx_hashes
    | None => ret (action, extended_tx_hashes)
    end ;;
  let action :=
    set_extended_tx_hashes (Some (list_of_set ord extended_tx_hashes)) action in
  ret (set_accounts (list_of_set ord (filter is_not_none (accounts action))) action).

End Serializer.


(** ** Peer swaps

    [_convert_peer_swap] is defined by the serializer and called by no
    normalizer.  Both sides of a peer swap are read without a test. *)

Module PeerSwap.
Record side := mkSide { amount : Amount.t; asset : Asset.t }.
Record t := mk { in_ : side; out : side }.
End PeerSwap.

Definition _convert_peer_swap (peer_swap : PeerSwap.t) : pydict :=
  let in_obj := PeerSwap.in_ peer_swap in
  let out_obj := PeerSwap.out peer_swap in
  [("amount_in", PyInt (Amount.value (PeerSwap.amount in_obj)));
   ("asset_in",
    of_opt_str (as_str_or_none (Asset.jetton_address (PeerSwap.asset in_obj))));
   ("amount_out", PyInt (Amount.value (PeerSwap.amount out_obj)));
   ("asset_out",
    of_opt_str (as_str_or_none (Asset.jetton_address (PeerSwap.asset out_obj))))].

(** ** Vocabulary of the properties *)

(** [r] is the first element of [xs] whose key is minimal: every element
    before it has a strictly larger key, every element after it a key at
    least as large. *)
Definition first_minimum {A} (key : A -> Z) (xs : list A) (r : A) : Prop :=
  exists pre post,
    xs = pre ++ r :: post
    /\ (forall m, In m pre -> key r < key m)
    /\ (forall m, In m post -> key r <= key m).

(** The key of the identity of an action, read off its root node: the hash
    of the message when the node carries one, else the hash of the
    transaction, else the empty string. *)
Inductive root_key (n : EventNode) : string -> Prop :=
| key_message m : message n = Some m -> root_key n (Message.msg_hash m)
| key_tx_hash h : message n = None -> get_tx_hash n = Some h -> root_key n h
| key_empty : message n = None -> get_tx_hash n = None -> root_key n "".

(** A node names the object that holds its account. *)
Definition has_account_holder (n : EventNode) : bool :=
  if is_tick_tock n then is_not_none (tick_tock_tx n) else is_not_none (message n).

(** The account a node contributes, when it has its account holder. *)
Definition account_of_node (n : EventNode) : option string :=
  if is_tick_tock n then
    match tick_tock_tx n with
    | Some tx => Transaction.account tx
    | None => None
    end
  else
    match message n with
    | Some m => Transaction.account (Message.transaction m)
    | None => None
    end.

(** The initiating node, when there is one, has its account holder (a
    tick-tock node is not asked for it). *)
Definition initiating_ok (b : Block) : bool :=
  match initiating_event_node b with
  | Some n => is_tick_tock n || is_not_none (message n)
  | None => true
  end.

(** The block has event nodes, each with its account holder, and so has the
    initiating node when there is one. *)
Definition nodes_ok (b : Block) : bool :=
  match event_nodes b with [] => false | _ :: _ => true end
  && forallb has_account_holder (event_nodes b)
  && initiating_ok b.

Definition dns_value_complete (v : DnsChangeRecord.record_value) : bool :=
  let s := DnsChangeRecord.schema v in
  (if String.eqb s "DNSNextResolver" || String.eqb s "DNSSmcAddress" then
     match DnsChangeRecord.address v with
     | Some (DnsChangeRecord.Account _) => true
     | _ => false
     end
   else if String.eqb s "DNSAdnlAddress" then
     match DnsChangeRecord.address v with
     | Some (DnsChangeRecord.Raw _) => is_not_none (DnsChangeRecord.flags v)
     | _ => false
     end
   else true)
  && (if String.eqb s "DNSSmcAddress" then is_not_none (DnsChangeRecord.flags v)
      else true)
  && (if String.eqb s "DNSText" then is_not_none (DnsChangeRecord.dns_text v)
      else true).

(** The payload has what its normalizer dereferences without a test. *)
Definition payload_complete (c : block_class) : bool :=
  match c with
  | TonTransferBlock d => is_not_none (TonTransfer.destination d)
  | JettonTransferBlock d =>
      match JettonTransfer.asset d with
      | Some a => Asset.is_ton a || is_not_none (Asset.jetton_address a)
      | None => true
      end
      && match JettonTransfer.comment d with
         | Some c => JettonTransfer.encrypted_comment d || Utf8.valid c
         | None => true
         end
  | JettonBurnBlock d => is_not_none (Asset.jetton_address (JettonBurn.asset d))
  | JettonSwapBlock d =>
      if String.eqb (JettonSwap.dex d) "stonfi_v2" then
        is_not_none (JettonSwap.source_asset d)
        && is_not_none (JettonSwap.destination_asset d)
      else true
  | DnsChangeRecordBlock d => dns_value_complete (DnsChangeRecord.value d)
  | _ => true
  end.

Definition set_tx_hashes : list (option string) -> Action -> Action :=
  ltac:(assignment tx_hashes).

(** The action of the base converter, given the identity. *)
Definition base_action (ord : SetOrder) (b : Block) (t id : string) : Action :=
  set_accounts (map account_of_node (event_nodes b))
    (new_Action t (btype b) id
       (list_of_set ord (map get_tx_hash (event_nodes b)))
       (min_lt b) (max_lt b) (min_utime b) (max_utime b)
       (PyBool (negb (failed b)))).

(** What the assembler adds for the initiating node. *)
Definition initiating_hash (b : Block) : list (option string) :=
  match initiating_event_node b with
  | Some n => [Some (or_empty (get_tx_hash n))]
  | None => []
  end.

Definition initiating_account (b : Block) : list (option string) :=
  match initiating_event_node b with
  | Some n =>
      if is_tick_tock n then []
      else
        match message n with
        | Some m => [Transaction.account (Message.transaction m)]
        | None => []
        end
  | None => []
  end.

(** The action [block_to_action] returns, given the action the normalizer
    left, when nothing raises. *)
Definition assembled (ord : SetOrder) (b : Block) (filled : Action) : Action :=
  let accs :=
    ((((accounts filled ++ [source filled]) ++ [source_secondary filled])
        ++ [destination filled]) ++ [destination_secondary filled])
      ++ initiating_account b in
  set_accounts (list_of_set ord (filter is_not_none accs))
    (set_extended_tx_hashes
       (Some (list_of_set ord (tx_hashes filled ++ initiating_hash b))) filled).

(** What the assembler logs about the initiating node. *)
Definition initiating_info (b : Block) (t : string) (filled : Action)
  : list diagnostic :=
  match initiating_event_node b with
  | Some n =>
      if is_tick_tock n then []
      else
        match message n with
        | Some m =>
            if py_in (Transaction.account (Message.transaction m))
                 ((((accounts filled ++ [source filled])
                      ++ [source_secondary filled])
                     ++ [destination filled]) ++ [destination_secondary filled])
            then []
            else
              [mkDiag LogInfo
                 (String.concat ""
                    ["Initiating transaction ("; str_of (get_tx_hash n);
                     ") account not in accounts. Trace id: "; t;
                     ". Action id: "; action_id filled])]
        | None => []
        end
  | None => []
  end.

(** No attribute beyond those of the base converter is assigned. *)
Definition only_base_fields (a : Action) : Prop :=
  source a = None /\ source_secondary a = None
  /\ destination a = None /\ destination_secondary a = None
  /\ asset a = None /\ asset2 a = None /\ asset_secondary a = None
  /\ amount a = PyNone /\ value a = PyNone /\ opcode a = PyNone
  /\ ton_transfer_data a = None /\ jetton_transfer_data a = None
  /\ nft_transfer_data a = None /\ nft_discovery_data a = None
  /\ nft_mint_data a = None /\ jetton_swap_data a = None
  /\ dex_deposit_liquidity_data a = None /\ dex_withdraw_liquidity_data a = None
  /\ jvault_stake_data a = None /\ jvault_claim_data a = None
  /\ multisig_create_order_data a = None /\ multisig_approve_data a = None
  /\ vesting_send_message_data a = None /\ vesting_add_whitelist_data a = None
  /\ change_dns_record_data a = None /\ staking_data a = None.

(** A run with [tx_hashes] of its action replaced. *)
Definition with_tx_hashes (l : list (option string)) (r : M Action) : M Action :=
  match r with
  | (Ok a, o) => (Ok (set_tx_hashes l a), o)
  | (Raise e, o) => (Raise e, o)
  end.

(** The action without its three enumerated lists. *)
Definition without_lists (a : Action) : Action :=
  set_tx_hashes [] (set_extended_tx_hashes None (set_accounts [] a)).

Definition same_elements (x y : option (list (option string))) : Prop :=
  match x, y with
  | Some l, Some l' => Permutation l l'
  | None, None => True
  | _, _ => False
  end.

(** Two actions that differ at most in the order of their lists. *)
Definition same_up_to_order (a a' : Action) : Prop :=
  without_lists a = without_lists a'
  /\ Permutation (tx_hashes a) (tx_hashes a')
  /\ same_elements (extended_tx_hashes a) (extended_tx_hashes a')
  /\ Permutation (accounts a) (accounts a').

(** Two runs that differ at most in the order of the lists of the action. *)
Definition same_run_up_to_order (r r' : M Action) : Prop :=
  snd r = snd r'
  /\ match fst r, fst r' with
     | Ok a, Ok a' => same_up_to_order a a'
     | Raise e, Raise e' => e = e'
     | _, _ => False
     end.

(** ** Two enumeration orders

    The elements in the order of their first insertion, and in the reverse
    of it.  An interpreter may produce either, depending on the hashes of
    the strings. *)

Definition opt_string_dec (x y : option string) : {x = y} + {x <> y}.
Proof. decide equality. apply string_dec. Defined.

Definition first_seen (xs : list (option string)) : list (option string) :=
  rev (nodup opt_string_dec (rev xs)).

Lemma first_seen_NoDup xs : NoDup (first_seen xs).
Proof.
  unfold first_seen. apply NoDup_rev, NoDup_nodup.
Qed.

Lemma first_seen_In xs x : In x (first_seen xs) <-> In x xs.
Proof.
  unfold first_seen. rewrite <- in_rev, nodup_In, <- in_rev. tauto.
Qed.

Definition insertion_order : SetOrder :=
  mkSetOrder first_seen first_seen_NoDup first_seen_In.

Lemma last_seen_NoDup xs : NoDup (rev (first_seen xs)).
Proof.
  apply NoDup_rev, first_seen_NoDup.
Qed.

Lemma last_seen_In xs x : In x (rev (first_seen xs)) <-> In x xs.
Proof.
  rewrite <- in_rev. apply first_seen_In.
Qed.

Definition reverse_order : SetOrder :=
  mkSetOrder (fun xs => rev (first_seen xs)) last_seen_NoDup last_seen_In.

(** ** Sample inputs *)

Definition tx_a : Transaction.t := Transaction.mk (Some "0:AAA").
Definition tx_b : Transaction.t := Transaction.mk (Some "0:BBB").

Definition node_1 : EventNode :=
  mkEventNode (Some (Message.mk "mh1" "T" tx_a)) false None 10 (Some "h1").
Definition node_2 : EventNode :=
  mkEventNode (Some (Message.mk "mh2" "T" tx_b)) false None 5 (Some "h2").
(** A tick-tock node whose transaction hash is unavailable. *)
Definition node_3 : EventNode := mkEventNode None true (Some tx_b) 5 None.

Definition block_of (btype : string) (nodes : list EventNode) (c : block_class)
    (init : option EventNode) : Block :=
  mkBlock btype nodes c 5 10 100 200 false init.

Definition ton_transfer_block : Block :=
  block_of "ton_transfer" [node_1; node_2; node_3]
    (TonTransferBlock
       (TonTransfer.mk (PyInt 5) (AccountId.mk "0:SRC") (Some (AccountId.mk "0:DST"))
          (Some (String "a" (String Ascii.zero "b"))) (PyBool false)))
    (Some node_3).

Definition withdraw_request_block : Block :=
  block_of "nominator_pool_withdraw_request" [node_1]
    (NominatorPoolWithdrawRequestBlock
       (NominatorPoolWithdrawRequest.mk None (AccountId.mk "0:SRC")
          (AccountId.mk "0:POOL")))
    None.

Definition withdraw_block : Block :=
  block_of "nominator_pool_withdraw_request" [node_1]
    (NominatorPoolWithdrawRequestBlock
       (NominatorPoolWithdrawRequest.mk (Some (Amount.mk 7)) (AccountId.mk "0:SRC")
          (AccountId.mk "0:POOL")))
    None.

Definition unknown_block : Block :=
  block_of "mystery" [node_1; node_2] OtherBlock (Some node_1).

(** A block of a class the serializer does not know, without event nodes. *)
Definition unknown_block_without_nodes : Block :=
  block_of "mystery" [] OtherBlock None.

(** A node that is not tick-tock and carries no message. *)
Definition bare_node : EventNode := mkEventNode None false None 7 (Some "h7").

Definition unknown_block_with_bare_node : Block :=
  block_of "mystery" [node_1; bare_node] OtherBlock None.

Definition unknown_block_with_bare_initiator : Block :=
  block_of "mystery" [node_1] OtherBlock (Some bare_node).


(** A native transfer whose destination is null. *)
Definition ton_transfer_without_destination : Block :=
  block_of "ton_transfer" [node_1]
    (TonTransferBlock
       (TonTransfer.mk (PyInt 5) (AccountId.mk "0:SRC") None None (PyBool false)))
    None.

Definition jetton_transfer_with (comment : option (list byte)) (encrypted : bool)
  : Block :=
  block_of "jetton_transfer" [node_1]
    (JettonTransferBlock
       (JettonTransfer.mk (AccountId.mk "0:SRC") (AccountId.mk "0:SRCW")
          (AccountId.mk "0:DST") None (Amount.mk 9)
          (Some (Asset.mk false (Some (AccountId.mk "0:JET"))))
          comment encrypted (PyInt 0) None (Amount.mk 0) PyNone PyNone))
    None.

(** A native transfer flagged as encrypted, with the comment [hi]. *)
Definition encrypted_ton_transfer : Block :=
  block_of "ton_transfer" [node_1]
    (TonTransferBlock
       (TonTransfer.mk (PyInt 5) (AccountId.mk "0:SRC") (Some (AccountId.mk "0:DST"))
          (Some "hi") (PyBool true)))
    None.

Definition jetton (s : string) : option addr_like :=
  Some (OfAsset (Asset.mk false (Some (AccountId.mk s)))).

Definition swap_leg (asset : string) : JettonSwap.transfer :=
  JettonSwap.mkTransfer (Amount.mk 1) None None None None (jetton asset).

(** A swap whose legs carry the assets [0:IN] and [0:OUT] and whose payload
    reports the assets [0:X] and [0:Y]. *)
Definition swap_block (dex : string) : Block :=
  block_of "jetton_swap" [node_1]
    (JettonSwapBlock
       (JettonSwap.mk dex None (swap_leg "0:IN") (swap_leg "0:OUT")
          (Some (jetton "0:X")) (Some (jetton "0:Y")) None))
    None.

(** ** Further vocabulary *)

(** [r] is in [xs] and no other element has a key as small. *)
Definition strict_minimum {A} (key : A -> Z) (xs : list A) (r : A) : Prop :=
  In r xs /\ forall m, In m xs -> key m <= key r -> m = r.

(** The nested payloads of an action. *)
Definition payloads (a : Action) : list (option pydict) :=
  [ton_transfer_data a; jetton_transfer_data a; nft_transfer_data a;
   nft_discovery_data a; nft_mint_data a; jetton_swap_data a;
   dex_deposit_liquidity_data a; dex_withdraw_liquidity_data a;
   jvault_stake_data a; jvault_claim_data a;
   multisig_create_order_data a; multisig_approve_data a;
   vesting_send_message_data a; vesting_add_whitelist_data a;
   change_dns_record_data a; staking_data a].

Definition payload_count (a : Action) : nat :=
  List.length (filter is_not_none (payloads a)).

(** The classes whose normalizer assigns [type]. *)
Definition retyped (c : block_class) : option string :=
  match c with
  | NominatorPoolDepositBlock _ => Some "stake_deposit"
  | NominatorPoolWithdrawRequestBlock d =>
      match NominatorPoolWithdrawRequest.payout_amount d with
      | None => Some "stake_withdrawal_request"
      | Some _ => Some "stake_withdrawal"
      end
  | DedustDepositLiquidityBlock _ => Some "dex_deposit_liquidity"
  | DedustDepositLiquidityPartialBlock _ => Some "dex_deposit_liquidity"
  | TONStakersDepositBlock _ => Some "stake_deposit"
  | TONStakersWithdrawRequestBlock _ => Some "stake_withdrawal_request"
  | TONStakersWithdrawBlock _ => Some "stake_withdrawal"
  | _ => None
  end.

(** The provider of a block of the staking family. *)
Definition staking_provider (c : block_class) : option string :=
  match c with
  | NominatorPoolDepositBlock _ => Some "nominator"
  | NominatorPoolWithdrawRequestBlock _ => Some "nominator"
  | TONStakersDepositBlock _ => Some "tonstakers"
  | TONStakersWithdrawRequestBlock _ => Some "tonstakers"
  | TONStakersWithdrawBlock _ => Some "tonstakers"
  | _ => None
  end.

(** The string holds no null character. *)
Definition nul_free (s : string) : Prop := ~ In Ascii.zero (list_ascii_of_string s).

(** The four generic account fields of an action. *)
Definition party_fields (a : Action) : list (option string) :=
  [source a; source_secondary a; destination a; destination_secondary a].

Definition is_ascii (b : byte) : Prop := Bytes.to_Z b < 128.

(** The classes whose normalizer sets a nested payload. *)
Definition has_payload (c : block_class) : bool :=
  match c with
  | CallContractBlock _ | ContractDeployBlock _ | JettonBurnBlock _
  | JettonMintBlock _ | DnsRenewBlock _ | SubscribeBlock _ | UnsubscribeBlock _
  | ElectionDepositStakeBlock _ | ElectionRecoverStakeBlock _
  | JVaultUnstakeBlock _ | OtherBlock => false
  | _ => true
  end.


(** [isinstance(e, ValueError)]: in Python [UnicodeDecodeError] is a subclass
    of [ValueError]. *)
Definition is_ValueError (e : exn) : bool :=
  match e with
  | ValueError | UnicodeDecodeError => true
  | _ => false
  end.


(** ** Further sample inputs *)

Definition reordered_block : Block :=
  block_of "ton_transfer" [node_2; node_1] OtherBlock None.

(** A jetton transfer of an asset flagged native that still names a jetton. *)
Definition native_flagged_transfer : Block :=
  block_of "jetton_transfer" [node_1]
    (JettonTransferBlock
       (JettonTransfer.mk (AccountId.mk "0:SRC") (AccountId.mk "0:SRCW")
          (AccountId.mk "0:DST") None (Amount.mk 9)
          (Some (Asset.mk true (Some (AccountId.mk "0:JET"))))
          None false (PyInt 0) None (Amount.mk 0) PyNone PyNone))
    None.

(** The keys of [dex_deposit_liquidity_data]. *)
Definition dex_deposit_keys : list string :=
  ["dex"; "amount1"; "amount2"; "asset1"; "asset2";
   "user_jetton_wallet_1"; "user_jetton_wallet_2"; "lp_tokens_minted"].

Definition is_dex_deposit (c : block_class) : bool :=
  match c with
  | DexDepositLiquidityBlock _ | DedustDepositLiquidityBlock _
  | DedustDepositLiquidityPartialBlock _ => true
  | _ => false
  end.

Definition dns_text_block : Block :=
  block_of "change_dns" [node_1]
    (DnsChangeRecordBlock
       (DnsChangeRecord.mk None (AccountId.mk "0:DNS")
          (DnsChangeRecord.mkValue "DNSText" None None (Some (PyStr "hello")))
          [xab; x01]))
    None.

Definition nft_gift_block : Block :=
  block_of "nft_transfer" [node_1]
    (NftTransferBlock
       (NftTransfer.mk (Some None) (AccountId.mk "0:NEW")
          (NftTransfer.mkNft (AccountId.mk "0:NFT") None (PyInt 4))
          (PyInt 0) false (Some (Amount.mk 50)) None PyNone PyNone None))
    None.

Definition dedust_partial_block : Block :=
  block_of "dedust_deposit_liquidity_partial" [node_1]
    (DedustDepositLiquidityPartialBlock
       (DedustDepositLiquidityPartial.mk None None (PyStr "dedust")
          (Asset.mk true None) (Amount.mk 1)
          (Asset.mk false (Some (AccountId.mk "0:JET"))) (Amount.mk 2) None None))
    None.

Definition claim_block : Block :=
  block_of "jvault_claim" [node_1]
    (JVaultClaimBlock
       (JVaultClaim.mk None None None
          [jetton "0:J1"; Some (OfAsset (Asset.mk true None)); jetton "0:J3"]
          (PyList [PyInt 1; PyInt 2; PyInt 3])))
    None.

Definition mint_of_nothing : Block :=
  block_of "jetton_mint" [node_1]
    (JettonMintBlock
       (JettonMint.mk None None (Asset.mk false (Some (AccountId.mk "0:JET")))
          (Some (Amount.mk 0)) None))
    None.

(** The digest and its encoding are evaluated on closed inputs only. *)
Arguments Sha256.digest : simpl never.
Arguments Base64.b64encode : simpl never.
Arguments Utf8.valid : simpl never.
Arguments Bytes.hex : simpl never.
Arguments py_in : simpl never.

(** ** Test vectors *)

Example sha256_abc :
  Bytes.hex (Sha256.digest (Utf8.encode "abc"))
  = "ba7816bf8f01cfea414140de5dae2223b00361a396177a9cb410ff61f20015ad".
Proof. vm_compute. reflexivity. Qed.

Example sha256_empty :
  Bytes.hex (Sha256.digest [])
  = "e3b0c44298fc1c149afbf4c8996fb92427ae41e4649b934ca495991b7852b855".
Proof. vm_compute. reflexivity. Qed.

Example sha256_two_blocks :
  Bytes.hex
    (Sha256.digest
       (Utf8.encode "abcdbcdecdefdefgefghfghighijhijkijkljklmklmnlmnomnopnopq"))
  = "248d6a61d20638b8e5c026930c3e6039a33ce45964ff2167f6ecedd419db06c1".
Proof. vm_compute. reflexivity. Qed.

Example b64encode_groups :
  map Base64.b64encode
    [[]; Utf8.encode "f"; Utf8.encode "fo"; Utf8.encode "foo";
     Utf8.encode "foob"; [xff; xfe; xfd]; [x01; x02]]
  = [""; "Zg=="; "Zm8="; "Zm9v"; "Zm9vYg=="; "//79"; "AQI="].
Proof. vm_compute. reflexivity. Qed.

Example utf8_valid_samples :
  map Utf8.valid
    [[x61]; [xc3; xa9]; [xe2; x82; xac]; [xf0; x9f; x98; x80];
     [xff]; [xc0; x80]; [xed; xa0; x80]; [xf4; x90; x80; x80]; [xe2; x82]]
  = [true; true; true; true; false; false; false; false; false].
Proof. vm_compute. reflexivity. Qed.

(** ** The monad *)

Lemma bind_Ok {A B} (m : M A) (f : A -> M B) b out :
  bind m f = (Ok b, out) ->
  exists a o1 o2, m = (Ok a, o1) /\ f a = (Ok b, o2) /\ out = o1 ++ o2.
Proof.
  unfold bind. destruct m as [[a | e] o1]; [| discriminate].
  destruct (f a) as [r o2] eqn:E. intros H. inversion H; subst.
  exists a, o1, o2. auto.
Qed.

Lemma bind_ret_eq {A B} (m : M A) (f : A -> M B) a o :
  m = (Ok a, o) -> bind m f = (fst (f a), o ++ snd (f a)).
Proof.
  intros ->. unfold bind. destruct (f a); reflexivity.
Qed.

Lemma bind_raise_eq {A B} (m : M A) (f : A -> M B) e o :
  m = (Raise e, o) -> bind m f = (Raise e, o).
Proof.
  intros ->. reflexivity.
Qed.

(** ** The minimum of a sequence *)

Section Minimum.

Context {A : Type} (key : A -> Z).

Lemma min_from_first_minimum rest :
  forall pre best mid,
    (forall m, In m pre -> key best < key m) ->
    (forall m, In m mid -> key best <= key m) ->
    first_minimum key (pre ++ best :: mid ++ rest) (min_from key best rest).
Proof.
  induction rest as [| x rest IH]; intros pre best mid Hpre Hmid; simpl.
  - exists pre, mid. rewrite app_nil_r. auto.
  - destruct (key x <? key best) eqn:E.
    + apply Z.ltb_lt in E.
      replace (pre ++ best :: mid ++ x :: rest)
        with ((pre ++ best :: mid) ++ x :: [] ++ rest)
        by (rewrite <- app_assoc; reflexivity).
      apply IH.
      * intros m Hm. apply in_app_or in Hm. destruct Hm as [Hm | [<- | Hm]].
        -- specialize (Hpre m Hm). lia.
        -- exact E.
        -- specialize (Hmid m Hm). lia.
      * intros m [].
    + apply Z.ltb_ge in E.
      replace (pre ++ best :: mid ++ x :: rest)
        with (pre ++ best :: (mid ++ [x]) ++ rest)
        by (rewrite <- app_assoc; reflexivity).
      apply IH; [exact Hpre |].
      intros m Hm. apply in_app_or in Hm. destruct Hm as [Hm | [<- | []]]; auto.
Qed.

Lemma first_minimum_unique xs r r' :
  first_minimum key xs r -> first_minimum key xs r' -> r = r'.
Proof.
  intros (pre & post & -> & Hpre & Hpost) (pre' & post' & E & Hpre' & Hpost').
  revert pre' E Hpre'.
  induction pre as [| p pre IH]; intros [| p' pre'] E Hpre'; simpl in E.
  - congruence.
  - injection E as E0 E. subst p'.
    assert (H1 : key r' < key r) by (apply Hpre'; left; reflexivity).
    assert (H2 : key r <= key r').
    { apply Hpost. rewrite E. apply in_or_app. right. left. reflexivity. }
    lia.
  - injection E as E0 E. subst p.
    assert (H1 : key r < key r') by (apply Hpre; left; reflexivity).
    assert (H2 : key r' <= key r).
    { apply Hpost'. rewrite <- E. apply in_or_app. right. left. reflexivity. }
    lia.
  - injection E as E0 E. subst p'.
    apply (IH (fun m Hm => Hpre m (or_intror Hm)) pre' E).
    intros m Hm. apply Hpre'. right. exact Hm.
Qed.

Lemma py_min_first_minimum x rest :
  exists r, py_min key (x :: rest) = (Ok r, []) /\ first_minimum key (x :: rest) r.
Proof.
  exists (min_from key x rest). split; [reflexivity |].
  apply (min_from_first_minimum rest [] x []); intros m [].
Qed.

End Minimum.

(** ** The identity of an action *)

Lemma root_key_computed n :
  root_key n
    match message n with
    | Some m => Message.msg_hash m
    | None => or_empty (get_tx_hash n)
    end.
Proof.
  destruct (message n) as [m |] eqn:Em.
  - apply key_message. exact Em.
  - destruct (get_tx_hash n) as [h |] eqn:Eh; simpl.
    + apply key_tx_hash; assumption.
    + apply key_empty; assumption.
Qed.

(** C1.  The identity of an action is computed from the root event node,
    the first node of the block with a minimal logical time (one exists as
    soon as the block has a node): the key is the hash of the root's message
    when it carries one, else the hash of its transaction, else the empty
    string; the type tag of the block is appended, the key is hashed with
    SHA-256 and the digest is written in base64. *)
Theorem calc_action_id_from_root (b : Block) :
  (event_nodes b <> [] ->
   exists root, first_minimum get_lt (event_nodes b) root)
  /\ (forall root,
        first_minimum get_lt (event_nodes b) root ->
        exists key,
          root_key root key
          /\ _calc_action_id b
             = (Ok (Base64.b64encode
                      (Sha256.digest (Utf8.encode (String.append key (btype b))))),
                [])).
Proof.
  unfold _calc_action_id.
  destruct (event_nodes b) as [| x rest] eqn:E.
  - split; [congruence |].
    intros root (pre & post & H & _). destruct pre; discriminate.
  - destruct (py_min_first_minimum get_lt x rest) as (r & Hr & Hmin).
    split; [intros _; exists r; exact Hmin |].
    intros root Hroot.
    assert (root = r) by (eapply first_minimum_unique; eassumption). subst r.
    eexists. split; [apply root_key_computed |].
    rewrite Hr. reflexivity.
Qed.

Lemma calc_action_id_from_root_witness :
  first_minimum get_lt (event_nodes ton_transfer_block) node_2
  /\ _calc_action_id ton_transfer_block
     = (Ok "rqSqcaQKN6SauoYaObigxZYbjDOUPdKG56V0rHCm1lA=", []).
Proof.
  assert (Hmin : first_minimum get_lt (event_nodes ton_transfer_block) node_2).
  { exists [node_1], [node_3]. split; [reflexivity |].
    split; intros m [<- | []]; vm_compute; congruence. }
  split; [exact Hmin |].
  destruct (proj2 (calc_action_id_from_root ton_transfer_block) node_2 Hmin)
    as (key & Hkey & ->).
  inversion Hkey as [m Hm | h Hm Hh | Hm Hh]; try discriminate Hm.
  injection Hm as <-. vm_compute. reflexivity.
Defined.

(** ** The normalizers *)

(** Case analysis on a scrutinee that contains no other case analysis. *)
Ltac break_match_hyp H :=
  match type of H with
  | context [match ?x with _ => _ end] =>
      lazymatch x with
      | context [match _ with _ => _ end] => fail
      | _ => destruct x eqn:?
      end
  end.

Ltac break_match_goal :=
  match goal with
  | |- context [match ?x with _ => _ end] =>
      lazymatch x with
      | context [match _ with _ => _ end] => fail
      | _ => destruct x eqn:?
      end
  end.

Ltac unfold_fill :=
  unfold fill_by_class,
    _fill_call_contract_action, _fill_ton_transfer_action,
    _fill_jetton_transfer_action, _fill_nft_transfer_action,
    _fill_nft_discovery_action, _fill_nft_mint_action,
    _fill_jetton_swap_action, _fill_dex_deposit_liquidity,
    _fill_dex_withdraw_liquidity, _fill_jvault_stake, _fill_jvault_unstake,
    _fill_jvault_claim, _fill_multisig_create_order, _fill_multisig_approve,
    _fill_vesting_send_message, _fill_vesting_add_whitelist,
    _fill_jetton_burn_action, _fill_change_dns_record_action,
    _fill_delete_dns_record_action, _fill_tonstakers_deposit_action,
    _fill_dns_renew_action, _fill_tonstakers_withdraw_request_action,
    _fill_tonstakers_withdraw_action, _fill_subscribe_action,
    _fill_unsubscribe_action, _fill_election_action, _fill_auction_bid_action,
    _fill_dedust_deposit_liquidity_action,
    _fill_dedust_deposit_liquidity_partial_action, _fill_jetton_mint_action,
    _fill_nominator_pool_deposit_action,
    _fill_nominator_pool_withdraw_request_action.

Ltac unfold_M :=
  unfold bind, ret, raise, deref, item, emit, first, Utf8.decode.

(** A normalizer leaves what the base converter computed, apart from [type]
    and [success]. *)
Lemma fill_by_class_keeps b t a a' out :
  fill_by_class b t a = (Ok a', out) ->
  tx_hashes a' = tx_hashes a
  /\ accounts a' = accounts a
  /\ extended_tx_hashes a' = extended_tx_hashes a
  /\ trace_id a' = trace_id a
  /\ action_id a' = action_id a.
Proof.
  unfold_fill. destruct (data b); unfold_M; intros H;
    repeat (break_match_hyp H; cbn in H); inversion H; subst; cbn; auto.
Qed.

(** A complete payload is normalized without an exception. *)
Lemma fill_by_class_complete b t a :
  payload_complete (data b) = true ->
  exists a' out, fill_by_class b t a = (Ok a', out).
Proof.
  unfold_fill. unfold payload_complete, dns_value_complete.
  destruct (data b); unfold_M; cbn; intros H;
    repeat (break_match_goal; cbn in * );
    try discriminate; eauto.
Qed.

(** ** The base converter *)

Lemma node_accounts_Ok_inv nodes :
  forall accs out,
    node_accounts nodes = (Ok accs, out) ->
    out = [] /\ accs = map account_of_node nodes.
Proof.
  induction nodes as [| n rest IH]; intros accs out H; simpl in H.
  - inversion H. auto.
  - apply bind_Ok in H. destruct H as (acc & o1 & o2 & Hn & H & ->).
    apply bind_Ok in H. destruct H as (accs' & o3 & o4 & Hrest & H & ->).
    inversion H; subst. destruct (IH _ _ Hrest) as [-> ->].
    cbn [map]. unfold node_account in Hn.
    destruct (is_tick_tock n) eqn:Et;
      [destruct (tick_tock_tx n) eqn:Ex | destruct (message n) eqn:Em];
      cbn in Hn; inversion Hn; subst; (split; [reflexivity | f_equal]);
      unfold account_of_node; rewrite Et, ?Ex, ?Em; reflexivity.
Qed.

Lemma node_accounts_Ok nodes :
  forallb has_account_holder nodes = true ->
  node_accounts nodes = (Ok (map account_of_node nodes), []).
Proof.
  induction nodes as [| n rest IH]; simpl; intros H; [reflexivity |].
  apply andb_prop in H. destruct H as [Hn Hrest].
  rewrite (IH Hrest).
  unfold has_account_holder, node_account, account_of_node in *.
  destruct (is_tick_tock n);
    [destruct (tick_tock_tx n) | destruct (message n)];
    try discriminate; reflexivity.
Qed.

Lemma calc_action_id_quiet b r out : _calc_action_id b = (r, out) -> out = [].
Proof.
  unfold _calc_action_id. destruct (event_nodes b); cbn; intros H; inversion H; auto.
Qed.

Lemma calc_action_id_Ok b :
  event_nodes b <> [] -> exists id, _calc_action_id b = (Ok id, []).
Proof.
  unfold _calc_action_id. destruct (event_nodes b); [congruence |].
  intros _. cbn. eauto.
Qed.

Lemma base_Ok_inv ord b t a out :
  _base_block_to_action ord b t = (Ok a, out) ->
  out = []
  /\ exists id, _calc_action_id b = (Ok id, []) /\ a = base_action ord b t id.
Proof.
  unfold _base_block_to_action. intros H.
  apply bind_Ok in H. destruct H as (id & o1 & o2 & Hid & H & ->).
  apply bind_Ok in H. destruct H as (accs & o3 & o4 & Hacc & H & ->).
  pose proof (calc_action_id_quiet _ _ _ Hid). subst o1.
  apply node_accounts_Ok_inv in Hacc. destruct Hacc as [-> ->].
  inversion H; subst. split; [reflexivity |].
  exists id. auto.
Qed.

Lemma base_Ok ord b t :
  event_nodes b <> [] ->
  forallb has_account_holder (event_nodes b) = true ->
  exists id,
    _calc_action_id b = (Ok id, [])
    /\ _base_block_to_action ord b t = (Ok (base_action ord b t id), []).
Proof.
  intros Hne Hall. destruct (calc_action_id_Ok b Hne) as [id Hid].
  exists id. split; [exact Hid |].
  unfold _base_block_to_action. rewrite Hid. cbn.
  rewrite (node_accounts_Ok _ Hall). reflexivity.
Qed.

(** ** The assembler *)

Lemma block_to_action_Ok_inv ord b t a out :
  block_to_action ord b t = (Ok a, out) ->
  exists base filled o2 o3,
    _base_block_to_action ord b t = (Ok base, [])
    /\ fill_by_class b t base = (Ok filled, o2)
    /\ a = assembled ord b filled
    /\ out = o2 ++ o3.
Proof.
  unfold block_to_action. intros H.
  apply bind_Ok in H. destruct H as (base & o1 & o1' & Hbase & H & ->).
  destruct (base_Ok_inv _ _ _ _ _ Hbase) as [-> _].
  apply bind_Ok in H. destruct H as (filled & o2 & o2' & Hfill & H & ->).
  apply bind_Ok in H. destruct H as ([act ext] & o3 & o4 & Hinit & H & ->).
  exists base, filled, o2, (o3 ++ o4).
  repeat split; try assumption.
  unfold ret in H. inversion H; subst. clear H.
  unfold assembled, initiating_account, initiating_hash.
  destruct (initiating_event_node b) as [n |].
  - unfold add_initiating_node in Hinit.
    destruct (is_tick_tock n); cbn in Hinit.
    + inversion Hinit; subst. cbn. rewrite app_nil_r. reflexivity.
    + destruct (message n) as [m |]; cbn in Hinit; [| discriminate].
      match type of Hinit with
      | context [if ?c then _ else _] => destruct c
      end; cbn in Hinit; inversion Hinit; subst; reflexivity.
  - unfold ret in Hinit. inversion Hinit; subst. cbn.
    rewrite !app_nil_r. reflexivity.
Qed.

Lemma block_to_action_filled ord b t base filled o2 :
  _base_block_to_action ord b t = (Ok base, []) ->
  fill_by_class b t base = (Ok filled, o2) ->
  block_to_action ord b t
  = if initiating_ok b
    then (Ok (assembled ord b filled), o2 ++ initiating_info b t filled)
    else (Raise AttributeError, o2).
Proof.
  intros Hbase Hfill. unfold block_to_action.
  rewrite Hbase. cbn. rewrite Hfill. cbn.
  unfold assembled, initiating_account, initiating_hash, initiating_ok,
    initiating_info.
  destruct (initiating_event_node b) as [n |].
  - unfold add_initiating_node.
    destruct (is_tick_tock n); cbn.
    + rewrite !app_nil_r. reflexivity.
    + destruct (message n) as [m |]; cbn; [| rewrite app_nil_r; reflexivity].
      match goal with
      | |- context [py_in ?x ?l] => destruct (py_in x l)
      end; cbn; rewrite ?app_nil_r; reflexivity.
  - cbn. rewrite !app_nil_r. reflexivity.
Qed.

Lemma block_to_action_Ok ord b t base filled o2 :
  _base_block_to_action ord b t = (Ok base, []) ->
  fill_by_class b t base = (Ok filled, o2) ->
  initiating_ok b = true ->
  exists o3, block_to_action ord b t = (Ok (assembled ord b filled), o2 ++ o3).
Proof.
  intros Hbase Hfill Hinit.
  rewrite (block_to_action_filled _ _ _ _ _ _ Hbase Hfill), Hinit. eauto.
Qed.

(** Blocks that satisfy [nodes_ok] and [payload_complete] are converted. *)
Lemma block_to_action_total ord b t :
  nodes_ok b = true ->
  payload_complete (data b) = true ->
  exists id filled o2 o3,
    _calc_action_id b = (Ok id, [])
    /\ fill_by_class b t (base_action ord b t id) = (Ok filled, o2)
    /\ block_to_action ord b t = (Ok (assembled ord b filled), o2 ++ o3).
Proof.
  unfold nodes_ok. intros Hn Hp.
  apply andb_prop in Hn. destruct Hn as [Hn Hinit].
  apply andb_prop in Hn. destruct Hn as [Hne Hall].
  assert (Hne' : event_nodes b <> []) by (destruct (event_nodes b); [discriminate | congruence]).
  destruct (base_Ok ord b t Hne' Hall) as (id & Hid & Hbase).
  destruct (fill_by_class_complete b t (base_action ord b t id) Hp)
    as (filled & o2 & Hfill).
  destruct (block_to_action_Ok ord b t _ _ _ Hbase Hfill Hinit) as [o3 H].
  exists id, filled, o2, o3. auto.
Qed.

Lemma assembled_accounts ord b filled :
  accounts (assembled ord b filled)
  = list_of_set ord
      (filter is_not_none
         (((((accounts filled ++ [source filled]) ++ [source_secondary filled])
              ++ [destination filled]) ++ [destination_secondary filled])
            ++ initiating_account b)).
Proof. reflexivity. Qed.

Lemma assembled_extended ord b filled :
  extended_tx_hashes (assembled ord b filled)
  = Some (list_of_set ord (tx_hashes filled ++ initiating_hash b)).
Proof. reflexivity. Qed.

Lemma assembled_tx_hashes ord b filled :
  tx_hashes (assembled ord b filled) = tx_hashes filled.
Proof. reflexivity. Qed.

(** The hashes of a converted block are those of its event nodes. *)
Lemma converted_tx_hashes ord b t base filled o :
  _base_block_to_action ord b t = (Ok base, []) ->
  fill_by_class b t base = (Ok filled, o) ->
  tx_hashes filled = list_of_set ord (map get_tx_hash (event_nodes b)).
Proof.
  intros Hbase Hfill.
  apply base_Ok_inv in Hbase. destruct Hbase as (_ & id & _ & ->).
  apply fill_by_class_keeps in Hfill. destruct Hfill as (-> & _).
  reflexivity.
Qed.

(** ** Properties of the assembled action *)

(** C4.  The accounts of a returned action contain no null entry and no
    entry twice. *)
Theorem accounts_no_null_no_duplicate ord b t a out :
  block_to_action ord b t = (Ok a, out) ->
  NoDup (accounts a) /\ ~ In None (accounts a).
Proof.
  intros H. apply block_to_action_Ok_inv in H.
  destruct H as (base & filled & o2 & o3 & _ & _ & -> & _).
  rewrite assembled_accounts. split.
  - apply list_of_set_NoDup.
  - intros Hin. apply list_of_set_In in Hin. apply filter_In in Hin.
    destruct Hin as [_ Hin]. discriminate.
Qed.

Lemma accounts_no_null_no_duplicate_witness :
  exists a out,
    block_to_action insertion_order ton_transfer_block "T" = (Ok a, out)
    /\ accounts a = [Some "0:AAA"; Some "0:BBB"; Some "0:SRC"; Some "0:DST"]
    /\ NoDup (accounts a) /\ ~ In None (accounts a).
Proof.
  destruct (block_to_action insertion_order ton_transfer_block "T")
    as [[a | e] out] eqn:E; [| vm_compute in E; discriminate].
  exists a, out. split; [reflexivity |].
  split; [vm_compute in E; injection E as <- _; reflexivity |].
  exact (accounts_no_null_no_duplicate insertion_order ton_transfer_block "T" a out E).
Defined.

(** C5.  Every hash of [tx_hashes] of a returned action is in its
    [extended_tx_hashes], with or without an initiating event node. *)
Theorem tx_hashes_in_extended ord b t a out :
  block_to_action ord b t = (Ok a, out) ->
  exists ext,
    extended_tx_hashes a = Some ext
    /\ incl (tx_hashes a) ext
    /\ (initiating_event_node b = None -> incl ext (tx_hashes a)).
Proof.
  intros H. apply block_to_action_Ok_inv in H.
  destruct H as (base & filled & o2 & o3 & _ & _ & -> & _).
  rewrite assembled_extended, assembled_tx_hashes.
  eexists. split; [reflexivity |]. split.
  - intros h Hh. apply list_of_set_In. apply in_or_app. left. exact Hh.
  - intros Hnone h Hh. apply list_of_set_In in Hh.
    unfold initiating_hash in Hh. rewrite Hnone, app_nil_r in Hh. exact Hh.
Qed.

Lemma tx_hashes_in_extended_witness :
  exists a out ext,
    block_to_action insertion_order ton_transfer_block "T" = (Ok a, out)
    /\ tx_hashes a = [Some "h1"; Some "h2"; None]
    /\ extended_tx_hashes a = Some ext
    /\ incl (tx_hashes a) ext.
Proof.
  destruct (block_to_action insertion_order ton_transfer_block "T")
    as [[a | e] out] eqn:E; [| vm_compute in E; discriminate].
  destruct (tx_hashes_in_extended insertion_order ton_transfer_block "T" a out E)
    as (ext & Hext & Hincl & _).
  exists a, out, ext. split; [reflexivity |].
  split; [vm_compute in E; injection E as <- _; reflexivity |].
  split; assumption.
Defined.

(** C10.  When the initiating event node of a block has no transaction hash,
    the empty string stands for it in [extended_tx_hashes]; [tx_hashes] holds
    the hashes of the event nodes as [get_tx_hash] returns them, so a node
    without a hash contributes null there, and null is in
    [extended_tx_hashes] only for such a node.  Blocks with well-formed nodes
    and a complete payload are converted. *)
Theorem unavailable_initiating_hash ord b t n :
  initiating_event_node b = Some n ->
  get_tx_hash n = None ->
  (nodes_ok b = true -> payload_complete (data b) = true ->
   exists a out, block_to_action ord b t = (Ok a, out))
  /\ (forall a out,
        block_to_action ord b t = (Ok a, out) ->
        exists ext,
          extended_tx_hashes a = Some ext
          /\ In (Some "") ext
          /\ (forall h,
                In h (tx_hashes a)
                <-> exists m, In m (event_nodes b) /\ get_tx_hash m = h)
          /\ (In None ext
              <-> exists m, In m (event_nodes b) /\ get_tx_hash m = None)).
Proof.
  intros Hinit Hhash. split.
  - intros Hn Hp.
    destruct (block_to_action_total ord b t Hn Hp) as (id & filled & o2 & o3 & _ & _ & H).
    eauto.
  - intros a out H. apply block_to_action_Ok_inv in H.
    destruct H as (base & filled & o2 & o3 & Hbase & Hfill & -> & _).
    pose proof (converted_tx_hashes _ _ _ _ _ _ Hbase Hfill) as Htx.
    rewrite assembled_extended, assembled_tx_hashes.
    unfold initiating_hash. rewrite Hinit, Hhash. cbn [or_empty].
    assert (Hnodes : forall h,
               In h (tx_hashes filled)
               <-> exists m, In m (event_nodes b) /\ get_tx_hash m = h).
    { intros h. rewrite Htx, list_of_set_In, in_map_iff.
      split; intros (m & H1 & H2); exists m; auto. }
    eexists. split; [reflexivity |]. split; [| split].
    + apply list_of_set_In. apply in_or_app. right. left. reflexivity.
    + exact Hnodes.
    + rewrite list_of_set_In, <- Hnodes. split.
      * intros Hin. apply in_app_or in Hin.
        destruct Hin as [Hin | [Hin | []]]; [exact Hin | discriminate].
      * intros Hin. apply in_or_app. left. exact Hin.
Qed.

Lemma unavailable_initiating_hash_witness :
  exists a out,
    block_to_action insertion_order ton_transfer_block "T" = (Ok a, out)
    /\ tx_hashes a = [Some "h1"; Some "h2"; None]
    /\ extended_tx_hashes a = Some [Some "h1"; Some "h2"; None; Some ""].
Proof.
  destruct (unavailable_initiating_hash insertion_order ton_transfer_block "T"
              node_3 eq_refl eq_refl) as [Hrun _].
  destruct (Hrun eq_refl eq_refl) as (a & out & E).
  exists a, out. split; [exact E |].
  vm_compute in E. injection E as <- _. split; reflexivity.
Defined.

(** C7.  A withdrawal from a nominator pool: without a payout amount the
    action is a [stake_withdrawal_request]; with one it is a
    [stake_withdrawal] whose amount is the payout; in both cases
    [staking_data] names the provider.  Such a block is converted as soon as
    its nodes are well formed. *)
Theorem nominator_withdrawal_type ord b t d :
  data b = NominatorPoolWithdrawRequestBlock d ->
  (nodes_ok b = true -> exists a out, block_to_action ord b t = (Ok a, out))
  /\ (forall a out,
        block_to_action ord b t = (Ok a, out) ->
        (NominatorPoolWithdrawRequest.payout_amount d = None ->
         type a = "stake_withdrawal_request")
        /\ (forall payout,
              NominatorPoolWithdrawRequest.payout_amount d = Some payout ->
              type a = "stake_withdrawal"
              /\ amount a = PyInt (Amount.value payout))
        /\ staking_data a = Some [("provider", PyStr "nominator")]).
Proof.
  intros Hd. split.
  - intros Hn.
    assert (Hp : payload_complete (data b) = true) by (rewrite Hd; reflexivity).
    destruct (block_to_action_total ord b t Hn Hp) as (id & filled & o2 & o3 & _ & _ & H).
    eauto.
  - intros a out H. apply block_to_action_Ok_inv in H.
    destruct H as (base & filled & o2 & o3 & _ & Hfill & -> & _).
    unfold fill_by_class in Hfill. rewrite Hd in Hfill.
    unfold ret in Hfill. injection Hfill as <- _.
    unfold _fill_nominator_pool_withdraw_request_action.
    destruct (NominatorPoolWithdrawRequest.payout_amount d) as [p |];
      (split; [| split]); try reflexivity; try discriminate.
    intros payout Hp. injection Hp as <-. split; reflexivity.
Qed.

Lemma nominator_withdrawal_type_witness :
  (exists a out,
      block_to_action insertion_order withdraw_request_block "T" = (Ok a, out)
      /\ type a = "stake_withdrawal_request")
  /\ (exists a out,
         block_to_action insertion_order withdraw_block "T" = (Ok a, out)
         /\ type a = "stake_withdrawal" /\ amount a = PyInt 7).
Proof.
  split.
  - destruct (nominator_withdrawal_type insertion_order withdraw_request_block "T"
                _ eq_refl) as [Hrun Hok].
    destruct (Hrun eq_refl) as (a & out & E).
    exists a, out. split; [exact E |].
    exact (proj1 (Hok a out E) eq_refl).
  - destruct (nominator_withdrawal_type insertion_order withdraw_block "T"
                _ eq_refl) as [Hrun Hok].
    destruct (Hrun eq_refl) as (a & out & E).
    exists a, out. split; [exact E |].
    exact (proj1 (proj2 (Hok a out E)) _ eq_refl).
Defined.

(** ** Blocks of an unknown class *)

(** Blocks of an unknown class on which the conversion raises: without
    event nodes, [min] raises before any warning is logged; so does the
    account of a node that is not tick-tock and has no message; for such an
    initiating node the exception comes after the warning. *)
Lemma unknown_block_without_nodes_raises :
  data unknown_block_without_nodes = OtherBlock
  /\ block_to_action insertion_order unknown_block_without_nodes "T"
     = (Raise ValueError, [])
  /\ block_to_action insertion_order unknown_block_with_bare_node "T"
     = (Raise AttributeError, [])
  /\ block_to_action insertion_order unknown_block_with_bare_initiator "T"
     = (Raise AttributeError,
        [mkDiag LogWarning "Unknown block type mystery for trace T"]).
Proof. repeat split; vm_compute; reflexivity. Qed.

(** C6, amended.  A block of an unknown class that has event nodes, each with
    its account holder (and so the initiating node, if any), is converted
    without an exception: a warning with the type tag and the trace id is
    logged, the attributes of the base converter and [extended_tx_hashes] are
    set, the accounts are those of the nodes and of the initiating node, and
    no other attribute is assigned. *)
Theorem unknown_block_base_only ord b t :
  data b = OtherBlock ->
  nodes_ok b = true ->
  exists a id out,
    block_to_action ord b t = (Ok a, out)
    /\ In (mkDiag LogWarning
             (String.concat ""
                ["Unknown block type "; btype b; " for trace "; t])) out
    /\ only_base_fields a
    /\ _calc_action_id b = (Ok id, [])
    /\ trace_id a = t /\ type a = btype b /\ action_id a = id
    /\ start_lt a = min_lt b /\ end_lt a = max_lt b
    /\ start_utime a = min_utime b /\ end_utime a = max_utime b
    /\ success a = PyBool (negb (failed b))
    /\ tx_hashes a = list_of_set ord (map get_tx_hash (event_nodes b))
    /\ extended_tx_hashes a
       = Some (list_of_set ord (tx_hashes a ++ initiating_hash b))
    /\ (forall x,
          In x (accounts a)
          <-> x <> None
              /\ (In x (map account_of_node (event_nodes b))
                  \/ In x (initiating_account b))).
Proof.
  intros Hd Hn.
  assert (Hp : payload_complete (data b) = true) by (rewrite Hd; reflexivity).
  destruct (block_to_action_total ord b t Hn Hp)
    as (id & filled & o2 & o3 & Hid & Hfill & H).
  unfold fill_by_class in Hfill. rewrite Hd in Hfill. cbn in Hfill.
  injection Hfill as <- <-.
  eexists _, id, _.
  split; [exact H |].
  split; [left; reflexivity |].
  split; [unfold only_base_fields; cbn; repeat split; reflexivity |].
  split; [exact Hid |].
  do 10 (split; [reflexivity |]).
  intros x. rewrite assembled_accounts, list_of_set_In, filter_In.
  cbn [accounts base_action set_accounts source source_secondary destination
       destination_secondary new_Action].
  rewrite !in_app_iff. cbn [In].
  split.
  - intros [Hin Hx]. split; [destruct x; [discriminate | discriminate Hx] |].
    destruct Hin as [[[[[Hin | [<- | []]] | [<- | []]] | [<- | []]] | [<- | []]] | Hin];
      try discriminate Hx; auto.
  - intros [Hx Hin]. split; [| destruct x; [reflexivity | congruence]].
    destruct Hin as [Hin | Hin]; auto 10.
Qed.

Lemma unknown_block_base_only_witness :
  exists a id out,
    block_to_action insertion_order unknown_block "T" = (Ok a, out)
    /\ In (mkDiag LogWarning "Unknown block type mystery for trace T") out
    /\ only_base_fields a
    /\ _calc_action_id unknown_block = (Ok id, []).
Proof.
  destruct (unknown_block_base_only insertion_order unknown_block "T"
              eq_refl eq_refl)
    as (a & id & out & H1 & H2 & H3 & H4 & _).
  exists a, id, out. auto.
Defined.

(** ** Exceptions *)




(** ** Comments of transfers *)

Ltac unfold_M_in H :=
  unfold bind, ret, raise, deref, item, emit, first, Utf8.decode in H.

Lemma replace_nul_spec s :
  list_ascii_of_string (replace_nul s)
  = filter (fun c => negb (Ascii.eqb c Ascii.zero)) (list_ascii_of_string s).
Proof.
  induction s as [| c s IH]; simpl; [reflexivity |].
  destruct (Ascii.eqb c Ascii.zero); simpl; congruence.
Qed.

(** A native transfer flagged as encrypted keeps its comment as it is. *)
Lemma encrypted_ton_comment_not_encoded :
  exists a out,
    block_to_action insertion_order encrypted_ton_transfer "T" = (Ok a, out)
    /\ ton_transfer_data a
       = Some [("content", PyStr "hi"); ("encrypted", PyBool true)]
    /\ PyStr "hi" <> PyStr (Base64.b64encode (Utf8.encode "hi")).
Proof.
  eexists. eexists. split; [vm_compute; reflexivity |].
  split; [reflexivity |]. vm_compute. discriminate.
Qed.

(** C8, amended.  A jetton transfer with a comment: an encrypted comment is
    stored as the base64 encoding of its bytes, which are not decoded; a
    comment that is not encrypted is decoded as UTF-8 (the bytes are then
    valid UTF-8) and stored without its null characters.  A native transfer
    with a comment: the comment, a text already, is stored without its null
    characters whatever the [encrypted] flag says, and the flag is stored
    next to it.  Removing the null characters keeps the other characters in
    their order. *)
Theorem transfer_comment ord b t :
  (nodes_ok b = true -> payload_complete (data b) = true ->
   exists a out, block_to_action ord b t = (Ok a, out))
  /\ (forall d c a out,
        data b = JettonTransferBlock d ->
        JettonTransfer.comment d = Some c ->
        block_to_action ord b t = (Ok a, out) ->
        exists dict,
          jetton_transfer_data a = Some dict
          /\ (JettonTransfer.encrypted_comment d = true ->
              dict_get "comment" dict = Some (PyStr (Base64.b64encode c)))
          /\ (JettonTransfer.encrypted_comment d = false ->
              Utf8.valid c = true
              /\ dict_get "comment" dict
                 = Some (PyStr (replace_nul (string_of_list_byte c)))))
  /\ (forall d s a out,
        data b = TonTransferBlock d ->
        TonTransfer.comment d = Some s ->
        block_to_action ord b t = (Ok a, out) ->
        exists dict,
          ton_transfer_data a = Some dict
          /\ dict_get "content" dict = Some (PyStr (replace_nul s))
          /\ dict_get "encrypted" dict = Some (TonTransfer.encrypted d))
  /\ (forall s,
        list_ascii_of_string (replace_nul s)
        = filter (fun c => negb (Ascii.eqb c Ascii.zero)) (list_ascii_of_string s)).
Proof.
  split; [| split; [| split]].
  - intros Hn Hp.
    destruct (block_to_action_total ord b t Hn Hp) as (id & filled & o2 & o3 & _ & _ & H).
    eauto.
  - intros d c a out Hd Hc H. apply block_to_action_Ok_inv in H.
    destruct H as (base & filled & o2 & o3 & _ & Hfill & -> & _).
    unfold fill_by_class in Hfill. rewrite Hd in Hfill.
    unfold _fill_jetton_transfer_action in Hfill. rewrite Hc in Hfill.
    unfold_M_in Hfill.
    repeat (break_match_hyp Hfill; cbn in Hfill); try discriminate;
      injection Hfill as <- _; cbn;
      (eexists; split; [reflexivity |]);
      split; intros E; try discriminate E; cbn; auto.
  - intros d s a out Hd Hs H. apply block_to_action_Ok_inv in H.
    destruct H as (base & filled & o2 & o3 & _ & Hfill & -> & _).
    unfold fill_by_class in Hfill. rewrite Hd in Hfill.
    unfold _fill_ton_transfer_action in Hfill. rewrite Hs in Hfill.
    unfold_M_in Hfill.
    repeat (break_match_hyp Hfill; cbn in Hfill); try discriminate;
      injection Hfill as <- _; cbn;
      (eexists; split; [reflexivity |]); split; reflexivity.
  - exact replace_nul_spec.
Qed.

Lemma transfer_comment_witness :
  (exists a out,
      block_to_action insertion_order (jetton_transfer_with (Some [x01; x02]) true) "T"
      = (Ok a, out)
      /\ option_map (dict_get "comment") (jetton_transfer_data a)
         = Some (Some (PyStr "AQI=")))
  /\ (exists a out,
        block_to_action insertion_order
          (jetton_transfer_with (Some [x61; x00; x62]) false) "T"
        = (Ok a, out)
        /\ option_map (dict_get "comment") (jetton_transfer_data a)
           = Some (Some (PyStr "ab")))
  /\ (exists a out,
        block_to_action insertion_order ton_transfer_block "T" = (Ok a, out)
        /\ option_map (dict_get "content") (ton_transfer_data a)
           = Some (Some (PyStr "ab"))).
Proof.
  split; [| split].
  - pose (b := jetton_transfer_with (Some [x01; x02]) true).
    destruct (transfer_comment insertion_order b "T") as (Hrun & Hj & _).
    destruct (Hrun eq_refl eq_refl) as (a & out & E).
    exists a, out. split; [exact E |].
    destruct (Hj _ _ a out eq_refl eq_refl E) as (dict & -> & Henc & _).
    cbn. rewrite (Henc eq_refl). reflexivity.
  - pose (b := jetton_transfer_with (Some [x61; x00; x62]) false).
    destruct (transfer_comment insertion_order b "T") as (Hrun & Hj & _).
    destruct (Hrun eq_refl eq_refl) as (a & out & E).
    exists a, out. split; [exact E |].
    destruct (Hj _ _ a out eq_refl eq_refl E) as (dict & -> & _ & Hplain).
    cbn. rewrite (proj2 (Hplain eq_refl)). reflexivity.
  - destruct (transfer_comment insertion_order ton_transfer_block "T")
      as (Hrun & _ & Ht & _).
    destruct (Hrun eq_refl eq_refl) as (a & out & E).
    exists a, out. split; [exact E |].
    destruct (Ht _ _ a out eq_refl eq_refl E) as (dict & -> & Hc & _).
    cbn. rewrite Hc. reflexivity.
Defined.

(** ** Assets of a swap *)

(** A swap of another variant than [stonfi_v2] whose payload reports both
    assets: [asset] stays the asset of the incoming leg. *)
Lemma reported_source_asset_ignored :
  exists a out,
    block_to_action insertion_order (swap_block "dedust") "T" = (Ok a, out)
    /\ asset a = Some "0:IN"
    /\ asset a <> Some "0:X"
    /\ asset2 a = Some "0:Y".
Proof.
  eexists. eexists. split; [vm_compute; reflexivity |].
  repeat split; try reflexivity. discriminate.
Qed.

(** C9, amended.  In the action of a swap, [asset] is the asset of the
    incoming leg unless the swap is of the variant [stonfi_v2], where it is
    the [source_asset] of the payload; [asset2] is the [destination_asset] of
    the payload for that variant and, for any other, whenever the payload has
    one that is not null, and else the asset of the outgoing leg. *)
Theorem swap_assets ord b t d :
  data b = JettonSwapBlock d ->
  (nodes_ok b = true -> payload_complete (data b) = true ->
   exists a out, block_to_action ord b t = (Ok a, out))
  /\ (forall a out,
        block_to_action ord b t = (Ok a, out) ->
        (JettonSwap.dex d <> "stonfi_v2" ->
         asset a = _addr (JettonSwap.asset (JettonSwap.dex_incoming_transfer d))
         /\ (forall x,
               JettonSwap.destination_asset d = Some (Some x) ->
               asset2 a = _addr (Some x))
         /\ (JettonSwap.destination_asset d = None
             \/ JettonSwap.destination_asset d = Some None ->
             asset2 a
             = _addr (JettonSwap.asset (JettonSwap.dex_outgoing_transfer d))))
        /\ (JettonSwap.dex d = "stonfi_v2" ->
            exists sa da,
              JettonSwap.source_asset d = Some sa
              /\ JettonSwap.destination_asset d = Some da
              /\ asset a = _addr sa
              /\ asset2 a = _addr da)).
Proof.
  intros Hd. split.
  - intros Hn Hp.
    destruct (block_to_action_total ord b t Hn Hp) as (id & filled & o2 & o3 & _ & _ & H).
    eauto.
  - intros a out H. apply block_to_action_Ok_inv in H.
    destruct H as (base & filled & o2 & o3 & _ & Hfill & -> & _).
    unfold fill_by_class in Hfill. rewrite Hd in Hfill.
    unfold _fill_jetton_swap_action in Hfill. unfold_M_in Hfill.
    destruct (String.eqb (JettonSwap.dex d) "stonfi_v2") eqn:Edex.
    + apply String.eqb_eq in Edex.
      split; [intros Hne; congruence |]. intros _.
      destruct (JettonSwap.source_asset d) as [sa |]; [| discriminate].
      destruct (JettonSwap.destination_asset d) as [[x |] |];
        cbn in Hfill; try discriminate;
        destruct (JettonSwap.destination_wallet d) as [[w |] |];
        injection Hfill as <- _; eexists; eexists; repeat split; reflexivity.
    + apply String.eqb_neq in Edex.
      split; [intros _ | intros He; congruence].
      destruct (JettonSwap.destination_asset d) as [[x |] |];
        destruct (JettonSwap.destination_wallet d) as [[w |] |];
        injection Hfill as <- _; cbn;
        (split; [reflexivity |]);
        (split; [intros y Hy; try discriminate Hy; try (injection Hy as <-); reflexivity |]);
        intros [Hy | Hy]; try discriminate Hy; reflexivity.
Qed.

Lemma swap_assets_witness :
  (exists a out,
      block_to_action insertion_order (swap_block "stonfi_v2") "T" = (Ok a, out)
      /\ asset a = Some "0:X" /\ asset2 a = Some "0:Y")
  /\ (exists a out,
        block_to_action insertion_order (swap_block "dedust") "T" = (Ok a, out)
        /\ asset a = Some "0:IN" /\ asset2 a = Some "0:Y").
Proof.
  split.
  - destruct (swap_assets insertion_order (swap_block "stonfi_v2") "T" _ eq_refl)
      as [Hrun Hok].
    destruct (Hrun eq_refl eq_refl) as (a & out & E).
    exists a, out. split; [exact E |].
    destruct (proj2 (Hok a out E) eq_refl) as (sa & da & Hs & Hd & -> & ->).
    cbn in Hs, Hd. injection Hs as <-. injection Hd as <-. split; reflexivity.
  - destruct (swap_assets insertion_order (swap_block "dedust") "T" _ eq_refl)
      as [Hrun Hok].
    destruct (Hrun eq_refl eq_refl) as (a & out & E).
    exists a, out. split; [exact E |].
    assert (Hne : "dedust" <> "stonfi_v2") by discriminate.
    destruct (proj1 (Hok a out E) Hne) as (-> & H2 & _).
    split; [reflexivity |]. exact (H2 _ eq_refl).
Defined.

(** ** Two runs of the conversion *)

(** The base converter depends on the enumeration order through [tx_hashes]
    only. *)
Lemma base_orders ord ord' b t :
  _base_block_to_action ord b t
  = with_tx_hashes (list_of_set ord (map get_tx_hash (event_nodes b)))
      (_base_block_to_action ord' b t).
Proof.
  unfold _base_block_to_action.
  destruct (_calc_action_id b) as [[id | e] o]; [| reflexivity].
  cbn. destruct (node_accounts (event_nodes b)) as [[accs | e] o']; reflexivity.
Qed.

(** No normalizer reads [tx_hashes]. *)
Lemma fill_tx_hashes b t l a :
  fill_by_class b t (set_tx_hashes l a)
  = with_tx_hashes l (fill_by_class b t a).
Proof.
  unfold_fill. unfold with_tx_hashes.
  destruct (data b); unfold_M; cbn;
    repeat (break_match_goal; cbn); reflexivity.
Qed.

Lemma set_tx_hashes_same a : set_tx_hashes (tx_hashes a) a = a.
Proof. destruct a. reflexivity. Qed.

Lemma enumerations_permuted ord ord' xs ys :
  (forall x, In x xs <-> In x ys) ->
  Permutation (list_of_set ord xs) (list_of_set ord' ys).
Proof.
  intros H. apply NoDup_Permutation; try apply list_of_set_NoDup.
  intros x. rewrite !list_of_set_In. apply H.
Qed.

Lemma assembled_up_to_order ord ord' b filled l :
  (forall x, In x l <-> In x (tx_hashes filled)) ->
  Permutation l (tx_hashes filled) ->
  same_up_to_order (assembled ord b (set_tx_hashes l filled))
    (assembled ord' b filled).
Proof.
  intros Hin Hperm. unfold same_up_to_order.
  split; [reflexivity |]. split; [exact Hperm |]. split.
  - rewrite !assembled_extended. cbn.
    apply enumerations_permuted. intros x. rewrite !in_app_iff, Hin. tauto.
  - rewrite !assembled_accounts. apply enumerations_permuted. tauto.
Qed.

(** The same block under two enumeration orders: the lists differ. *)
Lemma enumeration_order_changes_action :
  exists a a' out out',
    block_to_action insertion_order unknown_block "T" = (Ok a, out)
    /\ block_to_action reverse_order unknown_block "T" = (Ok a', out')
    /\ tx_hashes a = [Some "h1"; Some "h2"]
    /\ tx_hashes a' = [Some "h2"; Some "h1"]
    /\ block_to_action insertion_order unknown_block "T"
       <> block_to_action reverse_order unknown_block "T".
Proof.
  do 4 eexists.
  split; [vm_compute; reflexivity |].
  split; [vm_compute; reflexivity |].
  split; [reflexivity |]. split; [reflexivity |].
  vm_compute. discriminate.
Qed.

(** C2, amended.  Two runs of the conversion on the same block and trace id
    log the same diagnostics and either raise the same exception or return
    actions with the same identity and the same attributes, except that
    [tx_hashes], [extended_tx_hashes] and [accounts] hold the same elements
    in an order that is the enumeration order of the run; two runs with the
    same enumeration order return the same action. *)
Theorem conversion_deterministic_up_to_order ord ord' b t :
  same_run_up_to_order (block_to_action ord b t) (block_to_action ord' b t)
  /\ (forall a a' out out',
        block_to_action ord b t = (Ok a, out) ->
        block_to_action ord' b t = (Ok a', out') ->
        action_id a = action_id a')
  /\ ((forall xs, list_of_set ord xs = list_of_set ord' xs) ->
      block_to_action ord b t = block_to_action ord' b t).
Proof.
  assert (Hrun :
    same_run_up_to_order (block_to_action ord b t) (block_to_action ord' b t)
    /\ ((forall xs, list_of_set ord xs = list_of_set ord' xs) ->
        block_to_action ord b t = block_to_action ord' b t)).
  { pose proof (base_orders ord ord' b t) as Hbase.
    destruct (_base_block_to_action ord' b t) as [[base | e] o] eqn:Hbase'.
    - destruct (base_Ok_inv _ _ _ _ _ Hbase') as [-> _].
      cbn in Hbase.
      pose proof (fill_tx_hashes b t
                    (list_of_set ord (map get_tx_hash (event_nodes b))) base)
        as Hfill.
      destruct (fill_by_class b t base) as [[filled | e] o2] eqn:Hfill'.
      + cbn in Hfill.
        rewrite (block_to_action_filled _ _ _ _ _ _ Hbase Hfill).
        rewrite (block_to_action_filled _ _ _ _ _ _ Hbase' Hfill').
        pose proof (converted_tx_hashes _ _ _ _ _ _ Hbase' Hfill') as Htx.
        destruct (initiating_ok b).
        * split.
          -- split; [reflexivity |]. cbn.
             apply assembled_up_to_order.
             ++ intros x. rewrite Htx, !list_of_set_In. tauto.
             ++ rewrite Htx. apply enumerations_permuted. tauto.
          -- intros Hsame. rewrite Hsame, <- Htx, set_tx_hashes_same.
             unfold assembled. rewrite !Hsame. reflexivity.
        * split; [split; reflexivity | reflexivity].
      + unfold block_to_action. rewrite Hbase, Hbase'. cbn.
        rewrite Hfill, Hfill'. cbn.
        split; [split; reflexivity | reflexivity].
    - unfold block_to_action. rewrite Hbase, Hbase'. cbn.
      split; [split; reflexivity | reflexivity]. }
  destruct Hrun as [Hrun Hsame]. split; [exact Hrun |]. split; [| exact Hsame].
  intros a a' out out' E E'. unfold same_run_up_to_order in Hrun.
  rewrite E, E' in Hrun. cbn in Hrun. destruct Hrun as (_ & Hw & _).
  apply (f_equal action_id) in Hw. exact Hw.
Qed.

Lemma conversion_deterministic_up_to_order_witness :
  exists a a' out out',
    block_to_action insertion_order unknown_block "T" = (Ok a, out)
    /\ block_to_action reverse_order unknown_block "T" = (Ok a', out')
    /\ action_id a = action_id a'
    /\ same_up_to_order a a'
    /\ block_to_action insertion_order unknown_block "T"
       = block_to_action insertion_order unknown_block "T".
Proof.
  destruct (conversion_deterministic_up_to_order insertion_order reverse_order
              unknown_block "T") as (Hrun & Hid & _).
  destruct (conversion_deterministic_up_to_order insertion_order insertion_order
              unknown_block "T") as (_ & _ & Hsame).
  destruct (block_to_action insertion_order unknown_block "T")
    as [[a | e] out] eqn:E; [| vm_compute in E; discriminate].
  destruct (block_to_action reverse_order unknown_block "T")
    as [[a' | e'] out'] eqn:E'; [| vm_compute in E'; discriminate].
  exists a, a', out, out'.
  split; [reflexivity |]. split; [reflexivity |].
  split; [exact (Hid a a' out out' eq_refl eq_refl) |].
  split; [exact (proj2 Hrun) |].
  exact (Hsame (fun xs => eq_refl)).
Defined.

(** * Further properties of the serializer *)

(** ** The stages of the conversion *)

Lemma fill_by_class_needs b t a a' out :
  fill_by_class b t a = (Ok a', out) -> payload_complete (data b) = true.
Proof.
  unfold_fill. unfold payload_complete, dns_value_complete.
  destruct (data b); unfold_M; intros H; try reflexivity;
    repeat (break_match_hyp H; cbn in H); try discriminate H; reflexivity.
Qed.

Lemma node_accounts_holders nodes :
  forall accs out,
    node_accounts nodes = (Ok accs, out) ->
    forallb has_account_holder nodes = true.
Proof.
  induction nodes as [| n rest IH]; intros accs out H; [reflexivity |].
  simpl in H.
  apply bind_Ok in H. destruct H as (acc & o1 & o2 & Hn & H & ->).
  apply bind_Ok in H. destruct H as (accs' & o3 & o4 & Hrest & _ & _).
  simpl. rewrite (IH _ _ Hrest), andb_true_r.
  unfold node_account in Hn. unfold has_account_holder.
  destruct (is_tick_tock n);
    [destruct (tick_tock_tx n) | destruct (message n)];
    try reflexivity; discriminate Hn.
Qed.

Lemma node_accounts_raise nodes e out :
  node_accounts nodes = (Raise e, out) -> e = AttributeError /\ out = [].
Proof.
  induction nodes as [| n rest IH]; simpl; [discriminate |].
  unfold node_account.
  destruct (is_tick_tock n);
    [destruct (tick_tock_tx n) | destruct (message n)]; cbn;
    try (intros H; inversion H; auto; fail);
    destruct (node_accounts rest) as [[accs | e'] o] eqn:E; cbn;
    intros H; inversion H; subst;
    destruct (IH eq_refl) as [-> ->]; auto.
Qed.

(** The base converter raises [ValueError] on a block without event nodes
    and [AttributeError] on a node without its account holder, and logs
    nothing. *)
Lemma base_raise ord b t e out :
  _base_block_to_action ord b t = (Raise e, out) ->
  out = []
  /\ ((e = ValueError /\ event_nodes b = [])
      \/ (e = AttributeError /\ event_nodes b <> []
          /\ forallb has_account_holder (event_nodes b) = false)).
Proof.
  unfold _base_block_to_action, _calc_action_id.
  destruct (event_nodes b) as [| x rest] eqn:E.
  - cbn. intros H. inversion H. auto.
  - unfold py_min. cbv beta iota delta [bind ret].
    destruct (node_accounts (x :: rest)) as [[accs | e'] o] eqn:Hacc.
    + discriminate.
    + intros H. inversion H; subst.
      destruct (node_accounts_raise _ _ _ Hacc) as [-> ->].
      split; [reflexivity |]. right. split; [reflexivity |].
      split; [discriminate |].
      destruct (forallb has_account_holder (x :: rest)) eqn:Hall; [| reflexivity].
      rewrite (node_accounts_Ok _ Hall) in Hacc. discriminate.
Qed.

(** The conversion as its three stages. *)
Lemma block_to_action_stages ord b t :
  block_to_action ord b t
  = match _base_block_to_action ord b t with
    | (Raise e, o) => (Raise e, o)
    | (Ok base, _) =>
        match fill_by_class b t base with
        | (Raise e, o2) => (Raise e, o2)
        | (Ok filled, o2) =>
            if initiating_ok b
            then (Ok (assembled ord b filled), o2 ++ initiating_info b t filled)
            else (Raise AttributeError, o2)
        end
    end.
Proof.
  destruct (_base_block_to_action ord b t) as [[base | e] o] eqn:Hbase.
  - destruct (base_Ok_inv _ _ _ _ _ Hbase) as [-> _].
    destruct (fill_by_class b t base) as [[filled | e] o2] eqn:Hfill.
    + apply (block_to_action_filled _ _ _ _ _ _ Hbase Hfill).
    + unfold block_to_action. rewrite Hbase. cbn. rewrite Hfill. reflexivity.
  - unfold block_to_action. rewrite Hbase. reflexivity.
Qed.

(** X1.  The conversion returns an action only for a block that has event
    nodes, each with its account holder (and so the initiating node, if
    any), and whose payload has what the normalizer uses outside any test: a
    native transfer its destination; a jetton transfer the jetton address of
    an asset that is not native and, for a comment that is not encrypted,
    bytes that are valid UTF-8; a jetton burn the jetton address of its
    asset; a [stonfi_v2] swap the keys [source_asset] and
    [destination_asset]; a DNS change the keys its schema reads, with an
    account as address for [DNSNextResolver] and [DNSSmcAddress] and bytes
    for [DNSAdnlAddress]. *)
Theorem block_to_action_returns_only_if ord b t a out :
  block_to_action ord b t = (Ok a, out) ->
  nodes_ok b = true /\ payload_complete (data b) = true.
Proof.
  intros H. rewrite block_to_action_stages in H.
  destruct (_base_block_to_action ord b t) as [[base | e] o] eqn:Hbase;
    [| discriminate].
  destruct (fill_by_class b t base) as [[filled | e] o2] eqn:Hfill;
    [| discriminate].
  destruct (initiating_ok b) eqn:Hinit; [| discriminate].
  split; [| eapply fill_by_class_needs; eassumption].
  unfold nodes_ok. rewrite Hinit, andb_true_r.
  unfold _base_block_to_action in Hbase.
  apply bind_Ok in Hbase. destruct Hbase as (id & o1 & o1' & Hid & Hbase & _).
  apply bind_Ok in Hbase. destruct Hbase as (accs & o3 & o4 & Hacc & _ & _).
  rewrite (node_accounts_holders _ _ _ Hacc), andb_true_r.
  unfold _calc_action_id in Hid.
  destruct (event_nodes b); [discriminate | reflexivity].
Qed.

Lemma block_to_action_returns_only_if_witness :
  nodes_ok ton_transfer_block = true
  /\ payload_complete (data ton_transfer_block) = true.
Proof.
  destruct (block_to_action insertion_order ton_transfer_block "T")
    as [[a | e] out] eqn:E; [| vm_compute in E; discriminate].
  exact (block_to_action_returns_only_if insertion_order ton_transfer_block "T"
           a out E).
Defined.

(** ** Exceptions *)

(** What a normalizer can raise. *)
Lemma fill_by_class_raise b t a e out :
  fill_by_class b t a = (Raise e, out) ->
  e <> ValueError
  /\ (e = IndexError -> event_nodes b = [])
  /\ (e = UnicodeDecodeError ->
      exists d c,
        data b = JettonTransferBlock d
        /\ JettonTransfer.comment d = Some c
        /\ JettonTransfer.encrypted_comment d = false
        /\ Utf8.valid c = false).
Proof.
  unfold_fill.
  destruct (data b) eqn:Hd; unfold_M; intros H;
    repeat (break_match_hyp H; cbn in H); inversion H; subst;
    (split; [discriminate |]);
    (split; [intros; try discriminate; reflexivity |]);
    intros; try discriminate; eauto 8.
Qed.

(** X2.  The exception of a failed conversion is the [ValueError] of [min]
    exactly when the block has no event nodes, and nothing is logged before
    it; it is never [IndexError]; it is [UnicodeDecodeError] only for a jetton
    transfer whose comment is not encrypted and not valid UTF-8.  So what a
    handler for [ValueError] catches, [UnicodeDecodeError] being one, is a
    block without event nodes or such a jetton transfer. *)
Theorem block_to_action_exceptions ord b t e out :
  block_to_action ord b t = (Raise e, out) ->
  (e = ValueError <-> event_nodes b = [])
  /\ (event_nodes b = [] -> out = [])
  /\ e <> IndexError
  /\ (e = UnicodeDecodeError ->
      exists d c,
        data b = JettonTransferBlock d
        /\ JettonTransfer.comment d = Some c
        /\ JettonTransfer.encrypted_comment d = false
        /\ Utf8.valid c = false)
  /\ (is_ValueError e = true ->
      event_nodes b = []
      \/ exists d c,
           data b = JettonTransferBlock d
           /\ JettonTransfer.comment d = Some c
           /\ JettonTransfer.encrypted_comment d = false
           /\ Utf8.valid c = false).
Proof.
  intros H.
  assert (Hmain :
    (e = ValueError <-> event_nodes b = [])
    /\ (event_nodes b = [] -> out = [])
    /\ e <> IndexError
    /\ (e = UnicodeDecodeError ->
        exists d c,
          data b = JettonTransferBlock d
          /\ JettonTransfer.comment d = Some c
          /\ JettonTransfer.encrypted_comment d = false
          /\ Utf8.valid c = false)).
  { rewrite block_to_action_stages in H.
    destruct (_base_block_to_action ord b t) as [[base | e0] o] eqn:Hbase.
    - assert (Hne : event_nodes b <> []).
      { unfold _base_block_to_action in Hbase.
        apply bind_Ok in Hbase. destruct Hbase as (id & o1 & o1' & Hid & _).
        unfold _calc_action_id in Hid.
        destruct (event_nodes b); [discriminate | discriminate]. }
      destruct (fill_by_class b t base) as [[filled | e1] o2] eqn:Hfill.
      + destruct (initiating_ok b); inversion H; subst.
        repeat split; intros; try discriminate; try contradiction.
      + inversion H; subst.
        destruct (fill_by_class_raise _ _ _ _ _ Hfill) as (Hv & Hi & Hu).
        split; [split; [intros; contradiction | intros; contradiction] |].
        split; [intros; contradiction |].
        split; [intros ->; apply Hne, Hi; reflexivity | exact Hu].
    - inversion H; subst.
      destruct (base_raise _ _ _ _ _ Hbase)
        as (-> & [[-> Hnil] | (-> & Hne & _)]).
      + repeat split; intros; try discriminate; auto.
      + repeat split; intros; try discriminate; try contradiction. }
  destruct Hmain as (Hv & Ho & Hi & Hu).
  repeat (split; [assumption |]).
  intros Hc. destruct e; try discriminate Hc.
  - left. apply Hv. reflexivity.
  - right. apply Hu. reflexivity.
Qed.

Lemma block_to_action_exceptions_witness :
  exists d c,
    data (jetton_transfer_with (Some [xff]) false) = JettonTransferBlock d
    /\ JettonTransfer.comment d = Some c
    /\ JettonTransfer.encrypted_comment d = false
    /\ Utf8.valid c = false.
Proof.
  assert (E : block_to_action insertion_order
                (jetton_transfer_with (Some [xff]) false) "T"
              = (Raise UnicodeDecodeError, [])) by (vm_compute; reflexivity).
  destruct (block_to_action_exceptions _ _ _ _ _ E) as (_ & _ & _ & _ & Hc).
  destruct (Hc eq_refl) as [Hnil | Hj]; [discriminate Hnil | exact Hj].
Defined.

(** ** Diagnostics *)

Lemma py_in_In x xs : py_in x xs = true <-> In x xs.
Proof.
  unfold py_in. rewrite existsb_exists. split.
  - intros (y & Hy & E). destruct x as [s |], y as [u |]; simpl in E;
      try discriminate; [apply String.eqb_eq in E; subst |]; exact Hy.
  - intros H. exists x. split; [exact H |].
    destruct x as [s |]; simpl; [apply String.eqb_refl | reflexivity].
Qed.

(** What a normalizer logs or prints. *)
Lemma fill_by_class_diagnostics b t a r out :
  fill_by_class b t a = (r, out) ->
  out = []
  \/ (data b = OtherBlock /\ r = Ok a
      /\ out = [mkDiag LogWarning
                  (String.concat ""
                     ["Unknown block type "; btype b; " for trace "; t])])
  \/ (exists d n rest m,
         data b = TonTransferBlock d
         /\ TonTransfer.destination d = None
         /\ event_nodes b = n :: rest
         /\ message n = Some m
         /\ r = Raise AttributeError
         /\ out = [mkDiag Stdout
                     (String.append "Something very wrong " (Message.trace_id m))]).
Proof.
  unfold_fill.
  destruct (data b) eqn:Hd; unfold_M; intros H;
    repeat (break_match_hyp H; cbn in H); inversion H; subst; auto.
  right. right. do 4 eexists. repeat split; try reflexivity; eassumption.
Qed.

(** X3.  A warning is logged only for a block of an unknown class, and it is
    the line naming the type tag and the trace id: no class that the
    [match] statement names takes the fallback arm. *)
Theorem warning_only_for_unknown_class ord b t r out x :
  block_to_action ord b t = (r, out) ->
  In x out ->
  chan x = LogWarning ->
  data b = OtherBlock
  /\ text x = String.concat "" ["Unknown block type "; btype b; " for trace "; t].
Proof.
  intros H Hin Hx. rewrite block_to_action_stages in H.
  destruct (_base_block_to_action ord b t) as [[base | e0] o] eqn:Hbase.
  - destruct (fill_by_class b t base) as [[filled | e1] o2] eqn:Hfill.
    + assert (Hout : In x (o2 ++ initiating_info b t filled)).
      { destruct (initiating_ok b) eqn:Hi; inversion H; subst; [exact Hin |].
        apply in_or_app. left. exact Hin. }
      apply in_app_or in Hout. destruct Hout as [Hout | Hout].
      * destruct (fill_by_class_diagnostics _ _ _ _ _ Hfill)
          as [-> | [(Hd & _ & ->) | (d & n & rest & m & _ & _ & _ & _ & E & _)]];
          [destruct Hout | | discriminate E].
        destruct Hout as [<- | []]. auto.
      * unfold initiating_info in Hout.
        repeat (break_match_hyp Hout; try destruct Hout as [<- | []]);
          try destruct Hout; discriminate Hx.
    + inversion H; subst.
      destruct (fill_by_class_diagnostics _ _ _ _ _ Hfill)
        as [-> | [(_ & E & _) | (d & n & rest & m & _ & _ & _ & _ & _ & ->)]];
        [destruct Hin | discriminate E |].
      destruct Hin as [<- | []]. discriminate Hx.
  - inversion H; subst.
    destruct (base_raise _ _ _ _ _ Hbase) as [-> _]. destruct Hin.
Qed.

Lemma warning_only_for_unknown_class_witness :
  data unknown_block = OtherBlock
  /\ "Unknown block type mystery for trace T"
     = String.concat "" ["Unknown block type "; btype unknown_block; " for trace "; "T"].
Proof.
  destruct (block_to_action insertion_order unknown_block "T") as [r out] eqn:E.
  apply (warning_only_for_unknown_class insertion_order unknown_block "T" r out
           (mkDiag LogWarning "Unknown block type mystery for trace T") E).
  - vm_compute in E. injection E as _ <-. left. reflexivity.
  - reflexivity.
Defined.

(** X4.  A line is printed only by the normalizer of native transfers, for a
    destination that is null, and the conversion then raises
    [AttributeError]: a returned action comes without printed output. *)
Theorem print_only_before_failure ord b t r out x :
  block_to_action ord b t = (r, out) ->
  In x out ->
  chan x = Stdout ->
  r = Raise AttributeError
  /\ exists d,
       data b = TonTransferBlock d /\ TonTransfer.destination d = None.
Proof.
  intros H Hin Hx. rewrite block_to_action_stages in H.
  destruct (_base_block_to_action ord b t) as [[base | e0] o] eqn:Hbase.
  - destruct (fill_by_class b t base) as [[filled | e1] o2] eqn:Hfill.
    + assert (Hout : In x (o2 ++ initiating_info b t filled)).
      { destruct (initiating_ok b) eqn:Hi; inversion H; subst; [exact Hin |].
        apply in_or_app. left. exact Hin. }
      apply in_app_or in Hout. destruct Hout as [Hout | Hout].
      * destruct (fill_by_class_diagnostics _ _ _ _ _ Hfill)
          as [-> | [(Hd & _ & ->) | (d & n & rest & m & _ & _ & _ & _ & E & _)]];
          [destruct Hout | | discriminate E].
        destruct Hout as [<- | []]. discriminate Hx.
      * unfold initiating_info in Hout.
        repeat (break_match_hyp Hout; try destruct Hout as [<- | []]);
          try destruct Hout; discriminate Hx.
    + inversion H; subst.
      destruct (fill_by_class_diagnostics _ _ _ _ _ Hfill)
        as [-> | [(_ & E & _) | (d & n & rest & m & Hd & Hdest & _ & _ & -> & ->)]];
        [destruct Hin | discriminate E |].
      split; [reflexivity |]. eauto.
  - inversion H; subst.
    destruct (base_raise _ _ _ _ _ Hbase) as [-> _]. destruct Hin.
Qed.

Lemma print_only_before_failure_witness :
  fst (block_to_action insertion_order ton_transfer_without_destination "T")
  = Raise AttributeError.
Proof.
  destruct (block_to_action insertion_order ton_transfer_without_destination "T")
    as [r out] eqn:E.
  apply (print_only_before_failure insertion_order
           ton_transfer_without_destination "T" r out
           (mkDiag Stdout "Something very wrong T") E).
  - vm_compute in E. injection E as _ <-. left. reflexivity.
  - reflexivity.
Defined.

(** ** The returned action *)

(** A returned action, taken apart. *)
Lemma converted_inv ord b t a out :
  block_to_action ord b t = (Ok a, out) ->
  exists id filled o2,
    _calc_action_id b = (Ok id, [])
    /\ fill_by_class b t (base_action ord b t id) = (Ok filled, o2)
    /\ a = assembled ord b filled
    /\ out = o2 ++ initiating_info b t filled
    /\ initiating_ok b = true
    /\ accounts filled = map account_of_node (event_nodes b)
    /\ tx_hashes filled = list_of_set ord (map get_tx_hash (event_nodes b)).
Proof.
  intros H. rewrite block_to_action_stages in H.
  destruct (_base_block_to_action ord b t) as [[base | e0] o] eqn:Hbase;
    [| discriminate].
  destruct (fill_by_class b t base) as [[filled | e1] o2] eqn:Hfill;
    [| discriminate].
  destruct (initiating_ok b) eqn:Hi; [| discriminate].
  inversion H; subst.
  destruct (base_Ok_inv _ _ _ _ _ Hbase) as (-> & id & Hid & ->).
  exists id, filled, o2.
  destruct (fill_by_class_keeps _ _ _ _ _ Hfill) as (Htx & Hacc & _).
  repeat split; auto.
Qed.

Lemma converted_accounts ord b t a out :
  block_to_action ord b t = (Ok a, out) ->
  forall x,
    In x (accounts a)
    <-> x <> None
        /\ (In x (map account_of_node (event_nodes b))
            \/ In x (party_fields a)
            \/ In x (initiating_account b)).
Proof.
  intros H x. apply converted_inv in H.
  destruct H as (id & filled & o2 & _ & _ & -> & _ & _ & Hacc & _).
  rewrite assembled_accounts, list_of_set_In, filter_In, Hacc.
  unfold party_fields. cbn [source source_secondary destination
    destination_secondary assembled set_accounts set_extended_tx_hashes].
  rewrite !in_app_iff. cbn [In].
  assert (Hx : is_not_none x = true <-> x <> None).
  { destruct x; simpl; split; congruence. }
  rewrite Hx. tauto.
Qed.

(** X5.  The accounts of a returned action are exactly the non-null values
    among the accounts of the event nodes, the four party fields of the
    action ([source], [source_secondary], [destination],
    [destination_secondary]) and the account of an initiating node that is
    not tick-tock. *)
Theorem accounts_are_nodes_and_parties ord b t a out :
  block_to_action ord b t = (Ok a, out) ->
  forall x,
    In x (accounts a)
    <-> x <> None
        /\ (In x (map account_of_node (event_nodes b))
            \/ In x (party_fields a)
            \/ In x (initiating_account b)).
Proof. exact (converted_accounts ord b t a out). Qed.

Lemma accounts_are_nodes_and_parties_witness :
  exists a out,
    block_to_action insertion_order ton_transfer_block "T" = (Ok a, out)
    /\ In (Some "0:DST") (accounts a).
Proof.
  destruct (block_to_action insertion_order ton_transfer_block "T")
    as [[a | e] out] eqn:E; [| vm_compute in E; discriminate].
  exists a, out. split; [reflexivity |].
  apply (proj2 (accounts_are_nodes_and_parties insertion_order ton_transfer_block
                  "T" a out E (Some "0:DST"))).
  split; [discriminate |]. right. left.
  vm_compute in E. injection E as <- _. right. right. left. reflexivity.
Defined.

(** X6.  For a returned action, the line about the initiating transaction
    is logged exactly when the initiating node is not tick-tock and its
    account is neither an account of an event node nor a party field of the
    action; that account, if not null, is in the accounts all the same. *)
Theorem initiating_account_logged ord b t a out :
  block_to_action ord b t = (Ok a, out) ->
  ((exists x, In x out /\ chan x = LogInfo)
   <-> exists n m,
         initiating_event_node b = Some n
         /\ is_tick_tock n = false
         /\ message n = Some m
         /\ ~ In (Transaction.account (Message.transaction m))
              (map account_of_node (event_nodes b) ++ party_fields a))
  /\ (forall n m acc,
        initiating_event_node b = Some n ->
        is_tick_tock n = false ->
        message n = Some m ->
        Transaction.account (Message.transaction m) = Some acc ->
        In (Some acc) (accounts a)).
Proof.
  intros H. pose proof (converted_accounts _ _ _ _ _ H) as Hall.
  apply converted_inv in H.
  destruct H as (id & filled & o2 & _ & Hfill & -> & -> & _ & Hacc & _).
  split.
  - assert (Ho2 : forall x, In x o2 -> chan x <> LogInfo).
    { destruct (fill_by_class_diagnostics _ _ _ _ _ Hfill)
        as [-> | [(_ & _ & ->) | (d & n & rest & m & _ & _ & _ & _ & E & _)]];
        [intros x [] | intros x [<- | []]; discriminate | discriminate E]. }
    assert (Hlist : forall y,
               In y ((((accounts filled ++ [source filled])
                         ++ [source_secondary filled])
                        ++ [destination filled]) ++ [destination_secondary filled])
               <-> In y (map account_of_node (event_nodes b)
                         ++ party_fields (assembled ord b filled))).
    { intros y. rewrite Hacc. unfold party_fields.
      cbn [source source_secondary destination destination_secondary assembled
           set_accounts set_extended_tx_hashes].
      rewrite !in_app_iff. cbn [In]. tauto. }
    unfold initiating_info.
    destruct (initiating_event_node b) as [n |].
    + destruct (is_tick_tock n) eqn:Et.
      * rewrite app_nil_r. split.
        -- intros (x & Hx & Hc). exfalso. exact (Ho2 x Hx Hc).
        -- intros (n' & m & E & Et' & _). injection E as <-. congruence.
      * destruct (message n) as [m |] eqn:Em.
        -- match goal with
           | |- context [py_in ?y ?l] => destruct (py_in y l) eqn:Hin
           end.
           ++ rewrite app_nil_r. split.
              ** intros (x & Hx & Hc). exfalso. exact (Ho2 x Hx Hc).
              ** intros (n' & m' & E & _ & Em' & Hnot). injection E as <-.
                 rewrite Em in Em'. injection Em' as <-.
                 exfalso. apply Hnot, Hlist, py_in_In. exact Hin.
           ++ split.
              ** intros _. exists n, m. repeat split; auto.
                 intros Hy. apply Hlist, py_in_In in Hy. congruence.
              ** intros _. eexists. split; [apply in_or_app; right; left; reflexivity |].
                 reflexivity.
        -- rewrite app_nil_r. split.
           ++ intros (x & Hx & Hc). exfalso. exact (Ho2 x Hx Hc).
           ++ intros (n' & m & E & _ & Em' & _). injection E as <-. congruence.
    + rewrite app_nil_r. split.
      * intros (x & Hx & Hc). exfalso. exact (Ho2 x Hx Hc).
      * intros (n' & m & E & _). discriminate E.
  - intros n m acc Hn Ht Hm Ha. apply Hall. split; [discriminate |].
    right. right. unfold initiating_account. rewrite Hn, Ht, Hm, Ha.
    left. reflexivity.
Qed.

Lemma initiating_account_logged_witness :
  exists a out,
    block_to_action insertion_order unknown_block "T" = (Ok a, out)
    /\ In (Some "0:AAA") (accounts a).
Proof.
  destruct (block_to_action insertion_order unknown_block "T")
    as [[a | e] out] eqn:E; [| vm_compute in E; discriminate].
  exists a, out. split; [reflexivity |].
  exact (proj2 (initiating_account_logged insertion_order unknown_block "T" a out E)
           node_1 _ "0:AAA" eq_refl eq_refl eq_refl eq_refl).
Defined.

(** X7.  In a returned action [tx_hashes] and [extended_tx_hashes] hold no
    hash twice; [tx_hashes] has at most one entry per event node and
    [extended_tx_hashes] at most one entry more than [tx_hashes]. *)
Theorem hash_lists_bounded ord b t a out :
  block_to_action ord b t = (Ok a, out) ->
  NoDup (tx_hashes a)
  /\ (List.length (tx_hashes a) <= List.length (event_nodes b))%nat
  /\ exists ext,
       extended_tx_hashes a = Some ext
       /\ NoDup ext
       /\ (List.length (tx_hashes a) <= List.length ext
           <= S (List.length (tx_hashes a)))%nat.
Proof.
  intros H. apply converted_inv in H.
  destruct H as (id & filled & o2 & _ & _ & -> & _ & _ & _ & Htx).
  rewrite assembled_tx_hashes, assembled_extended, Htx.
  split; [apply list_of_set_NoDup |]. split.
  - rewrite <- (length_map get_tx_hash (event_nodes b)).
    apply NoDup_incl_length; [apply list_of_set_NoDup |].
    intros x Hx. apply list_of_set_In in Hx. exact Hx.
  - eexists. split; [reflexivity |]. split; [apply list_of_set_NoDup |]. split.
    + apply NoDup_incl_length; [apply list_of_set_NoDup |].
      intros x Hx. apply list_of_set_In. apply in_or_app. left. exact Hx.
    + etransitivity.
      * apply NoDup_incl_length; [apply list_of_set_NoDup |].
        intros x Hx. apply list_of_set_In in Hx. exact Hx.
      * rewrite length_app. unfold initiating_hash.
        destruct (initiating_event_node b); simpl; lia.
Qed.

Lemma hash_lists_bounded_witness :
  exists a out,
    block_to_action insertion_order ton_transfer_block "T" = (Ok a, out)
    /\ NoDup (tx_hashes a)
    /\ (List.length (tx_hashes a) <= 3)%nat.
Proof.
  destruct (block_to_action insertion_order ton_transfer_block "T")
    as [[a | e] out] eqn:E; [| vm_compute in E; discriminate].
  exists a, out. split; [reflexivity |].
  destruct (hash_lists_bounded insertion_order ton_transfer_block "T" a out E)
    as (H1 & H2 & _).
  split; assumption.
Defined.

(** X8.  When the initiating node is one of the event nodes of the block and
    has a transaction hash, [extended_tx_hashes] of a returned action holds
    the same hashes as [tx_hashes]. *)
Theorem initiating_node_inside ord b t a out n :
  block_to_action ord b t = (Ok a, out) ->
  initiating_event_node b = Some n ->
  In n (event_nodes b) ->
  get_tx_hash n <> None ->
  exists ext,
    extended_tx_hashes a = Some ext /\ Permutation ext (tx_hashes a).
Proof.
  intros H Hn Hin Hh. apply converted_inv in H.
  destruct H as (id & filled & o2 & _ & _ & -> & _ & _ & _ & Htx).
  rewrite assembled_tx_hashes, assembled_extended.
  eexists. split; [reflexivity |].
  apply NoDup_Permutation.
  - apply list_of_set_NoDup.
  - rewrite Htx. apply list_of_set_NoDup.
  - intros x. rewrite list_of_set_In, in_app_iff.
    unfold initiating_hash. rewrite Hn. cbn [In].
    split; [| tauto].
    intros [Hx | [<- | []]]; [exact Hx |].
    rewrite Htx. apply list_of_set_In. apply in_map_iff.
    exists n. split; [| exact Hin].
    destruct (get_tx_hash n); [reflexivity | congruence].
Qed.

Lemma initiating_node_inside_witness :
  exists a out ext,
    block_to_action insertion_order unknown_block "T" = (Ok a, out)
    /\ extended_tx_hashes a = Some ext
    /\ Permutation ext (tx_hashes a).
Proof.
  destruct (block_to_action insertion_order unknown_block "T")
    as [[a | e] out] eqn:E; [| vm_compute in E; discriminate].
  assert (Hin : In node_1 (event_nodes unknown_block)) by (left; reflexivity).
  assert (Hh : get_tx_hash node_1 <> None) by discriminate.
  destruct (initiating_node_inside insertion_order unknown_block "T" a out node_1
              E eq_refl Hin Hh) as (ext & H1 & H2).
  exists a, out, ext. auto.
Defined.

(** ** What the normalizers assign *)

(** The attributes of the action a normalizer leaves, started from the
    action of the base converter. *)
Lemma normalized_attributes ord b t id a' o :
  fill_by_class b t (base_action ord b t id) = (Ok a', o) ->
  type a' = match retyped (data b) with Some s => s | None => btype b end
  /\ success a'
     = match data b with
       | MultisigApproveBlock d => MultisigApprove.success d
       | _ => PyBool (negb (failed b))
       end
  /\ (start_lt a' = min_lt b /\ end_lt a' = max_lt b
      /\ start_utime a' = min_utime b /\ end_utime a' = max_utime b)
  /\ payload_count a' = (if has_payload (data b) then 1 else 0)%nat
  /\ match staking_provider (data b) with
     | Some p => exists rest, staking_data a' = Some (("provider", PyStr p) :: rest)
     | None => staking_data a' = None
     end.
Proof.
  unfold_fill. unfold retyped, staking_provider, has_payload.
  destruct (data b); unfold_M; intros H;
    repeat (break_match_hyp H; cbn in H); inversion H; subst; cbn;
    repeat split; try reflexivity; eexists; reflexivity.
Qed.

(** X9.  The type of a returned action is the type tag of the block, except
    for the staking and DeDust deposit classes, whose normalizers assign
    [stake_deposit], [stake_withdrawal_request], [stake_withdrawal] or
    [dex_deposit_liquidity]. *)
Theorem action_type ord b t a out :
  block_to_action ord b t = (Ok a, out) ->
  type a = match retyped (data b) with Some s => s | None => btype b end.
Proof.
  intros H. apply converted_inv in H.
  destruct H as (id & filled & o2 & _ & Hfill & -> & _).
  exact (proj1 (normalized_attributes _ _ _ _ _ _ Hfill)).
Qed.

Lemma action_type_witness :
  exists a out,
    block_to_action insertion_order withdraw_block "T" = (Ok a, out)
    /\ type a = "stake_withdrawal".
Proof.
  destruct (block_to_action insertion_order withdraw_block "T")
    as [[a | e] out] eqn:E; [| vm_compute in E; discriminate].
  exists a, out. split; [reflexivity |].
  exact (action_type insertion_order withdraw_block "T" a out E).
Defined.

(** X10.  A returned action keeps what the base converter computed: the
    trace id, the identity, the time bounds of the block, and [success] as
    the negation of the failure flag; only the normalizer of multisig
    approvals replaces [success], by the flag of its payload. *)
Theorem base_attributes_kept ord b t a out :
  block_to_action ord b t = (Ok a, out) ->
  trace_id a = t
  /\ _calc_action_id b = (Ok (action_id a), [])
  /\ start_lt a = min_lt b /\ end_lt a = max_lt b
  /\ start_utime a = min_utime b /\ end_utime a = max_utime b
  /\ success a
     = match data b with
       | MultisigApproveBlock d => MultisigApprove.success d
       | _ => PyBool (negb (failed b))
       end.
Proof.
  intros H. apply converted_inv in H.
  destruct H as (id & filled & o2 & Hid & Hfill & -> & _).
  destruct (fill_by_class_keeps _ _ _ _ _ Hfill) as (_ & _ & _ & Ht & Ha).
  destruct (normalized_attributes _ _ _ _ _ _ Hfill)
    as (_ & Hs & (H1 & H2 & H3 & H4) & _).
  cbn [trace_id action_id start_lt end_lt start_utime end_utime success
       assembled set_accounts set_extended_tx_hashes].
  rewrite Ht, Ha. cbn. auto 10.
Qed.

Lemma base_attributes_kept_witness :
  exists a out,
    block_to_action insertion_order ton_transfer_block "T" = (Ok a, out)
    /\ trace_id a = "T" /\ success a = PyBool true.
Proof.
  destruct (block_to_action insertion_order ton_transfer_block "T")
    as [[a | e] out] eqn:E; [| vm_compute in E; discriminate].
  exists a, out. split; [reflexivity |].
  destruct (base_attributes_kept insertion_order ton_transfer_block "T" a out E)
    as (H1 & _ & _ & _ & _ & _ & H2).
  split; assumption.
Defined.

(** X11.  A returned action has at most one nested payload: exactly one for
    the classes whose normalizer builds one, none for contract calls and
    deployments, jetton burns and mints, DNS renewals, subscriptions, election
    stakes, JVault unstakes and unknown classes. *)
Theorem one_payload_at_most ord b t a out :
  block_to_action ord b t = (Ok a, out) ->
  payload_count a = (if has_payload (data b) then 1 else 0)%nat.
Proof.
  intros H. apply converted_inv in H.
  destruct H as (id & filled & o2 & _ & Hfill & -> & _).
  exact (proj1 (proj2 (proj2 (proj2 (normalized_attributes _ _ _ _ _ _ Hfill))))).
Qed.

Lemma one_payload_at_most_witness :
  exists a out,
    block_to_action insertion_order ton_transfer_block "T" = (Ok a, out)
    /\ payload_count a = 1%nat.
Proof.
  destruct (block_to_action insertion_order ton_transfer_block "T")
    as [[a | e] out] eqn:E; [| vm_compute in E; discriminate].
  exists a, out. split; [reflexivity |].
  exact (one_payload_at_most insertion_order ton_transfer_block "T" a out E).
Defined.

(** X12.  [staking_data] of a returned action is set exactly for the five
    classes of the staking family, and its first key names the provider:
    [nominator] for the nominator pool classes, [tonstakers] for the
    TONStakers classes. *)
Theorem staking_data_names_provider ord b t a out :
  block_to_action ord b t = (Ok a, out) ->
  match staking_provider (data b) with
  | Some p => exists rest, staking_data a = Some (("provider", PyStr p) :: rest)
  | None => staking_data a = None
  end.
Proof.
  intros H. apply converted_inv in H.
  destruct H as (id & filled & o2 & _ & Hfill & -> & _).
  exact (proj2 (proj2 (proj2 (proj2 (normalized_attributes _ _ _ _ _ _ Hfill))))).
Qed.

Lemma staking_data_names_provider_witness :
  exists a out rest,
    block_to_action insertion_order withdraw_block "T" = (Ok a, out)
    /\ staking_data a = Some (("provider", PyStr "nominator") :: rest).
Proof.
  destruct (block_to_action insertion_order withdraw_block "T")
    as [[a | e] out] eqn:E; [| vm_compute in E; discriminate].
  destruct (staking_data_names_provider insertion_order withdraw_block "T" a out E)
    as (rest & H).
  exists a, out, rest. split; [reflexivity | exact H].
Defined.

(** ** Strings the serializer produces *)

Lemma get_In n :
  forall s c, String.get n s = Some c -> In c (list_ascii_of_string s).
Proof.
  induction n as [| n IH]; intros [| c' s] c H; simpl in H; try discriminate.
  - injection H as <-. left. reflexivity.
  - right. apply IH. exact H.
Qed.

Lemma digit_not_nul z : Base64.digit z <> Ascii.zero.
Proof.
  unfold Base64.digit.
  destruct (String.get (Z.to_nat (Z.land z 63)) Base64.alphabet) as [c |] eqn:E;
    [| discriminate].
  intros ->. apply get_In in E. vm_compute in E.
  repeat (destruct E as [E | E]; [discriminate E |]). exact E.
Qed.

Lemma b64encode_three a b c rest :
  Base64.b64encode (a :: b :: c :: rest)
  = (let n := Z.lor (Z.lor (Z.shiftl (Bytes.to_Z a) 16) (Z.shiftl (Bytes.to_Z b) 8))
                    (Bytes.to_Z c) in
     String (Base64.digit (Z.shiftr n 18)) (String (Base64.digit (Z.shiftr n 12))
       (String (Base64.digit (Z.shiftr n 6))
          (String (Base64.digit n) (Base64.b64encode rest))))).
Proof. reflexivity. Qed.

(** Induction on a list, three elements at a time. *)
Lemma list_ind3 {A} (P : list A -> Prop) :
  P [] -> (forall a, P [a]) -> (forall a b, P [a; b]) ->
  (forall a b c rest, P rest -> P (a :: b :: c :: rest)) ->
  forall l, P l.
Proof.
  intros H0 H1 H2 H3.
  assert (H : forall l, P l /\ (forall a, P (a :: l)) /\ (forall a b, P (a :: b :: l))).
  { induction l as [| x l (IH0 & IH1 & IH2)]; auto. }
  intros l. apply H.
Qed.

Lemma b64encode_nul_free bs : nul_free (Base64.b64encode bs).
Proof.
  unfold nul_free. induction bs as [| a | a b | a b c rest IH] using list_ind3.
  - intros [].
  - cbv [Base64.b64encode list_ascii_of_string Base64.fill].
    intros [H | [H | [H | [H | []]]]];
      try discriminate H; exact (digit_not_nul _ H).
  - cbv [Base64.b64encode list_ascii_of_string Base64.fill].
    intros [H | [H | [H | [H | []]]]];
      try discriminate H; exact (digit_not_nul _ H).
  - rewrite b64encode_three. cbv zeta. cbn [list_ascii_of_string].
    intros [H | [H | [H | [H | H]]]];
      try exact (digit_not_nul _ H).
    exact (IH H).
Qed.

Lemma b64encode_length bs :
  String.length (Base64.b64encode bs) = (4 * ((List.length bs + 2) / 3))%nat.
Proof.
  induction bs as [| a | a b | a b c rest IH] using list_ind3; try reflexivity.
  rewrite b64encode_three. cbv zeta. cbn [String.length List.length].
  rewrite IH.
  replace (S (S (S (List.length rest))) + 2)%nat
    with ((List.length rest + 2) + 1 * 3)%nat by lia.
  rewrite Nat.div_add by discriminate. lia.
Qed.

Lemma digest_length msg : List.length (Sha256.digest msg) = 32%nat.
Proof. unfold Sha256.digest. reflexivity. Qed.

Lemma replace_nul_nul_free s : nul_free (replace_nul s).
Proof.
  unfold nul_free. rewrite replace_nul_spec. intros H.
  apply filter_In in H. destruct H as [_ H]. discriminate H.
Qed.

Lemma replace_nul_clean s : nul_free s -> replace_nul s = s.
Proof.
  unfold nul_free. induction s as [| c s IH]; simpl; [reflexivity |].
  intros H. destruct (Ascii.eqb c Ascii.zero) eqn:E.
  - apply Ascii.eqb_eq in E. exfalso. apply H. left. auto.
  - f_equal. apply IH. intros Hin. apply H. right. exact Hin.
Qed.

(** X13.  The identity of an action is a text of 44 characters: the base64
    form of a digest of 32 bytes. *)
Theorem action_id_length b id out :
  _calc_action_id b = (Ok id, out) -> String.length id = 44%nat.
Proof.
  unfold _calc_action_id, py_min.
  destruct (event_nodes b); cbv beta iota delta [bind ret raise];
    intros H; inversion H; subst.
  rewrite b64encode_length, digest_length. reflexivity.
Qed.

Lemma action_id_length_witness :
  String.length "rqSqcaQKN6SauoYaObigxZYbjDOUPdKG56V0rHCm1lA=" = 44%nat.
Proof.
  apply (action_id_length ton_transfer_block _ []).
  vm_compute. reflexivity.
Defined.

Lemma min_from_minimal {A} (key : A -> Z) rest :
  forall best,
    (min_from key best rest = best \/ In (min_from key best rest) rest)
    /\ key (min_from key best rest) <= key best
    /\ forall m, In m rest -> key (min_from key best rest) <= key m.
Proof.
  induction rest as [| x rest IH]; intros best; simpl.
  - split; [left; reflexivity |]. split; [lia | intros m []].
  - destruct (key x <? key best) eqn:E.
    + apply Z.ltb_lt in E. destruct (IH x) as (H1 & H2 & H3).
      split; [destruct H1 as [-> | H1]; auto |]. split; [lia |].
      intros m [<- | Hm]; auto.
    + apply Z.ltb_ge in E. destruct (IH best) as (H1 & H2 & H3).
      split; [destruct H1 as [-> | H1]; auto |]. split; [exact H2 |].
      intros m [<- | Hm]; [lia | auto].
Qed.

Lemma py_min_strict {A} (key : A -> Z) xs r :
  strict_minimum key xs r -> py_min key xs = (Ok r, []).
Proof.
  intros [Hin Huniq]. destruct xs as [| x rest]; [destruct Hin |].
  unfold py_min, ret. f_equal. f_equal.
  destruct (min_from_minimal key rest x) as (H1 & H2 & H3).
  apply Huniq.
  - destruct H1 as [-> | H1]; [left; reflexivity | right; exact H1].
  - destruct Hin as [<- | Hin]; [exact H2 | apply H3; exact Hin].
Qed.

(** X14.  When one event node has a logical time strictly below that of
    every other, the identity of the action does not depend on the order of
    the event nodes: two blocks with the same type tag whose node lists are
    permutations of each other get the same identity. *)
Theorem action_id_order_independent b b' r :
  btype b = btype b' ->
  Permutation (event_nodes b) (event_nodes b') ->
  strict_minimum get_lt (event_nodes b) r ->
  _calc_action_id b = _calc_action_id b'.
Proof.
  intros Ht Hperm Hmin.
  assert (Hmin' : strict_minimum get_lt (event_nodes b') r).
  { destruct Hmin as [Hin Huniq]. split.
    - eapply Permutation_in; eassumption.
    - intros m Hm. apply Huniq.
      eapply Permutation_in; [apply Permutation_sym |]; eassumption. }
  unfold _calc_action_id.
  rewrite (py_min_strict _ _ _ Hmin), (py_min_strict _ _ _ Hmin'), Ht.
  reflexivity.
Qed.

Lemma action_id_order_independent_witness :
  _calc_action_id (block_of "ton_transfer" [node_1; node_2] OtherBlock None)
  = _calc_action_id reordered_block.
Proof.
  apply (action_id_order_independent _ reordered_block node_2).
  - reflexivity.
  - apply perm_swap.
  - split; [right; left; reflexivity |].
    intros m [<- | [<- | []]] H; [vm_compute in H; congruence | reflexivity].
Defined.

(** ** Comments and assets of transfers *)

(** X15.  The comment stored for a native or a jetton transfer never holds
    a null character, whether it was stripped, decoded or base64-encoded;
    a comment of a native transfer that has none is stored unchanged. *)
Theorem stored_comment_nul_free ord b t a out :
  block_to_action ord b t = (Ok a, out) ->
  (forall d dict s,
      data b = TonTransferBlock d ->
      ton_transfer_data a = Some dict ->
      dict_get "content" dict = Some (PyStr s) ->
      nul_free s)
  /\ (forall d dict s,
        data b = JettonTransferBlock d ->
        jetton_transfer_data a = Some dict ->
        dict_get "comment" dict = Some (PyStr s) ->
        nul_free s)
  /\ (forall d c,
        data b = TonTransferBlock d ->
        TonTransfer.comment d = Some c ->
        nul_free c ->
        exists dict,
          ton_transfer_data a = Some dict
          /\ dict_get "content" dict = Some (PyStr c)).
Proof.
  intros H. apply converted_inv in H.
  destruct H as (id & filled & o2 & _ & Hfill & -> & _).
  unfold fill_by_class in Hfill.
  split; [| split].
  - intros d dict s Hd Hdict Hget. rewrite Hd in Hfill.
    unfold _fill_ton_transfer_action in Hfill. unfold_M_in Hfill.
    repeat (break_match_hyp Hfill; cbn in Hfill); try discriminate;
      injection Hfill as <- _; cbn in Hdict; injection Hdict as <-;
      cbn in Hget;
      destruct (TonTransfer.comment d); cbn in Hget; inversion Hget;
      apply replace_nul_nul_free.
  - intros d dict s Hd Hdict Hget. rewrite Hd in Hfill.
    unfold _fill_jetton_transfer_action in Hfill. unfold_M_in Hfill.
    repeat (break_match_hyp Hfill; cbn in Hfill); try discriminate;
      injection Hfill as <- _; cbn in Hdict; injection Hdict as <-;
      cbn in Hget; inversion Hget;
      first [apply replace_nul_nul_free | apply b64encode_nul_free].
  - intros d c Hd Hc Hclean. rewrite Hd in Hfill.
    unfold _fill_ton_transfer_action in Hfill. rewrite Hc in Hfill.
    unfold_M_in Hfill.
    repeat (break_match_hyp Hfill; cbn in Hfill); try discriminate;
      injection Hfill as <- _; cbn;
      (eexists; split; [reflexivity |]); cbn;
      rewrite (replace_nul_clean _ Hclean); reflexivity.
Qed.

Lemma stored_comment_nul_free_witness :
  nul_free "ab".
Proof.
  destruct (block_to_action insertion_order ton_transfer_block "T")
    as [[a | e] out] eqn:E; [| vm_compute in E; discriminate].
  pose proof (proj1 (stored_comment_nul_free insertion_order ton_transfer_block
                       "T" a out E)) as H.
  vm_compute in E. injection E as <- _.
  exact (H _ _ "ab" eq_refl eq_refl eq_refl).
Defined.

Lemma valid_ascii c : Forall is_ascii c -> Utf8.valid c = true.
Proof.
  induction 1 as [| a r Ha _ IH]; [reflexivity |].
  unfold is_ascii in Ha. apply Z.ltb_lt in Ha.
  unfold Utf8.valid in *. rewrite Ha. exact IH.
Qed.

(** X16.  A jetton transfer whose comment consists of ASCII bytes never
    fails with [UnicodeDecodeError]. *)
Theorem ascii_comment_decodes ord b t d c out :
  data b = JettonTransferBlock d ->
  JettonTransfer.comment d = Some c ->
  Forall is_ascii c ->
  block_to_action ord b t <> (Raise UnicodeDecodeError, out).
Proof.
  intros Hd Hc Hascii H. rewrite block_to_action_stages in H.
  destruct (_base_block_to_action ord b t) as [[base | e0] o] eqn:Hbase.
  - destruct (fill_by_class b t base) as [[filled | e1] o2] eqn:Hfill.
    + destruct (initiating_ok b); discriminate H.
    + inversion H; subst.
      destruct (fill_by_class_raise _ _ _ _ _ Hfill) as (_ & _ & Hu).
      destruct (Hu eq_refl) as (d' & c' & Hd' & Hc' & _ & Hv).
      rewrite Hd in Hd'. injection Hd' as <-.
      rewrite Hc in Hc'. injection Hc' as <-.
      rewrite (valid_ascii _ Hascii) in Hv. discriminate Hv.
  - inversion H; subst.
    destruct (base_raise _ _ _ _ _ Hbase) as (_ & [[E _] | [E _]]); discriminate E.
Qed.

Lemma ascii_comment_decodes_witness :
  block_to_action insertion_order
    (jetton_transfer_with (Some [x61; x00; x62]) false) "T"
  <> (Raise UnicodeDecodeError, []).
Proof.
  apply (ascii_comment_decodes insertion_order
           (jetton_transfer_with (Some [x61; x00; x62]) false) "T" _
           [x61; x00; x62] [] eq_refl eq_refl).
  repeat constructor.
Defined.

(** X17.  The asset of a jetton transfer: null when the payload has no
    asset or the asset is flagged native, even if it names a jetton; else
    the address [_addr] resolves the asset to.  [_addr] itself does not look
    at the flag. *)
Theorem jetton_transfer_asset ord b t d a out :
  data b = JettonTransferBlock d ->
  block_to_action ord b t = (Ok a, out) ->
  (JettonTransfer.asset d = None -> asset a = None)
  /\ (forall x,
        JettonTransfer.asset d = Some x ->
        (Asset.is_ton x = true -> asset a = None)
        /\ (Asset.is_ton x = false ->
            asset a = _addr (Some (OfAsset x)) /\ asset a <> None))
  /\ (forall x x',
        Asset.jetton_address x = Asset.jetton_address x' ->
        _addr (Some (OfAsset x)) = _addr (Some (OfAsset x'))).
Proof.
  intros Hd H. apply converted_inv in H.
  destruct H as (id & filled & o2 & _ & Hfill & -> & _).
  unfold fill_by_class in Hfill. rewrite Hd in Hfill.
  unfold _fill_jetton_transfer_action in Hfill. unfold_M_in Hfill.
  split; [| split].
  - intros Hnone. rewrite Hnone in Hfill.
    repeat (break_match_hyp Hfill; cbn in Hfill); try discriminate;
      injection Hfill as <- _; reflexivity.
  - intros x Hx. rewrite Hx in Hfill.
    split; intros Hton; rewrite Hton in Hfill.
    + repeat (break_match_hyp Hfill; cbn in Hfill); try discriminate;
        injection Hfill as <- _; reflexivity.
    + repeat (break_match_hyp Hfill; cbn in Hfill); try discriminate;
        injection Hfill as <- _; cbn;
        repeat match goal with
               | E : Asset.jetton_address _ = _ |- _ => rewrite E
               end;
        (split; [reflexivity | discriminate]).
  - intros x x' E. cbn. rewrite E. reflexivity.
Qed.

Lemma jetton_transfer_asset_witness :
  exists a out,
    block_to_action insertion_order native_flagged_transfer "T" = (Ok a, out)
    /\ asset a = None.
Proof.
  destruct (block_to_action insertion_order native_flagged_transfer "T")
    as [[a | e] out] eqn:E; [| vm_compute in E; discriminate].
  exists a, out. split; [reflexivity |].
  exact (proj1 (proj1 (proj2 (jetton_transfer_asset insertion_order
                                native_flagged_transfer "T" _ a out eq_refl E))
                  _ eq_refl) eq_refl).
Defined.

(** ** Nested payloads *)

Lemma hex_length bs :
  String.length (Bytes.hex bs) = (2 * List.length bs)%nat.
Proof.
  induction bs as [| b rest IH]; [reflexivity |].
  unfold Bytes.hex in *. cbn [String.length List.length]. rewrite IH. lia.
Qed.

(** X18.  The payload of a DNS change always has the keys [value_schema],
    [flags], [address], [key], in this order, and the key [dns_text] after
    them exactly for the schema [DNSText]; [key] is the record key in
    hexadecimal, two digits per byte; [flags] is null unless the schema is
    [DNSSmcAddress] or [DNSAdnlAddress], and [address] is null unless it is
    one of these or [DNSNextResolver]. *)
Theorem dns_change_record_shape ord b t d a out :
  data b = DnsChangeRecordBlock d ->
  block_to_action ord b t = (Ok a, out) ->
  exists dict,
    change_dns_record_data a = Some dict
    /\ map fst dict
       = ["value_schema"; "flags"; "address"; "key"]
           ++ (if String.eqb (DnsChangeRecord.schema (DnsChangeRecord.value d))
                    "DNSText"
               then ["dns_text"] else [])
    /\ dict_get "value_schema" dict
       = Some (PyStr (DnsChangeRecord.schema (DnsChangeRecord.value d)))
    /\ dict_get "key" dict = Some (PyStr (Bytes.hex (DnsChangeRecord.key d)))
    /\ String.length (Bytes.hex (DnsChangeRecord.key d))
       = (2 * List.length (DnsChangeRecord.key d))%nat
    /\ (String.eqb (DnsChangeRecord.schema (DnsChangeRecord.value d))
          "DNSSmcAddress" = false ->
        String.eqb (DnsChangeRecord.schema (DnsChangeRecord.value d))
          "DNSAdnlAddress" = false ->
        dict_get "flags" dict = Some PyNone
        /\ (String.eqb (DnsChangeRecord.schema (DnsChangeRecord.value d))
              "DNSNextResolver" = false ->
            dict_get "address" dict = Some PyNone)).
Proof.
  intros Hd H. apply converted_inv in H.
  destruct H as (id & filled & o2 & _ & Hfill & -> & _).
  unfold fill_by_class in Hfill. rewrite Hd in Hfill.
  unfold _fill_change_dns_record_action in Hfill. unfold_M_in Hfill.
  destruct (String.eqb (DnsChangeRecord.schema (DnsChangeRecord.value d))
              "DNSNextResolver") eqn:E1;
    destruct (String.eqb (DnsChangeRecord.schema (DnsChangeRecord.value d))
                "DNSSmcAddress") eqn:E2;
    destruct (String.eqb (DnsChangeRecord.schema (DnsChangeRecord.value d))
                "DNSAdnlAddress") eqn:E3;
    destruct (String.eqb (DnsChangeRecord.schema (DnsChangeRecord.value d))
                "DNSText") eqn:E4;
    cbn in Hfill;
    repeat (break_match_hyp Hfill; cbn in Hfill); try discriminate Hfill;
    injection Hfill as <- _;
    (eexists; split; [reflexivity |]); cbn;
    (split; [reflexivity |]); (split; [reflexivity |]);
    (split; [reflexivity |]); (split; [apply hex_length |]);
    intros; try discriminate; (split; [reflexivity |]);
    intros; try discriminate; reflexivity.
Qed.

Lemma dns_change_record_shape_witness :
  exists a out dict,
    block_to_action insertion_order dns_text_block "T" = (Ok a, out)
    /\ change_dns_record_data a = Some dict
    /\ map fst dict = ["value_schema"; "flags"; "address"; "key"; "dns_text"]
    /\ dict_get "key" dict = Some (PyStr "ab01").
Proof.
  destruct (block_to_action insertion_order dns_text_block "T")
    as [[a | e] out] eqn:E; [| vm_compute in E; discriminate].
  destruct (dns_change_record_shape insertion_order dns_text_block "T" _ a out
              eq_refl E) as (dict & H1 & H2 & _ & H4 & _).
  exists a, out, dict. split; [reflexivity |]. split; [exact H1 |].
  split; [exact H2 | exact H4].
Defined.

(** X19.  The payload of an NFT transfer reports a price only for a
    purchase whose payload has one; the source of the action is null exactly
    when the payload has no previous owner. *)
Theorem nft_price_only_for_purchase ord b t d a out :
  data b = NftTransferBlock d ->
  block_to_action ord b t = (Ok a, out) ->
  exists dict,
    nft_transfer_data a = Some dict
    /\ (NftTransfer.is_purchase d = false -> dict_get "price" dict = Some PyNone)
    /\ (NftTransfer.price d = None -> dict_get "price" dict = Some PyNone)
    /\ (forall p,
          NftTransfer.is_purchase d = true ->
          NftTransfer.price d = Some p ->
          dict_get "price" dict = Some (PyInt (Amount.value p)))
    /\ (source a = None
        <-> NftTransfer.prev_owner d = None
            \/ NftTransfer.prev_owner d = Some None).
Proof.
  intros Hd H. apply converted_inv in H.
  destruct H as (id & filled & o2 & _ & Hfill & -> & _).
  unfold fill_by_class in Hfill. rewrite Hd in Hfill.
  injection Hfill as <- _. unfold _fill_nft_transfer_action.
  destruct (NftTransfer.prev_owner d) as [[p |] |];
    destruct (NftTransfer.collection_of (NftTransfer.nft_of d));
    destruct (NftTransfer.price d) as [pr |];
    destruct (NftTransfer.is_purchase d); cbn;
    (eexists; split; [reflexivity |]); cbn;
    repeat split; intros; try discriminate; try reflexivity; auto;
    try congruence;
    match goal with
    | H : _ \/ _ |- _ => destruct H; discriminate
    end.
Qed.

Lemma nft_price_only_for_purchase_witness :
  exists a out dict,
    block_to_action insertion_order nft_gift_block "T" = (Ok a, out)
    /\ nft_transfer_data a = Some dict
    /\ dict_get "price" dict = Some PyNone.
Proof.
  destruct (block_to_action insertion_order nft_gift_block "T")
    as [[a | e] out] eqn:E; [| vm_compute in E; discriminate].
  destruct (nft_price_only_for_purchase insertion_order nft_gift_block "T" _ a out
              eq_refl E) as (dict & H1 & H2 & _).
  exists a, out, dict. split; [reflexivity |]. split; [exact H1 |].
  exact (H2 eq_refl).
Defined.

Arguments _addr : simpl never.



(** X21.  The three liquidity deposit classes fill
    [dex_deposit_liquidity_data] with the same eight keys, each once; a
    partial DeDust deposit has a null [lp_tokens_minted] and no
    destination. *)
Theorem dex_deposit_keys_uniform ord b t a out :
  is_dex_deposit (data b) = true ->
  block_to_action ord b t = (Ok a, out) ->
  exists dict,
    dex_deposit_liquidity_data a = Some dict
    /\ NoDup (map fst dict)
    /\ (forall k, In k (map fst dict) <-> In k dex_deposit_keys)
    /\ (forall d,
          data b = DedustDepositLiquidityPartialBlock d ->
          dict_get "lp_tokens_minted" dict = Some PyNone
          /\ destination a = None).
Proof.
  intros Hc H. apply converted_inv in H.
  destruct H as (id & filled & o2 & _ & Hfill & -> & _).
  unfold fill_by_class in Hfill.
  destruct (data b) eqn:Hd; try discriminate Hc;
    injection Hfill as <- _;
    (eexists; split; [reflexivity |]); cbn;
    (split; [repeat (constructor; [simpl; intuition discriminate |]); constructor |]);
    (split; [intros k; unfold dex_deposit_keys; simpl; tauto |]);
    intros d' Hd'; try discriminate Hd'; split; reflexivity.
Qed.

Lemma dex_deposit_keys_uniform_witness :
  exists a out dict,
    block_to_action insertion_order dedust_partial_block "T" = (Ok a, out)
    /\ dex_deposit_liquidity_data a = Some dict
    /\ dict_get "lp_tokens_minted" dict = Some PyNone
    /\ destination a = None.
Proof.
  destruct (block_to_action insertion_order dedust_partial_block "T")
    as [[a | e] out] eqn:E; [| vm_compute in E; discriminate].
  destruct (dex_deposit_keys_uniform insertion_order dedust_partial_block "T" a out
              eq_refl E) as (dict & H1 & _ & _ & H4).
  exists a, out, dict. split; [reflexivity |]. split; [exact H1 |].
  exact (H4 _ eq_refl).
Defined.

(** X22.  The address lists of a JVault claim and of a vesting allow-list
    are resolved entry by entry: the list of the payload has the length of
    the input, and an entry that resolves to no address stays in its place
    as null, so [claimed_jettons] lines up with [claimed_amounts]. *)
Theorem address_lists_aligned ord b t a out :
  block_to_action ord b t = (Ok a, out) ->
  (forall d,
      data b = JVaultClaimBlock d ->
      exists dict l,
        jvault_claim_data a = Some dict
        /\ dict_get "claimed_jettons" dict = Some (PyList l)
        /\ dict_get "claimed_amounts" dict = Some (JVaultClaim.claimed_amounts d)
        /\ List.length l = List.length (JVaultClaim.claimed_jettons d)
        /\ forall i,
             nth i l PyNone
             = of_opt_str (_addr (nth i (JVaultClaim.claimed_jettons d) None)))
  /\ (forall d,
        data b = VestingAddWhiteListBlock d ->
        exists dict l,
          vesting_add_whitelist_data a = Some dict
          /\ dict_get "accounts_added" dict = Some (PyList l)
          /\ List.length l = List.length (VestingAddWhiteList.accounts_added d)
          /\ forall i,
               nth i l PyNone
               = of_opt_str
                   (_addr (nth i (VestingAddWhiteList.accounts_added d) None))).
Proof.
  intros H. apply converted_inv in H.
  destruct H as (id & filled & o2 & _ & Hfill & -> & _).
  unfold fill_by_class in Hfill.
  split; intros d Hd; rewrite Hd in Hfill; injection Hfill as <- _;
    eexists; eexists; (split; [reflexivity |]); cbn;
    repeat (split; [reflexivity |]);
    (split; [apply length_map |]);
    intros i;
    exact (map_nth (fun j => of_opt_str (_addr j)) _ None i).
Qed.

Lemma address_lists_aligned_witness :
  exists a out dict,
    block_to_action insertion_order claim_block "T" = (Ok a, out)
    /\ jvault_claim_data a = Some dict
    /\ dict_get "claimed_jettons" dict
       = Some (PyList [PyStr "0:J1"; PyNone; PyStr "0:J3"]).
Proof.
  destruct (block_to_action insertion_order claim_block "T")
    as [[a | e] out] eqn:E; [| vm_compute in E; discriminate].
  destruct (proj1 (address_lists_aligned insertion_order claim_block "T" a out E)
              _ eq_refl) as (dict & l & H1 & H2 & _).
  exists a, out, dict. split; [reflexivity |]. split; [exact H1 |].
  vm_compute in E. injection E as <- _.
  cbn in H1. injection H1 as <-. reflexivity.
Defined.

(** X23.  A jetton mint and an election stake keep an absent amount apart
    from a zero amount: the attribute is null exactly when the payload has no
    amount, and an amount of zero is stored as the integer 0. *)
Theorem absent_amount_is_null ord b t a out :
  block_to_action ord b t = (Ok a, out) ->
  (forall d,
      data b = JettonMintBlock d ->
      (amount a = PyNone <-> JettonMint.amount d = None)
      /\ (value a = PyNone <-> JettonMint.ton_amount d = None)
      /\ (forall x, JettonMint.amount d = Some x -> amount a = PyInt (Amount.value x)))
  /\ (forall d,
        data b = ElectionDepositStakeBlock d \/ data b = ElectionRecoverStakeBlock d ->
        (amount a = PyNone <-> Election.amount d = None)
        /\ (forall x, Election.amount d = Some x -> amount a = PyInt (Amount.value x))).
Proof.
  intros H. apply converted_inv in H.
  destruct H as (id & filled & o2 & _ & Hfill & -> & _).
  unfold fill_by_class in Hfill. split.
  - intros d Hd. rewrite Hd in Hfill. injection Hfill as <- _.
    unfold _fill_jetton_mint_action.
    destruct (JettonMint.amount d), (JettonMint.ton_amount d); cbn;
      repeat split; intros; try discriminate; try congruence.
  - intros d [Hd | Hd]; rewrite Hd in Hfill; injection Hfill as <- _;
      unfold _fill_election_action;
      destruct (Election.amount d); cbn;
      repeat split; intros; try discriminate; try congruence.
Qed.

Lemma absent_amount_is_null_witness :
  exists a out,
    block_to_action insertion_order mint_of_nothing "T" = (Ok a, out)
    /\ amount a = PyInt 0 /\ value a = PyNone.
Proof.
  destruct (block_to_action insertion_order mint_of_nothing "T")
    as [[a | e] out] eqn:E; [| vm_compute in E; discriminate].
  destruct (proj1 (absent_amount_is_null insertion_order mint_of_nothing "T" a out E)
              _ eq_refl) as (_ & H2 & H3).
  exists a, out. split; [reflexivity |].
  split; [exact (H3 _ eq_refl) | exact (proj2 H2 eq_refl)].
Defined.

(** ** Peer swaps *)

(** X24.  [_convert_peer_swap] gives the four keys [amount_in], [asset_in],
    [amount_out], [asset_out], and resolves each asset as [_addr] does: to
    the address of its jetton, or to null when it names none. *)
Theorem convert_peer_swap_resolves p :
  map fst (_convert_peer_swap p)
  = ["amount_in"; "asset_in"; "amount_out"; "asset_out"]
  /\ dict_get "asset_in" (_convert_peer_swap p)
     = Some (of_opt_str (_addr (Some (OfAsset (PeerSwap.asset (PeerSwap.in_ p))))))
  /\ dict_get "asset_out" (_convert_peer_swap p)
     = Some (of_opt_str (_addr (Some (OfAsset (PeerSwap.asset (PeerSwap.out p))))))
  /\ dict_get "amount_in" (_convert_peer_swap p)
     = Some (PyInt (Amount.value (PeerSwap.amount (PeerSwap.in_ p))))
  /\ dict_get "amount_out" (_convert_peer_swap p)
     = Some (PyInt (Amount.value (PeerSwap.amount (PeerSwap.out p)))).
Proof.
  unfold _convert_peer_swap, _addr, as_str_or_none. cbn.
  destruct (Asset.jetton_address (PeerSwap.asset (PeerSwap.in_ p)));
    destruct (Asset.jetton_address (PeerSwap.asset (PeerSwap.out p)));
    repeat split; reflexivity.
Qed.
